(** * AI-Trading-Bot: execution guard, calendar store, source orchestrator
    and daily pipeline

    A shallow embedding of the modules of the repository:
    - [pipeline/shutdown.py]          (module [Guard]),
    - [pipeline/market_calendars.py]  (module [Calendar]),
    - [pipeline/data_sources.py]      (module [Sources]),
    - [pipeline/fetch.py], [normalize.py], [run_llm.py], [validate.py] and
      [main.py]                       (module [Pipeline]),
    - [tools/query_calendars.py]      (module [Tools]),
    followed by the properties the specification states about the first
    three (modules [GuardFacts], [CalendarFacts], [SourcesFacts]) and by
    further properties of the code (modules [GuardMore], [CalendarMore],
    [SourcesMore], [PipelineFacts], [ToolsFacts]).

    Conventions of the embedding.
    - Python [int] is [Z]; Python [str] is [string], compared byte-wise
      (the order of code points on the text the program handles).
    - Clock readings ([time.time()]) and the other [float] values are exact
      rationals [Q]; rounding, infinities and the range of a double are not
      part of the model.  Equality of such values is [Qeq] ([==]).
    - A method that reads the clock takes each reading as an argument
      ([now]); the time stamps given to the events built during one call
      are one such argument.
    - A method that can raise returns a [result]; a method that mutates
      [self] returns the new object, together with the outcome when it can
      also raise.
    - A [dict] is a [gmap]; where the program iterates over a dict, what it
      computes from the iteration does not depend on the order of the keys.
    - The file system is the [disk] record of module [Calendar]: what the
      program finds at the two calendar paths, and whether a write fails.
      Module [Pipeline] has its own [disk]: what loading each file that the
      pipeline reads gives, the files of [data/events], and whether the two
      output directories can be written.  A file written with [yaml.dump]
      holds the value dumped; file names are the keys of a directory, so a
      date is taken to contain no path separator.
    - The functions of PyYAML and [str.lower] that the pipeline applies to
      text are the fields of a [library] record; the statements hold for
      every library.
    - The printing and logging of the programs are left out. *)

From Stdlib Require Import ZArith QArith Lqa Lia Bool List.
From stdpp Require Import gmap strings list fin_maps.

(** ** Python values shared by the modules *)

Module Py.

(** The exception classes the modelled code can raise. *)
Inductive exn : Type :=
| ZeroDivisionError
| ValueError
| KeyError
| TypeError
| OSError
| YAMLError
| OverflowError
| AttributeError.

Inductive result (A : Type) : Type :=
| Ok (a : A)
| Raise (e : exn).

Arguments Ok {A} a.
Arguments Raise {A} e.

Definition bind {A B : Type} (r : result A) (k : A -> result B) : result B :=
  match r with
  | Ok a => k a
  | Raise e => Raise e
  end.

#[global] Instance result_bind : MBind result := fun A B k r => bind r k.
#[global] Instance result_ret : MRet result := @Ok.

Definition raises {A : Type} (r : result A) : Prop :=
  match r with
  | Ok _ => False
  | Raise _ => True
  end.

(** The least magnitude that rounds out of the range of a float: half an
    ulp above the largest double, [2^1024 - 2^970]. *)
Definition double_overflow : Z := 2 ^ 1024 - 2 ^ 970.

(** [a / b] on two ints: true division.  [ZeroDivisionError] on a zero
    divisor; [OverflowError] when the quotient, which Python rounds once
    from the exact value, is too large for a float, that is when
    [|a| / |b| >= double_overflow]. *)
Definition truediv (a b : Z) : result Q :=
  if Z.eqb b 0 then Raise ZeroDivisionError
  else if (double_overflow * Z.abs b <=? Z.abs a)%Z then Raise OverflowError
  else Ok (Qdiv (inject_Z a) (inject_Z b)).

(** An int that converts to a float: [float(n)], and [n - x] for a float
    [x], raise [OverflowError] for any other. *)
Definition fits_float (n : Z) : Prop := (Z.abs n < double_overflow)%Z.

(** [x < y] on floats. *)
Definition Qltb (x y : Q) : bool := negb (Qle_bool y x).

(** Truth value of a float: [0.0] is falsy. *)
Definition truthy_float (x : Q) : bool := negb (Qeq_bool x 0).

End Py.

(** ** shutdown.py *)

Module Guard.
Import Py.

(** [config['limits']] as far as the guard reads it. *)
Record limits : Type := {
  cfg_daily_token_budget : Z;
  cfg_execution_window_minutes : Z
}.

Record ExecutionGuard : Type := {
  start_time : option Q;
  tokens_used : Z;
  daily_token_budget : Z;
  execution_window_minutes : Z;
  max_runtime_seconds : Z
}.

(** [ExecutionGuard.__init__] *)
Definition init (config : limits) : ExecutionGuard :=
  {| start_time := None;
     tokens_used := 0;
     daily_token_budget := cfg_daily_token_budget config;
     execution_window_minutes := cfg_execution_window_minutes config;
     max_runtime_seconds := (cfg_execution_window_minutes config - 5) * 60 |}.

(** [ExecutionGuard.start] *)
Definition start (g : ExecutionGuard) (now : Q) : ExecutionGuard :=
  {| start_time := Some now;
     tokens_used := tokens_used g;
     daily_token_budget := daily_token_budget g;
     execution_window_minutes := execution_window_minutes g;
     max_runtime_seconds := max_runtime_seconds g |}.

(** The test [if self.start_time] / [if not self.start_time]: [None] is
    falsy, and so is a reading of [0.0]. *)
Definition start_time_set (g : ExecutionGuard) : option Q :=
  match start_time g with
  | Some s => if truthy_float s then Some s else None
  | None => None
  end.

(** [ExecutionGuard.check_time_remaining] *)
Definition check_time_remaining (g : ExecutionGuard) (now : Q) : Q :=
  match start_time_set g with
  | None => inject_Z (max_runtime_seconds g)
  | Some s =>
      let elapsed := (now - s)%Q in
      let remaining := (inject_Z (max_runtime_seconds g) - elapsed)%Q in
      remaining
  end.

(** [ExecutionGuard.should_continue] *)
Definition should_continue (g : ExecutionGuard) (now : Q) : bool :=
  let remaining_secs := check_time_remaining g now in
  let remaining_tokens := (daily_token_budget g - tokens_used g)%Z in
  if Qltb remaining_secs 30 then false
  else if (remaining_tokens <? 1000)%Z then false
  else true.

(** [ExecutionGuard.record_tokens]: the counter is updated before the
    percentage is computed, so the new guard is returned in both cases. *)
Definition record_tokens (g : ExecutionGuard) (count : Z)
  : ExecutionGuard * result unit :=
  let g' := {| start_time := start_time g;
               tokens_used := tokens_used g + count;
               daily_token_budget := daily_token_budget g;
               execution_window_minutes := execution_window_minutes g;
               max_runtime_seconds := max_runtime_seconds g |} in
  (g', q ← truediv (tokens_used g') (daily_token_budget g');
       let budget_pct := (q * 100)%Q in
       Ok tt).

(** The expression
    [time.time() - self.start_time if self.start_time else 0]
    of [force_shutdown] and [get_status]. *)
Definition elapsed_seconds (g : ExecutionGuard) (now : Q) : Q :=
  match start_time_set g with
  | Some s => (now - s)%Q
  | None => 0%Q
  end.

Record shutdown_report : Type := {
  shutdown_reason : string;
  report_elapsed_seconds : Q;
  report_tokens_used : Z;
  report_timestamp : string
}.

(** [ExecutionGuard.force_shutdown]; [stamp] is
    [datetime.now().isoformat()]. *)
Definition force_shutdown (g : ExecutionGuard) (now : Q) (stamp : string)
  : shutdown_report :=
  let elapsed := elapsed_seconds g now in
  {| shutdown_reason := "execution_guard_exceeded";
     report_elapsed_seconds := elapsed;
     report_tokens_used := tokens_used g;
     report_timestamp := stamp |}.

Record status : Type := {
  status_elapsed_seconds : Q;
  status_remaining_seconds : Q;
  status_tokens_used : Z;
  status_remaining_tokens : Z;
  status_budget_exhaustion_pct : Q
}.

(** [ExecutionGuard.get_status]; the method reads the clock twice, first
    for [elapsed] ([now]) and then inside [check_time_remaining] ([now']). *)
Definition get_status (g : ExecutionGuard) (now now' : Q) : result status :=
  let elapsed := elapsed_seconds g now in
  let remaining_secs := check_time_remaining g now' in
  let remaining_tokens := (daily_token_budget g - tokens_used g)%Z in
  q ← truediv (tokens_used g) (daily_token_budget g);
  Ok {| status_elapsed_seconds := elapsed;
        status_remaining_seconds := remaining_secs;
        status_tokens_used := tokens_used g;
        status_remaining_tokens := remaining_tokens;
        status_budget_exhaustion_pct := (q * 100)%Q |}.

(** The public operations of a guard, each with the clock reading or the
    argument it is called with. *)
Inductive op : Type :=
| OpStart (now : Q)
| OpCheckTimeRemaining (now : Q)
| OpShouldContinue (now : Q)
| OpRecordTokens (count : Z)
| OpForceShutdown (now : Q) (stamp : string)
| OpGetStatus (now now' : Q).

Definition is_start (o : op) : bool :=
  match o with
  | OpStart _ => true
  | _ => false
  end.

(** The guard after one operation; an exception raised by the operation
    leaves the object as the operation left it. *)
Definition step (g : ExecutionGuard) (o : op) : ExecutionGuard :=
  match o with
  | OpStart now => start g now
  | OpRecordTokens count => fst (record_tokens g count)
  | OpCheckTimeRemaining _ | OpShouldContinue _
  | OpForceShutdown _ _ | OpGetStatus _ _ => g
  end.

Definition run (ops : list op) (g : ExecutionGuard) : ExecutionGuard :=
  fold_left step ops g.

(** *** Vocabulary and sample data of the statements *)

(** The three configured attributes are assigned in [__init__] only. *)
Definition same_limits (g g' : ExecutionGuard) : Prop :=
  daily_token_budget g' = daily_token_budget g /\
  execution_window_minutes g' = execution_window_minutes g /\
  max_runtime_seconds g' = max_runtime_seconds g.

Definition config_10min : limits :=
  {| cfg_daily_token_budget := 50000; cfg_execution_window_minutes := 10 |}.

Definition config_no_budget : limits :=
  {| cfg_daily_token_budget := 0; cfg_execution_window_minutes := 10 |}.

(** *** The rest of the module *)

(** [setup_pipeline_guard]; [config] is what opening the configuration
    file, loading it and reading the two limits gives: the limits, or the
    exception of a missing file or key. *)
Definition setup_pipeline_guard (config : result limits) (now : Q)
  : result ExecutionGuard :=
  c ← config; Ok (start (init c) now).

(** The [count] an operation passes to [record_tokens]. *)
Definition count_of (o : op) : Z :=
  match o with
  | OpRecordTokens count => count
  | _ => 0
  end.

(** The sum of the counts passed to [record_tokens] in [ops]. *)
Definition recorded (ops : list op) : Z :=
  foldr (fun o n => count_of o + n)%Z 0%Z ops.

(** An operation that is not [start()] and records no negative count. *)
Definition no_restart (o : op) : bool :=
  negb (is_start o) && (0 <=? count_of o)%Z.

Definition config_3min : limits :=
  {| cfg_daily_token_budget := 50000; cfg_execution_window_minutes := 3 |}.

End Guard.

(** ** market_calendars.py *)

Module Calendar.
Import Py.

Inductive Market : Type := FTSE | NASDAQ.

(** [Market.value] *)
Definition market_value (m : Market) : string :=
  match m with
  | FTSE => "ftse"
  | NASDAQ => "nasdaq"
  end.

(** [Market(value)]: lookup of an enum member by value. *)
Definition Market_of_value (s : string) : result Market :=
  if String.eqb s "ftse" then Ok FTSE
  else if String.eqb s "nasdaq" then Ok NASDAQ
  else Raise ValueError.

Inductive EventType : Type :=
| EARNINGS | DIVIDEND | SPLIT | IPO | CONFERENCE | ECONOMIC | MERGER.

(** [EventType.value] *)
Definition event_type_value (t : EventType) : string :=
  match t with
  | EARNINGS => "earnings"
  | DIVIDEND => "dividend"
  | SPLIT => "stock_split"
  | IPO => "ipo"
  | CONFERENCE => "conference"
  | ECONOMIC => "economic_indicator"
  | MERGER => "merger_acquisition"
  end.

Definition all_event_types : list EventType :=
  [EARNINGS; DIVIDEND; SPLIT; IPO; CONFERENCE; ECONOMIC; MERGER].

(** [EventType(value)] *)
Definition EventType_of_value (s : string) : result EventType :=
  match List.find (fun t => String.eqb s (event_type_value t)) all_event_types with
  | Some t => Ok t
  | None => Raise ValueError
  end.

(** [==] on enum members. *)
Definition EventType_eqb (a b : EventType) : bool :=
  match a, b with
  | EARNINGS, EARNINGS | DIVIDEND, DIVIDEND | SPLIT, SPLIT | IPO, IPO
  | CONFERENCE, CONFERENCE | ECONOMIC, ECONOMIC | MERGER, MERGER => true
  | _, _ => false
  end.

(** The values kept in the open [metadata] mapping of an event. *)
Inductive scalar : Type :=
| SNum (q : Q)
| SStr (s : string)
| SBool (b : bool).

Record CalendarEvent : Type := {
  ticker : string;
  market : Market;
  event_type : EventType;
  date : string;
  description : string;
  timestamp : string;
  metadata : gmap string scalar
}.

(** [CalendarEvent.__init__]; [now] is [datetime.now().isoformat()]. *)
Definition new_event (ticker : string) (market : Market) (event_type : EventType)
    (date description : string) (kwargs : gmap string scalar) (now : string)
  : CalendarEvent :=
  {| ticker := ticker; market := market; event_type := event_type;
     date := date; description := description; timestamp := now;
     metadata := kwargs |}.

(** The parameters of [CalendarEvent.__init__]. *)
Definition init_parameters : list string :=
  ["self"; "ticker"; "market"; "event_type"; "date"; "description"].

(** A mapping that can be passed as [**kwargs] next to the named
    arguments: it binds none of the parameters again. *)
Definition valid_kwargs (kwargs : gmap string scalar) : bool :=
  forallb (fun k => bool_decide (kwargs !! k = None)) init_parameters.

(** The call [CalendarEvent(ticker=..., ..., description=..., **kwargs)]:
    a [TypeError] when [kwargs] repeats a parameter. *)
Definition call_new_event (ticker : string) (market : Market)
    (event_type : EventType) (date description : string)
    (kwargs : gmap string scalar) (now : string) : result CalendarEvent :=
  if valid_kwargs kwargs
  then Ok (new_event ticker market event_type date description kwargs now)
  else Raise TypeError.

(** One event record of the durable document: a mapping in which each of
    the known keys may be missing. *)
Record event_dict : Type := {
  d_ticker : option string;
  d_market : option string;
  d_event_type : option string;
  d_date : option string;
  d_description : option string;
  d_timestamp : option string;
  d_metadata : option (gmap string scalar)
}.

(** [CalendarEvent.to_dict] *)
Definition to_dict (e : CalendarEvent) : event_dict :=
  {| d_ticker := Some (ticker e);
     d_market := Some (market_value (market e));
     d_event_type := Some (event_type_value (event_type e));
     d_date := Some (date e);
     d_description := Some (description e);
     d_timestamp := Some (timestamp e);
     d_metadata := Some (metadata e) |}.

(** [data[key]]: [KeyError] when the key is missing. *)
Definition getitem {A : Type} (field : option A) : result A :=
  match field with
  | Some a => Ok a
  | None => Raise KeyError
  end.

(** [CalendarEvent.from_dict]; the arguments are evaluated left to right. *)
Definition from_dict (now : string) (data : event_dict) : result CalendarEvent :=
  ticker ← getitem (d_ticker data);
  market ← getitem (d_market data) ≫= Market_of_value;
  event_type ← getitem (d_event_type data) ≫= EventType_of_value;
  date ← getitem (d_date data);
  description ← getitem (d_description data);
  call_new_event ticker market event_type date description
    (default ∅ (d_metadata data)) now.

Record MarketCalendar : Type := {
  cal_market : Market;
  events : gmap string (list CalendarEvent);
  last_updated : option string
}.

(** The durable document written by [_save_yaml] / [_save_json] and read
    by [_load_local_calendar]; [doc_events] lists the items of the
    [events] mapping. *)
Record calendar_doc : Type := {
  doc_market : option string;
  doc_last_updated : option string;
  doc_event_count : option nat;
  doc_tickers : option (list string);
  doc_events : option (list (string * list event_dict))
}.

Definition empty_doc : calendar_doc :=
  {| doc_market := None; doc_last_updated := None; doc_event_count := None;
     doc_tickers := None; doc_events := None |}.

(** What the program finds at a path of [data_dir]. *)
Inductive file_state : Type :=
| Absent
| Unreadable (e : exn)
| Holds (doc : option calendar_doc).

(** [data_dir]: the two calendar files, and whether opening a file for
    writing fails (with an [OSError]). *)
Record disk : Type := {
  calendar_yaml : file_state;
  calendar_json : file_state;
  write_fails : bool
}.

(** The list comprehension [[CalendarEvent.from_dict(e) for e in ...]]. *)
Fixpoint from_dicts (now : string) (l : list event_dict)
  : result (list CalendarEvent) :=
  match l with
  | [] => Ok []
  | d :: rest =>
      e ← from_dict now d;
      es ← from_dicts now rest;
      Ok (e :: es)
  end.

(** The loop of [_load_local_calendar] over the items of the document. *)
Fixpoint load_items (now : string) (items : list (string * list event_dict))
    (acc : gmap string (list CalendarEvent))
  : gmap string (list CalendarEvent) * result unit :=
  match items with
  | [] => (acc, Ok tt)
  | (ticker, ticker_events) :: rest =>
      match from_dicts now ticker_events with
      | Ok es => load_items now rest (<[ticker := es]> acc)
      | Raise e => (acc, Raise e)
      end
  end.

(** [MarketCalendar._load_local_calendar]: the object as the call leaves it
    and the outcome of the call. *)
Definition _load_local_calendar (cal : MarketCalendar) (d : disk) (now : string)
  : MarketCalendar * result unit :=
  match calendar_yaml d with
  | Absent => (cal, Ok tt)
  | Unreadable e => (cal, Raise e)
  | Holds doc =>
      let data := default empty_doc doc in
      let '(evs, r) := load_items now (default [] (doc_events data)) ∅ in
      match r with
      | Raise e =>
          ({| cal_market := cal_market cal; events := evs;
              last_updated := last_updated cal |}, Raise e)
      | Ok _ =>
          ({| cal_market := cal_market cal; events := evs;
              last_updated := doc_last_updated data |}, Ok tt)
      end
  end.

(** [MarketCalendar.__init__] (the directory is taken to exist). *)
Definition init (market : Market) (d : disk) (now : string) : result MarketCalendar :=
  let cal := {| cal_market := market; events := ∅; last_updated := None |} in
  let '(cal', r) := _load_local_calendar cal d now in
  _ ← r; Ok cal'.

(** The duplicate test of [add_event]. *)
Definition same_slot (event e : CalendarEvent) : bool :=
  String.eqb (date e) (date event) && EventType_eqb (event_type e) (event_type event).

Definition set_events (cal : MarketCalendar) (evs : gmap string (list CalendarEvent))
  : MarketCalendar :=
  {| cal_market := cal_market cal; events := evs; last_updated := last_updated cal |}.

(** [MarketCalendar.add_event] *)
Definition add_event (cal : MarketCalendar) (event : CalendarEvent) : MarketCalendar :=
  let events1 :=
    match events cal !! ticker event with
    | None => <[ticker event := []]> (events cal)
    | Some _ => events cal
    end in
  let bucket := default [] (events1 !! ticker event) in
  let existing := List.filter (same_slot event) bucket in
  match existing with
  | [] => set_events cal (<[ticker event := bucket ++ [event]]> events1)
  | _ :: _ => set_events cal events1
  end.

(** [MarketCalendar.add_events_bulk] *)
Definition add_events_bulk (cal : MarketCalendar) (evs : list CalendarEvent)
  : MarketCalendar :=
  fold_left add_event evs cal.

(** The document built by [_save_yaml] and [_save_json]. *)
Definition dump_data (cal : MarketCalendar) (now : string) : calendar_doc :=
  {| doc_market := Some (market_value (cal_market cal));
     doc_last_updated := Some now;
     doc_event_count :=
       Some (map_fold (fun _ e n => n + length e) 0 (events cal));
     doc_tickers := Some (fst <$> map_to_list (events cal));
     doc_events :=
       Some (prod_map id (List.map to_dict) <$> map_to_list (events cal)) |}.

(** [MarketCalendar._save_yaml] *)
Definition _save_yaml (cal : MarketCalendar) (d : disk) (now : string) : result disk :=
  let data := dump_data cal now in
  if write_fails d then Raise OSError
  else Ok {| calendar_yaml := Holds (Some data);
             calendar_json := calendar_json d;
             write_fails := write_fails d |}.

(** [MarketCalendar._save_json] *)
Definition _save_json (cal : MarketCalendar) (d : disk) (now : string) : result disk :=
  let data := dump_data cal now in
  if write_fails d then Raise OSError
  else Ok {| calendar_yaml := calendar_yaml d;
             calendar_json := Holds (Some data);
             write_fails := write_fails d |}.

(** [MarketCalendar.save_calendar]: the object after the call (the method
    assigns no attribute) and the disk it leaves, or the exception. *)
Definition save_calendar (cal : MarketCalendar) (d : disk) (now : string)
    (format_type : string) : MarketCalendar * result disk :=
  if String.eqb format_type "yaml" then (cal, _save_yaml cal d now)
  else if String.eqb format_type "json" then (cal, _save_json cal d now)
  else (cal, Raise ValueError).

(** [MarketCalendar.get_events_by_ticker] *)
Definition get_events_by_ticker (cal : MarketCalendar) (t : string)
  : list CalendarEvent :=
  default [] (events cal !! t).

(** [start_date <= e.date <= end_date] on strings. *)
Definition in_date_range (start_date end_date : string) (e : CalendarEvent) : bool :=
  String.leb start_date (date e) && String.leb (date e) end_date.

(** The body of the loops of the two filtering queries: the ticker is
    entered in [result] only when some event passes the filter. *)
Definition collect (keep : CalendarEvent -> bool) (t : string)
    (evs : list CalendarEvent) (result : gmap string (list CalendarEvent))
  : gmap string (list CalendarEvent) :=
  match List.filter keep evs with
  | [] => result
  | filtered => <[t := filtered]> result
  end.

(** [MarketCalendar.get_events_by_date_range] *)
Definition get_events_by_date_range (cal : MarketCalendar)
    (start_date end_date : string) : gmap string (list CalendarEvent) :=
  map_fold (collect (in_date_range start_date end_date)) ∅ (events cal).

(** [MarketCalendar.get_events_by_type] *)
Definition get_events_by_type (cal : MarketCalendar) (t : EventType)
  : gmap string (list CalendarEvent) :=
  map_fold (collect (fun e => EventType_eqb (event_type e) t)) ∅ (events cal).

(** [MarketCalendar.get_upcoming_events]; [today] and [future_date] are the
    two formatted dates the method computes from the clock. *)
Definition get_upcoming_events (cal : MarketCalendar) (today future_date : string)
  : gmap string (list CalendarEvent) :=
  get_events_by_date_range cal today future_date.

(** [min(...)] and [max(...)] over strings, [None] standing for the guard
    [if all_events else None]. *)
Definition py_min (l : list string) : option string :=
  match l with
  | [] => None
  | x :: rest => Some (fold_left (fun m d => if String.ltb d m then d else m) rest x)
  end.

Definition py_max (l : list string) : option string :=
  match l with
  | [] => None
  | x :: rest => Some (fold_left (fun m d => if String.ltb m d then d else m) rest x)
  end.

Record summary : Type := {
  summary_market : string;
  total_tickers : nat;
  total_events : nat;
  event_types : gmap string nat;
  date_range_first : option string;
  date_range_last : option string;
  summary_last_updated : option string
}.

(** The first loop of [get_summary]. *)
Definition all_events (cal : MarketCalendar) : list CalendarEvent :=
  map_fold (fun _ evs acc => acc ++ evs) [] (events cal).

(** One step of the second loop of [get_summary]. *)
Definition count_event (h : gmap string nat) (e : CalendarEvent) : gmap string nat :=
  let v := event_type_value (event_type e) in
  <[v := default 0 (h !! v) + 1]> h.

(** [MarketCalendar.get_summary] *)
Definition get_summary (cal : MarketCalendar) : summary :=
  let all := all_events cal in
  let types := fold_left count_event all ∅ in
  {| summary_market := market_value (cal_market cal);
     total_tickers := size (events cal);
     total_events := length all;
     event_types := types;
     date_range_first := py_min (List.map date all);
     date_range_last := py_max (List.map date all);
     summary_last_updated := last_updated cal |}.

(** [sum(d.values())] *)
Definition sum_values (h : gmap string nat) : nat :=
  map_fold (fun _ n acc => acc + n) 0 h.


Inductive value : Type :=
| VNone
| VEvents (l : list CalendarEvent)
| VMapping (m : gmap string (list CalendarEvent))
| VSummary (s : summary).


(** *** Vocabulary and sample data of the statements *)

(** The stored events that carry the key [(ticker, date, event_type)] of
    [x], in the order of the ticker's list. *)
Definition slot_events (cal : MarketCalendar) (x : CalendarEvent)
  : list CalendarEvent :=
  List.filter (same_slot x) (get_events_by_ticker cal (ticker x)).

(** The invariant of the data model: within a ticker's list no two events
    share [(date, event_type)]. *)
Definition deduplicated (cal : MarketCalendar) : Prop :=
  forall x, length (slot_events cal x) <= 1.

Definition same_key (x e : CalendarEvent) : bool :=
  String.eqb (ticker x) (ticker e) && same_slot x e.

Definition empty_calendar (m : Market) : MarketCalendar :=
  {| cal_market := m; events := ∅; last_updated := None |}.

Definition aapl_earnings : CalendarEvent :=
  new_event "AAPL" NASDAQ EARNINGS "2026-02-05" "Q1 Earnings" ∅
    "2026-01-28T09:00:00".

Definition aapl_earnings_again : CalendarEvent :=
  new_event "AAPL" NASDAQ EARNINGS "2026-02-05" "Apple Q1 2026 Earnings" ∅
    "2026-01-28T09:00:01".

Definition aapl_dividend : CalendarEvent :=
  new_event "AAPL" NASDAQ DIVIDEND "2026-02-05" "Apple Dividend" ∅
    "2026-01-28T09:00:02".

(** What the loop body [collect] enters for one ticker. *)
Definition kept (keep : CalendarEvent -> bool) (evs : list CalendarEvent)
  : option (list CalendarEvent) :=
  match List.filter keep evs with
  | [] => None
  | filtered => Some filtered
  end.

Definition two_ticker_calendar : MarketCalendar :=
  add_events_bulk (empty_calendar NASDAQ)
    [aapl_earnings;
     new_event "MSFT" NASDAQ EARNINGS "2026-03-01" "Microsoft Earnings" ∅
       "2026-01-28T09:00:03"].

(** [e] is one of the events of the store. *)
Definition stored (cal : MarketCalendar) (e : CalendarEvent) : Prop :=
  exists t evs, events cal !! t = Some evs /\ In e evs.

(** The number of events of [l] whose [event_type.value] is [v]. *)
Definition count_of_type (v : string) (l : list CalendarEvent) : nat :=
  length (List.filter (fun e => String.eqb (event_type_value (event_type e)) v) l).

(** [sum(len(v) for v in self.events.values())] *)
Definition count_stored (cal : MarketCalendar) : nat :=
  map_fold (fun _ evs n => n + length evs) 0 (events cal).

(** The event [e] as it comes back from the durable document: every field
    but the [timestamp], which is the time of the reading. *)
Definition restamp (now : string) (e : CalendarEvent) : CalendarEvent :=
  new_event (ticker e) (market e) (event_type e) (date e) (description e)
    (metadata e) now.

(** Every record list of the document deserializes. *)
Definition decodable (now : string) (items : list (string * list event_dict))
  : bool :=
  forallb
    (fun item =>
       match from_dicts now item.2 with
       | Ok _ => true
       | Raise _ => false
       end)
    items.

Definition disk_with (yaml : file_state) : disk :=
  {| calendar_yaml := yaml; calendar_json := Absent; write_fails := false |}.



(** *** The rest of the module: [MarketCalendarManager] *)

(** [MarketCalendarManager.calendars]: one calendar per member of
    [Market], in the order of the enumeration. *)
Record MarketCalendarManager : Type := {
  ftse_calendar : MarketCalendar;
  nasdaq_calendar : MarketCalendar
}.

(** The directories [data_dir / market.value] of the two calendars. *)
Record disks : Type := {
  ftse_disk : disk;
  nasdaq_disk : disk
}.

(** [MarketCalendarManager.__init__]: the calendars are constructed in the
    order of the enumeration, and the first exception ends the call;
    [now_ftse] and [now_nasdaq] are the clock readings of the two
    constructors. *)
Definition manager_init (ds : disks) (now_ftse now_nasdaq : string)
  : result MarketCalendarManager :=
  ftse ← init FTSE (ftse_disk ds) now_ftse;
  nasdaq ← init NASDAQ (nasdaq_disk ds) now_nasdaq;
  Ok {| ftse_calendar := ftse; nasdaq_calendar := nasdaq |}.

(** [MarketCalendarManager.get_calendar] *)
Definition get_calendar (mgr : MarketCalendarManager) (market : Market)
  : MarketCalendar :=
  match market with
  | FTSE => ftse_calendar mgr
  | NASDAQ => nasdaq_calendar mgr
  end.

(** [MarketCalendarManager.add_event_to_market] *)
Definition add_event_to_market (mgr : MarketCalendarManager) (market : Market)
    (event : CalendarEvent) : MarketCalendarManager :=
  match market with
  | FTSE =>
      {| ftse_calendar := add_event (ftse_calendar mgr) event;
         nasdaq_calendar := nasdaq_calendar mgr |}
  | NASDAQ =>
      {| ftse_calendar := ftse_calendar mgr;
         nasdaq_calendar := add_event (nasdaq_calendar mgr) event |}
  end.

(** [MarketCalendarManager.save_all]: the directories as the call leaves
    them and its outcome; the loop stops at the first exception. *)
Definition save_all (mgr : MarketCalendarManager) (ds : disks)
    (now_ftse now_nasdaq : string) (format_type : string)
  : disks * result unit :=
  match save_calendar (ftse_calendar mgr) (ftse_disk ds) now_ftse format_type with
  | (_, Raise e) => (ds, Raise e)
  | (_, Ok d1) =>
      let ds1 := {| ftse_disk := d1; nasdaq_disk := nasdaq_disk ds |} in
      match save_calendar (nasdaq_calendar mgr) (nasdaq_disk ds) now_nasdaq
              format_type with
      | (_, Raise e) => (ds1, Raise e)
      | (_, Ok d2) => ({| ftse_disk := d1; nasdaq_disk := d2 |}, Ok tt)
      end
  end.

(** [MarketCalendarManager.get_summary] *)
Definition manager_get_summary (mgr : MarketCalendarManager) (market : Market)
  : summary :=
  get_summary (get_calendar mgr market).

(** *** Vocabulary and sample data of the further properties *)

(** Every event of the store is kept under its own ticker. *)
Definition keyed (cal : MarketCalendar) : Prop :=
  forall t evs e, events cal !! t = Some evs -> In e evs -> ticker e = t.

(** [sum(f(v) for v in self.events.values())] *)
Definition tally (f : list CalendarEvent -> nat)
    (m : gmap string (list CalendarEvent)) : nat :=
  map_fold (fun _ evs n => n + f evs) 0 m.

End Calendar.

(** ** data_sources.py *)

Module Sources.
Import Py Calendar.

(** The abstract base [DataSource]: an adapter is known to the orchestrator
    by what its four methods return or raise when they are called. *)
Record DataSource : Type := {
  health_check : result bool;
  fetch_earnings_calendar : Market -> Z -> result (list CalendarEvent);
  fetch_dividend_calendar : Market -> Z -> result (list CalendarEvent);
  fetch_economic_calendar : Z -> result (list CalendarEvent)
}.

(** [FinnhubSource]: healthy when an API key is configured; the three
    fetches are placeholders returning no event. *)
Definition FinnhubSource (api_key : option string) : DataSource :=
  {| health_check :=
       match api_key with
       | None | Some EmptyString => Ok false
       | Some _ => Ok true
       end;
     fetch_earnings_calendar := fun _ _ => Ok [];
     fetch_dividend_calendar := fun _ _ => Ok [];
     fetch_economic_calendar := fun _ => Ok [] |}.

(** [YFinanceSource]: healthy when the [yfinance] package was imported. *)
Definition YFinanceSource (yf_available : bool) : DataSource :=
  {| health_check := Ok yf_available;
     fetch_earnings_calendar := fun _ _ => Ok [];
     fetch_dividend_calendar := fun _ _ => Ok [];
     fetch_economic_calendar := fun _ => Ok [] |}.

(** A node of the manual YAML file at a place where the program iterates:
    a sequence of records, or a null or a number written by mistake. *)
Inductive yaml_seq : Type :=
| YNull
| YInt (n : Z)
| YSeq (items : list event_dict).

(** The section of one market in the manual file. *)
Record market_section : Type := {
  sec_earnings : option yaml_seq;
  sec_dividends : option yaml_seq
}.

(** [ManualYAMLSource.data]: the top-level mapping of the manual file, each
    key present or not. *)
Record manual_data : Type := {
  data_ftse : option market_section;
  data_nasdaq : option market_section;
  data_economic : option yaml_seq
}.

Definition key_count {A : Type} (entry : option A) : nat :=
  match entry with
  | Some _ => 1
  | None => 0
  end.

(** [len(self.data)] *)
Definition data_len (data : manual_data) : nat :=
  key_count (data_ftse data) + key_count (data_nasdaq data)
  + key_count (data_economic data).

(** [self.data.get(market.value, {})] *)
Definition market_data (data : manual_data) (market : Market) : market_section :=
  default {| sec_earnings := None; sec_dividends := None |}
    match market with
    | FTSE => data_ftse data
    | NASDAQ => data_nasdaq data
    end.

(** [for item in d.get(key, [])]: the items the loop visits, or the
    [TypeError] of iterating over a value that is not iterable. *)
Definition iterate (node : option yaml_seq) : result (list event_dict) :=
  match node with
  | None => Ok []
  | Some (YSeq items) => Ok items
  | Some YNull | Some (YInt _) => Raise TypeError
  end.

(** The body of the [try] of the three parsing loops. *)
Definition parse_item (ticker_of : event_dict -> result string) (market : Market)
    (event_type : EventType) (default_description : string -> string)
    (now : string) (item : event_dict) : result CalendarEvent :=
  ticker ← ticker_of item;
  date ← getitem (d_date item);
  call_new_event ticker market event_type date
    (default (default_description ticker) (d_description item))
    (default ∅ (d_metadata item)) now.

(** A parsing loop: an item whose parsing raises is logged and skipped. *)
Definition parse_items (parse : event_dict -> result CalendarEvent)
    (items : list event_dict) : list CalendarEvent :=
  fold_left
    (fun events item =>
       match parse item with
       | Ok event => events ++ [event]
       | Raise _ => events
       end)
    items [].

(** [ManualYAMLSource]: [file_exists] is [self.yaml_file.exists()] and
    [data] what [_load_yaml] returned. *)
Definition ManualYAMLSource (file_exists : bool) (data : manual_data)
    (now : string) : DataSource :=
  {| health_check := Ok (file_exists && (0 <? data_len data)%nat);
     fetch_earnings_calendar := fun market _ =>
       items ← iterate (sec_earnings (market_data data market));
       Ok (parse_items
             (parse_item (fun item => getitem (d_ticker item)) market EARNINGS
                (fun t => t +:+ " Earnings") now) items);
     fetch_dividend_calendar := fun market _ =>
       items ← iterate (sec_dividends (market_data data market));
       Ok (parse_items
             (parse_item (fun item => getitem (d_ticker item)) market DIVIDEND
                (fun t => t +:+ " Dividend") now) items);
     fetch_economic_calendar := fun _ =>
       items ← iterate (data_economic data);
       Ok (parse_items
             (parse_item (fun _ => Ok "MACRO") NASDAQ ECONOMIC
                (fun _ => "Economic Indicator") now) items) |}.

(** [CalendarFetcher._init_sources]: [finnhub_api_key] is the environment
    variable, [yf_available] whether [yfinance] could be imported, and
    [manual] the manual source, which is always the last one. *)
Definition _init_sources (finnhub_api_key : option string) (yf_available : bool)
    (manual : DataSource) : list DataSource :=
  match finnhub_api_key with
  | None | Some EmptyString => []
  | Some key => [FinnhubSource (Some key)]
  end
  ++ (if yf_available then [YFinanceSource yf_available] else [])
  ++ [manual].

(** A method call the orchestrator makes on the source at position [i] of
    [self.sources]. *)
Inductive call : Type :=
| CallHealthCheck (i : nat)
| CallFetchEarnings (i : nat)
| CallFetchDividend (i : nat)
| CallFetchEconomic (i : nat).

Definition call_source (c : call) : nat :=
  match c with
  | CallHealthCheck i | CallFetchEarnings i
  | CallFetchDividend i | CallFetchEconomic i => i
  end.

(** How one iteration of the loop of [fetch_all_calendars] ends. *)
Inductive flow : Type :=
| Break
| Continue.

(** The state of the loop: the [result] dict and the calls made so far. *)
Record loop_state : Type := {
  result_dict : gmap string (list CalendarEvent);
  calls : list call
}.

Definition log_call (st : loop_state) (c : call) : loop_state :=
  {| result_dict := result_dict st; calls := calls st ++ [c] |}.

Definition set_item (st : loop_state) (k : string) (v : list CalendarEvent)
  : loop_state :=
  {| result_dict := <[k := v]> (result_dict st); calls := calls st |}.

(** The [try] block of the loop for the source at position [i]; an
    exception raised by a call of the source reaches the [except] clause,
    which goes on to the next source with [result] as it stands. *)
Definition try_source (source : DataSource) (i : nat) (market : Market)
    (days_ahead : Z) (st : loop_state) : loop_state * flow :=
  let st := log_call st (CallHealthCheck i) in
  match health_check source with
  | Raise _ => (st, Continue)
  | Ok false => (st, Continue)
  | Ok true =>
      let st := log_call st (CallFetchEarnings i) in
      match fetch_earnings_calendar source market days_ahead with
      | Raise _ => (st, Continue)
      | Ok earnings =>
          let st := log_call st (CallFetchDividend i) in
          match fetch_dividend_calendar source market days_ahead with
          | Raise _ => (st, Continue)
          | Ok dividends =>
              let st := set_item st "earnings" earnings in
              let st := set_item st "dividends" dividends in
              match result_dict st !! "economic" with
              | Some _ => (st, Break)
              | None =>
                  let st := log_call st (CallFetchEconomic i) in
                  match fetch_economic_calendar source days_ahead with
                  | Raise _ => (st, Continue)
                  | Ok economic => (set_item st "economic" economic, Break)
                  end
              end
          end
      end
  end.

(** The [for source in self.sources] loop, from position [i] on. *)
Fixpoint fetch_loop (sources : list DataSource) (i : nat) (market : Market)
    (days_ahead : Z) (st : loop_state) : loop_state :=
  match sources with
  | [] => st
  | source :: rest =>
      match try_source source i market days_ahead st with
      | (st', Break) => st'
      | (st', Continue) => fetch_loop rest (S i) market days_ahead st'
      end
  end.

(** [CalendarFetcher.fetch_all_calendars], with the calls it made. *)
Definition fetch_all_calendars_traced (sources : list DataSource)
    (market : Market) (days_ahead : Z) : loop_state :=
  fetch_loop sources 0 market days_ahead {| result_dict := ∅; calls := [] |}.

(** [CalendarFetcher.fetch_all_calendars] *)
Definition fetch_all_calendars (sources : list DataSource)
    (market : Market) (days_ahead : Z) : gmap string (list CalendarEvent) :=
  result_dict (fetch_all_calendars_traced sources market days_ahead).

(** *** Vocabulary and sample data of the statements *)

(** A source that reports healthy and whose three fetches return. *)
Definition usable (s : DataSource) (market : Market) (days_ahead : Z) : Prop :=
  health_check s = Ok true /\
  (exists l, fetch_earnings_calendar s market days_ahead = Ok l) /\
  (exists l, fetch_dividend_calendar s market days_ahead = Ok l) /\
  (exists l, fetch_economic_calendar s days_ahead = Ok l).

(** The [result] dict holds the three lists of [s]. *)
Definition result_of (s : DataSource) (market : Market) (days_ahead : Z)
    (r : gmap string (list CalendarEvent)) : Prop :=
  (exists l, r !! "earnings" = Some l /\
             fetch_earnings_calendar s market days_ahead = Ok l) /\
  (exists l, r !! "dividends" = Some l /\
             fetch_dividend_calendar s market days_ahead = Ok l) /\
  (exists l, r !! "economic" = Some l /\
             fetch_economic_calendar s days_ahead = Ok l).

(** [r] holds the lists [e] and [d] under ["earnings"] and
    ["dividends"], and nothing else. *)
Definition only_pair (r : gmap string (list CalendarEvent))
    (e d : list CalendarEvent) : Prop :=
  r !! "earnings" = Some e /\ r !! "dividends" = Some d /\
  forall k, k <> "earnings" -> k <> "dividends" -> r !! k = None.

(** [s] reported healthy, returned earnings and dividends, which [r]
    holds, and raised in its economic fetch. *)
Definition failed_late (s : DataSource) (market : Market) (days_ahead : Z)
    (r : gmap string (list CalendarEvent)) : Prop :=
  health_check s = Ok true /\
  (exists e d,
     fetch_earnings_calendar s market days_ahead = Ok e /\
     fetch_dividend_calendar s market days_ahead = Ok d /\
     only_pair r e d) /\
  raises (fetch_economic_calendar s days_ahead).

(** The [result] of a loop that has met no usable source among [seen]. *)
Definition leftover (seen : list DataSource) (market : Market) (days_ahead : Z)
    (r : gmap string (list CalendarEvent)) : Prop :=
  r !! "economic" = None /\
  (r = ∅ \/ exists s, In s seen /\ failed_late s market days_ahead r).

Definition msft_earnings : CalendarEvent :=
  new_event "MSFT" NASDAQ EARNINGS "2026-03-01" "Microsoft Earnings" ∅
    "2026-01-28T09:00:03".

Definition macro_release : CalendarEvent :=
  new_event "MACRO" NASDAQ ECONOMIC "2026-02-12" "CPI release" ∅
    "2026-01-28T09:00:04".

(** Source A reports unhealthy; B and C are healthy and return data. *)
Definition source_A : DataSource := FinnhubSource None.

Definition source_B : DataSource :=
  {| health_check := Ok true;
     fetch_earnings_calendar := fun _ _ => Ok [aapl_earnings];
     fetch_dividend_calendar := fun _ _ => Ok [aapl_dividend];
     fetch_economic_calendar := fun _ => Ok [macro_release] |}.

Definition source_C : DataSource :=
  {| health_check := Ok true;
     fetch_earnings_calendar := fun _ _ => Ok [msft_earnings];
     fetch_dividend_calendar := fun _ _ => Ok [];
     fetch_economic_calendar := fun _ => Ok [] |}.

(** A manual file with one earnings record for the NASDAQ and an
    [economic:] key left without a value:
<<
nasdaq:
  earnings:
    - ticker: AAPL
      date: '2026-02-05'
      description: Q1 Earnings
economic:
>> *)
Definition manual_file_empty_economic : manual_data :=
  {| data_ftse := None;
     data_nasdaq :=
       Some {| sec_earnings :=
                 Some (YSeq [{| d_ticker := Some "AAPL"; d_market := None;
                                d_event_type := None;
                                d_date := Some "2026-02-05";
                                d_description := Some "Q1 Earnings";
                                d_timestamp := None; d_metadata := None |}]);
               sec_dividends := None |};
     data_economic := Some YNull |}.

(** The manual source on that file; its earnings and dividend fetches
    return and its economic fetch raises. *)
Definition source_failing_late : DataSource :=
  ManualYAMLSource true manual_file_empty_economic "2026-01-28T09:00:00".

(** *** The rest of the module *)

(** [calendars.values()]: the lists of the [result] dict in the order of
    its keys, which [fetch_all_calendars] enters in the order earnings,
    dividends, economic. *)
Definition dict_values (r : gmap string (list CalendarEvent))
  : list (list CalendarEvent) :=
  omap (fun k => r !! k) ["earnings"; "dividends"; "economic"].

(** [CalendarFetcher.populate_calendar] *)
Definition populate_calendar (sources : list DataSource)
    (calendar : MarketCalendar) (days_ahead : Z) : MarketCalendar :=
  let calendars := fetch_all_calendars sources (cal_market calendar) days_ahead in
  let all_events := concat (dict_values calendars) in
  add_events_bulk calendar all_events.

(** [CalendarFetcher.populate_all_markets]: the directories as the call
    leaves them, and the manager it returns or the exception; [loaded] are
    the clock readings of the two constructors and [saved] those of the two
    saves. *)
Definition populate_all_markets (sources : list DataSource) (ds : disks)
    (days_ahead : Z) (loaded saved : string * string)
  : disks * result MarketCalendarManager :=
  match manager_init ds loaded.1 loaded.2 with
  | Raise e => (ds, Raise e)
  | Ok mgr =>
      let mgr' :=
        {| ftse_calendar :=
             populate_calendar sources (get_calendar mgr FTSE) days_ahead;
           nasdaq_calendar :=
             populate_calendar sources (get_calendar mgr NASDAQ) days_ahead |} in
      match save_all mgr' ds saved.1 saved.2 "yaml" with
      | (ds', Raise e) => (ds', Raise e)
      | (ds', Ok _) => (ds', Ok mgr')
      end
  end.

(** *** Vocabulary and sample data of the further properties *)

(** The fetches of [s] return the same whatever [days_ahead] is. *)
Definition ignores_days_ahead (s : DataSource) : Prop :=
  forall m d1 d2,
    fetch_earnings_calendar s m d1 = fetch_earnings_calendar s m d2 /\
    fetch_dividend_calendar s m d1 = fetch_dividend_calendar s m d2 /\
    fetch_economic_calendar s d1 = fetch_economic_calendar s d2.

(** A record of the manual file from which an event can be built: it has
    the keys the parsing loop subscripts, and its metadata can be passed
    as keyword arguments. *)
Definition well_formed (needs_ticker : bool) (item : event_dict) : bool :=
  (negb needs_ticker || bool_decide (is_Some (d_ticker item)))
  && bool_decide (is_Some (d_date item))
  && valid_kwargs (default ∅ (d_metadata item)).


(** The event built from a well-formed record of the [economic] list. *)
Definition economic_event (now : string) (item : event_dict) : CalendarEvent :=
  new_event "MACRO" NASDAQ ECONOMIC (default "" (d_date item))
    (default "Economic Indicator" (d_description item))
    (default ∅ (d_metadata item)) now.

Definition economic_item (date description : string) : event_dict :=
  {| d_ticker := None; d_market := None; d_event_type := None;
     d_date := Some date; d_description := Some description;
     d_timestamp := None; d_metadata := None |}.

(** A manual file with two indicators released on the same day:
<<
economic:
  - date: '2026-02-12'
    description: CPI release
  - date: '2026-02-12'
    description: Jobless claims
>> *)
Definition manual_file_two_releases : manual_data :=
  {| data_ftse := None; data_nasdaq := None;
     data_economic :=
       Some (YSeq [economic_item "2026-02-12" "CPI release";
                   economic_item "2026-02-12" "Jobless claims"]) |}.

End Sources.

(** ** fetch.py, normalize.py, run_llm.py, validate.py and main.py *)

Module Pipeline.
Import Py Guard.

(** The plain Python values that [yaml.safe_load] builds and that the
    stages pass to each other. *)
#[warnings="-register-all"] Inductive value : Type :=
| VNone
| VBool (b : bool)
| VInt (n : Z)
| VStr (s : string)
| VList (l : list value)
| VDict (d : gmap string value).

(** The exceptions met in these modules: the classes of the other
    modules, and [AttributeError]. *)
Inductive error : Type :=
| Builtin (e : exn)
| AttributeError.

Inductive outcome (A : Type) : Type :=
| Returns (a : A)
| Raises (e : error).

Arguments Returns {A} a.
Arguments Raises {A} e.

#[global] Instance outcome_bind : MBind outcome :=
  fun A B k r =>
    match r with
    | Returns a => k a
    | Raises e => Raises e
    end.
#[global] Instance outcome_ret : MRet outcome := @Returns.

Definition fails {A : Type} (r : outcome A) : Prop :=
  match r with
  | Returns _ => False
  | Raises _ => True
  end.

(** The outcome of a method of the guard, seen from the pipeline. *)
Definition lift {A : Type} (r : result A) : outcome A :=
  match r with
  | Ok a => Returns a
  | Raise e => Raises (Builtin e)
  end.

(** [d.get(key, default)] on a dict. *)
Definition dict_get (d : gmap string value) (key : string) (dflt : value) : value :=
  default dflt (d !! key).

(** [data.get(key, default)] on any value: only a dict has the method. *)
Definition get (data : value) (key : string) (dflt : value) : outcome value :=
  match data with
  | VDict d => Returns (dict_get d key dflt)
  | _ => Raises AttributeError
  end.

(** The files of the repository that the pipeline reads and writes.  A
    file that is read holds what [open] and [yaml.safe_load] give for it
    (a value or an exception); a directory maps file names to such
    contents; a file written with [yaml.dump] holds the value dumped.  The
    [data/archive] directory is only written to. *)
Record disk : Type := {
  sources_yaml : outcome value;
  config_yaml : outcome value;
  steps_dir : gmap string (outcome value);
  role_yaml : outcome value;
  constraints_yaml : outcome value;
  events_dir : gmap string (outcome value);
  events_writable : bool;
  archive_writable : bool
}.

(** [open(events_dir / name, 'w')] followed by [yaml.dump(doc, f)]. *)
Definition write_events_file (d : disk) (name : string) (doc : value)
  : outcome disk :=
  if events_writable d then
    Returns {| sources_yaml := sources_yaml d;
               config_yaml := config_yaml d;
               steps_dir := steps_dir d;
               role_yaml := role_yaml d;
               constraints_yaml := constraints_yaml d;
               events_dir := <[name := Returns doc]> (events_dir d);
               events_writable := events_writable d;
               archive_writable := archive_writable d |}
  else Raises (Builtin OSError).

(** [open(archive_dir / name, 'w')] followed by [yaml.dump]. *)
Definition write_archive_file (d : disk) : outcome unit :=
  if archive_writable d then Returns tt else Raises (Builtin OSError).

(** The functions of PyYAML and of [str] that the modules call. *)
Record library : Type := {
  yaml_dump : value -> string;
  yaml_safe_load : string -> outcome value;
  str_lower : string -> string
}.

(** *** fetch.py *)

(** [load_sources] *)
Definition load_sources (d : disk) : outcome value := sources_yaml d.

(** [fetch_events] *)
Definition fetch_events (d : disk) (date : string) : outcome (list value) :=
  sources ← load_sources d;
  let events := [] in
  Returns events.

(** The document written by [save_raw_events] and
    [save_normalized_events]; [now] is [datetime.now().isoformat()]. *)
Definition events_document (date now : string) (events : list value) : value :=
  VDict (list_to_map
           [("date", VStr date);
            ("timestamp", VStr now);
            ("event_count", VInt (Z.of_nat (length events)));
            ("events", VList events)]).

(** [save_raw_events] *)
Definition save_raw_events (d : disk) (date now : string) (events : list value)
  : outcome disk :=
  write_events_file d (date +:+ ".yaml") (events_document date now events).

(** *** normalize.py *)

(** [load_raw_events] *)
Definition load_raw_events (d : disk) (date : string) : outcome value :=
  match events_dir d !! (date +:+ ".yaml") with
  | None => Returns (VDict {["events" := VList []]})
  | Some loaded => loaded
  end.

(** The dict built in the loop of [normalize_events]; [now] is the clock
    reading of that iteration. *)
Definition normalized_event (now : string) (event : gmap string value)
  : gmap string value :=
  list_to_map
    [("event_id", dict_get event "id" (VStr "unknown"));
     ("source", dict_get event "source" (VStr "unknown"));
     ("category", dict_get event "category" (VStr "other"));
     ("timestamp", dict_get event "timestamp" (VStr now));
     ("description", dict_get event "description" (VStr ""));
     ("tags", dict_get event "tags" (VList []))].

(** The loop of [normalize_events] from the item at position [i] on;
    [clock i] is the clock reading of iteration [i]. *)
Fixpoint normalize_loop (clock : nat -> string) (i : nat)
    (raw_events normalized : list value) : outcome (list value) :=
  match raw_events with
  | [] => Returns normalized
  | VDict event :: rest =>
      normalize_loop clock (S i) rest
        (normalized ++ [VDict (normalized_event (clock i) event)])
  | _ :: _ => Raises AttributeError
  end.

(** [normalize_events]; [len()] raises on a value without length, and
    iterating over a string or a dict yields strings, which have no
    [get]. *)
Definition normalize_events (clock : nat -> string) (raw_events : value)
  : outcome (list value) :=
  match raw_events with
  | VList l => normalize_loop clock 0 l []
  | VStr s => if String.eqb s "" then Returns [] else Raises AttributeError
  | VDict d => if (size d =? 0)%nat then Returns [] else Raises AttributeError
  | VNone | VBool _ | VInt _ => Raises (Builtin TypeError)
  end.

(** [save_normalized_events] *)
Definition save_normalized_events (d : disk) (date now : string)
    (events : list value) : outcome disk :=
  write_events_file d (date +:+ "-normalized.yaml")
    (events_document date now events).

(** *** run_llm.py *)

(** [load_config] *)
Definition load_config (d : disk) : outcome value := config_yaml d.

(** [load_prompt] *)
Definition load_prompt (d : disk) (step_name : string) : outcome value :=
  match steps_dir d !! (step_name +:+ ".yaml") with
  | None => Returns (VDict {["prompt" := VStr ""]})
  | Some loaded => loaded
  end.

(** [load_system_prompt] *)
Definition load_system_prompt (d : disk) : outcome value :=
  data ← role_yaml d;
  get data "system_prompt" (VStr "").

Definition newline : string := String (Ascii.ascii_of_nat 10) EmptyString.

(** [call_openai] *)
Definition call_openai (system_prompt : value) (user_message : string)
    (config : value) : string :=
  "Placeholder response from LLM".

(** [run_step]; the bare [except] replaces any failure of the parsing by
    the raw response. *)
Definition run_step (py : library) (d : disk) (step_id : string)
    (input_data config : value) : outcome value :=
  prompt_template ← load_prompt d step_id;
  system_prompt ← load_system_prompt d;
  let user_message :=
    "Analyze the following data:" +:+ newline +:+ yaml_dump py input_data in
  let response_text := call_openai system_prompt user_message config in
  let output :=
    match yaml_safe_load py response_text with
    | Returns output => output
    | Raises _ => VDict {["raw_response" := VStr response_text]}
    end in
  Returns output.

Definition steps : list string :=
  ["01_filter_events"; "02_macro_regime"; "03_policy_impact";
   "04_second_order"; "05_scenarios"; "06_brief"].

(** The loop of [run_pipeline]: the [steps] entry of the output and the
    input of the next step. *)
Fixpoint run_steps (py : library) (d : disk) (config : value)
    (todo : list string) (step_input : value) (done : gmap string value)
  : outcome (gmap string value) :=
  match todo with
  | [] => Returns done
  | step :: rest =>
      step_output ← run_step py d step step_input config;
      run_steps py d config rest step_output (<[step := step_output]> done)
  end.

(** [run_pipeline] *)
Definition run_pipeline (py : library) (d : disk) (date now : string)
    (normalized_events : list value) : outcome (gmap string value) :=
  config ← load_config d;
  done ← run_steps py d config steps
           (VDict {["events" := VList normalized_events]}) ∅;
  Returns (list_to_map
             [("date", VStr date); ("timestamp", VStr now);
              ("steps", VDict done)]).

(** [save_pipeline_output] *)
Definition save_pipeline_output (d : disk) (date : string)
    (output : gmap string value) : outcome unit :=
  write_archive_file d.

(** *** validate.py *)

(** [load_constraints] *)
Definition load_constraints (d : disk) : outcome value := constraints_yaml d.

(** [key in text] on strings. *)
Definition substring (key text : string) : bool :=
  match String.index 0 key text with
  | Some _ => true
  | None => false
  end.

(** [key in container]: key membership for a dict, element membership for
    a list, substring test for a string; the other values are not
    iterable. *)
Definition contains (container : value) (key : string) : outcome bool :=
  match container with
  | VDict d => Returns (bool_decide (is_Some (d !! key)))
  | VList l =>
      Returns (existsb (fun v => match v with
                                 | VStr s => String.eqb s key
                                 | _ => false
                                 end) l)
  | VStr s => Returns (substring key s)
  | VNone | VBool _ | VInt _ => Raises (Builtin TypeError)
  end.

Definition expected_steps : list string :=
  ["01_filter_events"; "02_macro_regime"; "03_policy_impact";
   "04_second_order"; "05_scenarios"; "06_brief"].

(** The loop of [validate_schema] over the expected steps. *)
Fixpoint check_steps (given : value) (expected errors : list string)
  : outcome (list string) :=
  match expected with
  | [] => Returns errors
  | step :: rest =>
      contains given step ≫= fun present : bool =>
      check_steps given rest
        (if present then errors else errors ++ ["Missing step: " +:+ step])
  end.

(** [validate_schema] *)
Definition validate_schema (output : gmap string value)
  : outcome (bool * list string) :=
  let errors := [] in
  let errors :=
    if bool_decide (is_Some (output !! "date")) then errors
    else errors ++ ["Missing 'date' field"] in
  let errors :=
    if bool_decide (is_Some (output !! "steps")) then errors
    else errors ++ ["Missing 'steps' field"] in
  errors ← check_steps (dict_get output "steps" (VDict ∅)) expected_steps errors;
  Returns ((length errors =? 0)%nat, errors).

Definition price_keywords : list string :=
  ["target price"; "will go up"; "will go down"; "bull run"; "crash"].

Definition trading_keywords : list string :=
  ["buy"; "sell"; "go long"; "go short"; "increase exposure"].

(** One of the two keyword loops of [check_constraints]. *)
Definition scan (label : string) (keywords : list string) (output_text : string)
    (violations : list string) : list string :=
  fold_left
    (fun violations keyword =>
       if substring keyword output_text
       then violations ++ [label +:+ keyword +:+ "'"]
       else violations)
    keywords violations.

(** [check_constraints] *)
Definition check_constraints (py : library) (d : disk)
    (output : gmap string value) : outcome (bool * list string) :=
  constraints ← load_constraints d;
  let violations := [] in
  let output_text := str_lower py (yaml_dump py (VDict output)) in
  let violations :=
    scan "Price prediction keyword detected: '" price_keywords output_text
      violations in
  let violations :=
    scan "Trading advice keyword detected: '" trading_keywords output_text
      violations in
  Returns ((length violations =? 0)%nat, violations).

Record report : Type := {
  report_timestamp : string;
  schema_valid : bool;
  schema_errors : list string;
  constraints_met : bool;
  constraint_violations : list string;
  overall_valid : bool
}.

(** [validate_output] *)
Definition validate_output (py : library) (d : disk) (now : string)
    (output : gmap string value) : outcome report :=
  '(schema_valid, schema_errors) ← validate_schema output;
  '(constraints_met, constraint_violations) ← check_constraints py d output;
  Returns {| report_timestamp := now;
             schema_valid := schema_valid;
             schema_errors := schema_errors;
             constraints_met := constraints_met;
             constraint_violations := constraint_violations;
             overall_valid := schema_valid && constraints_met |}.

(** [save_validation_report] *)
Definition save_validation_report (d : disk) (date : string) (r : report)
  : outcome unit :=
  write_archive_file d.

(** *** main.py *)

(** The clock readings of one run, in the order in which they are made;
    [normalizing i] is the reading of iteration [i] of the normalization
    loop. *)
Record clock : Type := {
  today : string;
  started : Q;
  raw_saved : string;
  poll1 : Q;
  normalizing : nat -> string;
  normalized_saved : string;
  poll2 : Q;
  llm_started : string;
  poll3 : Q;
  validated : string;
  status_read : Q * Q
}.

(** The dict returned by [run_full_pipeline]. *)
Inductive execution_summary : Type :=
| Halted
| Partial (steps_completed : Z)
| Success (date : string) (execution_guard : status) (validation : report)
| Failed (error : error) (execution_guard : status).

(** The state threaded through the [try] block of [run_full_pipeline]: the
    guard and the disk. *)
Definition run_state : Type := ExecutionGuard * disk.

(** [guard.record_tokens(count)] inside the [try] block. *)
Definition record (st : run_state) (count : Z) : run_state * outcome unit :=
  let '(guard, r) := record_tokens st.1 count in
  ((guard, st.2), lift r).

(** The [try] block of [run_full_pipeline]: the state it leaves, and the
    dict it returns or the exception that reaches the [except] clause. *)
Definition try_block (py : library) (date : string) (t : clock)
    (st : run_state) : run_state * outcome execution_summary :=
  match fetch_events st.2 date with
  | Raises e => (st, Raises e)
  | Returns raw_events =>
  match save_raw_events st.2 date (raw_saved t) raw_events with
  | Raises e => (st, Raises e)
  | Returns d =>
  let st := (st.1, d) in
  match record st 100 with
  | (st, Raises e) => (st, Raises e)
  | (st, Returns _) =>
  if negb (should_continue st.1 (poll1 t)) then (st, Returns Halted) else
  match load_raw_events st.2 date with
  | Raises e => (st, Raises e)
  | Returns raw_data =>
  match get raw_data "events" (VList []) ≫= normalize_events (normalizing t) with
  | Raises e => (st, Raises e)
  | Returns normalized =>
  match save_normalized_events st.2 date (normalized_saved t) normalized with
  | Raises e => (st, Raises e)
  | Returns d =>
  let st := (st.1, d) in
  match record st 150 with
  | (st, Raises e) => (st, Raises e)
  | (st, Returns _) =>
  if negb (should_continue st.1 (poll2 t)) then (st, Returns Halted) else
  match run_pipeline py st.2 date (llm_started t) normalized with
  | Raises e => (st, Raises e)
  | Returns pipeline_output =>
  match save_pipeline_output st.2 date pipeline_output with
  | Raises e => (st, Raises e)
  | Returns _ =>
  match record st 2000 with
  | (st, Raises e) => (st, Raises e)
  | (st, Returns _) =>
  if negb (should_continue st.1 (poll3 t)) then (st, Returns (Partial 3)) else
  match validate_output py st.2 (validated t) pipeline_output with
  | Raises e => (st, Raises e)
  | Returns validation_report =>
  match save_validation_report st.2 date validation_report with
  | Raises e => (st, Raises e)
  | Returns _ =>
  match lift (get_status st.1 (status_read t).1 (status_read t).2) with
  | Raises e => (st, Raises e)
  | Returns status => (st, Returns (Success date status validation_report))
  end end end end end end end end end end end end end.

(** [run_full_pipeline]; [config] is what the constructor of the guard
    obtains from [config.yaml].  The guard is set up before the [try]
    block, and the [except] clause asks it for its status. *)
Definition run_full_pipeline (py : library) (config : result limits) (d : disk)
    (date : option string) (t : clock) : disk * outcome execution_summary :=
  let date :=
    match date with
    | None | Some EmptyString => today t
    | Some date => date
    end in
  match setup_pipeline_guard config (started t) with
  | Raise e => (d, Raises (Builtin e))
  | Ok guard =>
      match try_block py date t (guard, d) with
      | (st, Returns summary) => (st.2, Returns summary)
      | (st, Raises e) =>
          (st.2,
           status ← lift (get_status st.1 (status_read t).1 (status_read t).2);
           Returns (Failed e status))
      end
  end.

(** *** Vocabulary and sample data of the statements *)

(** The keys of the dicts built by [normalize_events]. *)
Definition normalized_keys : list string :=
  ["event_id"; "source"; "category"; "timestamp"; "description"; "tags"].

(** The error entered when [key] is not a key of [output]. *)
Definition field_error (output : gmap string value) (key message : string)
  : list string :=
  if bool_decide (is_Some (output !! key)) then [] else [message].

(** The errors entered for the expected steps that are not [present]. *)
Definition missing_steps (present : string -> bool) : list string :=
  List.map (fun step => "Missing step: " +:+ step)
    (List.filter (fun step => negb (present step)) expected_steps).

(** The errors of [validate_schema] when the membership test of the
    steps answers [present]. *)
Definition schema_errors_for (output : gmap string value)
    (present : string -> bool) : list string :=
  field_error output "date" "Missing 'date' field"
  ++ field_error output "steps" "Missing 'steps' field"
  ++ missing_steps present.

(** What [run_step] returns when its loads succeed. *)
Definition placeholder_output (py : library) : value :=
  match yaml_safe_load py "Placeholder response from LLM" with
  | Returns output => output
  | Raises _ => VDict {["raw_response" := VStr "Placeholder response from LLM"]}
  end.

(** The guard [g'] is [g] after [spent] more tokens were recorded. *)
Definition spent (g g' : ExecutionGuard) (count : Z) : Prop :=
  start_time g' = start_time g /\
  max_runtime_seconds g' = max_runtime_seconds g /\
  daily_token_budget g' = daily_token_budget g /\
  tokens_used g' = (tokens_used g + count)%Z.

(** With [count] more tokens recorded, a poll of [g] at [now] answers
    that the pipeline may continue. *)
Definition within_budget (g : ExecutionGuard) (count : Z) (now : Q) : Prop :=
  (30 <= check_time_remaining g now)%Q /\
  (1000 <= daily_token_budget g - (tokens_used g + count))%Z.

(** The date a run works on: [date], or today's date when none is
    given. *)
Definition effective_date (date : option string) (t : clock) : string :=
  match date with
  | None | Some EmptyString => today t
  | Some date => date
  end.

(** The status entry of a summary, when it has one. *)
Definition reported_status (s : execution_summary) : option status :=
  match s with
  | Success _ st _ | Failed _ st => Some st
  | Halted | Partial _ => None
  end.

(** A library in which the placeholder response parses to itself, as a
    plain scalar does. *)
Definition plain_library : library :=
  {| yaml_dump := fun _ => "";
     yaml_safe_load := fun text => Returns (VStr text);
     str_lower := fun text => text |}.

(** A checkout in which every file that is read loads as an empty
    mapping, and both output directories can be written. *)
Definition fresh_disk : disk :=
  {| sources_yaml := Returns (VDict ∅);
     config_yaml := Returns (VDict ∅);
     steps_dir := ∅;
     role_yaml := Returns (VDict ∅);
     constraints_yaml := Returns (VDict ∅);
     events_dir := ∅;
     events_writable := true;
     archive_writable := true |}.

Definition sample_clock : clock :=
  {| today := "2026-01-28";
     started := 1000;
     raw_saved := "2026-01-28T09:00:00";
     poll1 := 1001;
     normalizing := fun _ => "2026-01-28T09:00:01";
     normalized_saved := "2026-01-28T09:00:02";
     poll2 := 1002;
     llm_started := "2026-01-28T09:00:03";
     poll3 := 1003;
     validated := "2026-01-28T09:00:04";
     status_read := (1004%Q, 1004%Q) |}.

Definition config_small_budget : limits :=
  {| cfg_daily_token_budget := 3000; cfg_execution_window_minutes := 10 |}.

Definition config_zero_budget : limits :=
  {| cfg_daily_token_budget := 0; cfg_execution_window_minutes := 10 |}.

End Pipeline.

(** ** tools/query_calendars.py and tools/update_calendars.py *)

Module Tools.
Import Py Calendar Sources.

(** The [choices] of the [--market] and [--type] options: [argparse]
    rejects any other value before [main] goes on. *)
Definition market_choices : list string := ["ftse"; "nasdaq"; "all"].

Definition type_choices : list string :=
  ["earnings"; "dividend"; "split"; "ipo"; "conference"; "economic"; "merger"].

(** The parsed command line; an option that was not given is [None]. *)
Record arguments : Type := {
  arg_market : string;
  arg_ticker : option string;
  arg_type : option string;
  arg_upcoming : option Z;
  arg_date_from : option string;
  arg_date_to : option string;
  arg_summary : bool
}.

(** Truth value of an optional string, and of an optional int. *)
Definition given (a : option string) : bool :=
  match a with
  | None | Some EmptyString => false
  | Some _ => true
  end.

Definition given_int (a : option Z) : bool :=
  match a with
  | None => false
  | Some n => negb (n =? 0)%Z
  end.

(** The entry of [results] for one market. *)
Inductive answer : Type :=
| TickerEvents (ticker : string) (events : list event_dict)
| Events (by_ticker : gmap string (list event_dict))
| Summary (s : summary).

(** The body of the loop of [main] for one market, without the printing;
    [today] and [future_date n] are the two dates that
    [get_upcoming_events(days_ahead=n)] computes from the clock. *)
Definition query_market (calendar : MarketCalendar) (args : arguments)
    (today : string) (future_date : Z -> string) : result answer :=
  if given (arg_ticker args) then
    let ticker := default "" (arg_ticker args) in
    let events := get_events_by_ticker calendar ticker in
    Ok (TickerEvents ticker (List.map to_dict events))
  else if given (arg_type args) then
    event_type ← EventType_of_value (default "" (arg_type args));
    let events := get_events_by_type calendar event_type in
    Ok (Events (List.map to_dict <$> events))
  else if given_int (arg_upcoming args) then
    let events :=
      get_upcoming_events calendar today
        (future_date (default 0%Z (arg_upcoming args))) in
    Ok (Events (List.map to_dict <$> events))
  else if given (arg_date_from args) && given (arg_date_to args) then
    let events :=
      get_events_by_date_range calendar (default "" (arg_date_from args))
        (default "" (arg_date_to args)) in
    Ok (Events (List.map to_dict <$> events))
  else Ok (Summary (get_summary calendar)).

(** [[Market(args.market)] if args.market != 'all' else list(Market)] *)
Definition selected_markets (arg_market : string) : result (list Market) :=
  if negb (String.eqb arg_market "all") then
    market ← Market_of_value arg_market; Ok [market]
  else Ok [FTSE; NASDAQ].

(** [market.value.upper()] *)
Definition market_name (m : Market) : string :=
  match m with
  | FTSE => "FTSE"
  | NASDAQ => "NASDAQ"
  end.

(** The loop of [main] over the selected markets. *)
Fixpoint query_markets (mgr : MarketCalendarManager) (args : arguments)
    (today : string) (future_date : Z -> string) (markets : list Market)
    (results : gmap string answer) : result (gmap string answer) :=
  match markets with
  | [] => Ok results
  | market :: rest =>
      a ← query_market (get_calendar mgr market) args today future_date;
      query_markets mgr args today future_date rest
        (<[market_name market := a]> results)
  end.

(** [main], up to the optional export: the [results] dict. *)
Definition query_main (ds : disks) (loaded : string * string) (args : arguments)
    (today : string) (future_date : Z -> string) : result (gmap string answer) :=
  mgr ← manager_init ds loaded.1 loaded.2;
  markets ← selected_markets (arg_market args);
  query_markets mgr args today future_date markets ∅.

(** *** update_calendars.py *)

(** The [choices] of the [--export] option. *)
Definition export_choices : list string := ["yaml"; "json"].

(** [markets_to_update] *)
Definition markets_to_update (arg_market : string) : result (list Market) :=
  if String.eqb arg_market "all" then Ok [FTSE; NASDAQ]
  else market ← Market_of_value arg_market; Ok [market].

(** The body of the loop of [main]: the calendar of [market] is populated
    in place. *)
Definition update_market (sources : list DataSource) (days : Z)
    (mgr : MarketCalendarManager) (market : Market) : MarketCalendarManager :=
  let calendar := populate_calendar sources (get_calendar mgr market) days in
  match market with
  | FTSE =>
      {| ftse_calendar := calendar; nasdaq_calendar := nasdaq_calendar mgr |}
  | NASDAQ =>
      {| ftse_calendar := ftse_calendar mgr; nasdaq_calendar := calendar |}
  end.

(** [main] of the update tool, without the logging: the directories as
    the run leaves them, and the manager it has built or the exception;
    [sources] are the sources of the fetcher, [loaded] and [saved] the
    clock readings of the two constructors and of the two saves. *)
Definition update_main (sources : list DataSource) (ds : disks)
    (arg_market : string) (arg_days : Z) (arg_export : string)
    (loaded saved : string * string) : disks * result MarketCalendarManager :=
  match manager_init ds loaded.1 loaded.2 with
  | Raise e => (ds, Raise e)
  | Ok mgr =>
      match markets_to_update arg_market with
      | Raise e => (ds, Raise e)
      | Ok markets =>
          let mgr := fold_left (update_market sources arg_days) markets mgr in
          match save_all mgr ds saved.1 saved.2 arg_export with
          | (ds', Raise e) => (ds', Raise e)
          | (ds', Ok _) => (ds', Ok mgr)
          end
      end
  end.

(** *** Vocabulary and sample data of the statements *)

(** The event types that a [--type] choice denotes. *)
Definition queryable_types : list EventType :=
  [EARNINGS; DIVIDEND; IPO; CONFERENCE].

Definition by_type (market type : string) : arguments :=
  {| arg_market := market; arg_ticker := None; arg_type := Some type;
     arg_upcoming := None; arg_date_from := None; arg_date_to := None;
     arg_summary := false |}.

Definition empty_disks : disks :=
  {| ftse_disk := disk_with Absent; nasdaq_disk := disk_with Absent |}.

End Tools.

(** * Properties *)

(** ** The execution guard *)

Module GuardFacts.
Import Py Guard.

Local Open Scope Q_scope.

Lemma Qltb_lt (x y : Q) : Qltb x y = true <-> x < y.
Proof.
  unfold Qltb. rewrite negb_true_iff, <- not_true_iff_false, Qle_bool_iff.
  split; [apply Qnot_le_lt | apply Qlt_not_le].
Qed.

Lemma Qltb_ge (x y : Q) : Qltb x y = false <-> y <= x.
Proof.
  unfold Qltb. rewrite negb_false_iff. apply Qle_bool_iff.
Qed.

Lemma truthy_float_nonzero (x : Q) : truthy_float x = true <-> ~ x == 0.
Proof.
  unfold truthy_float. rewrite negb_true_iff, <- not_true_iff_false.
  now rewrite Qeq_bool_iff.
Qed.

Lemma step_same_limits (g : ExecutionGuard) (o : op) : same_limits g (step g o).
Proof. destruct o; repeat split. Qed.

Lemma run_same_limits (ops : list op) (g : ExecutionGuard) :
  same_limits g (run ops g).
Proof.
  revert g. induction ops as [|o ops IH]; intros g; [repeat split|].
  destruct (IH (step g o)) as (Hb & Hw & Hm).
  destruct (step_same_limits g o) as (Hb' & Hw' & Hm').
  unfold run in *. cbn [fold_left].
  repeat split; congruence.
Qed.

Lemma run_max_runtime_seconds (config : limits) (ops : list op) :
  max_runtime_seconds (run ops (init config))
  = ((cfg_execution_window_minutes config - 5) * 60)%Z.
Proof. now destruct (run_same_limits ops (init config)) as (_ & _ & ->). Qed.

Lemma run_daily_token_budget (config : limits) (ops : list op) :
  daily_token_budget (run ops (init config)) = cfg_daily_token_budget config.
Proof. now destruct (run_same_limits ops (init config)) as (-> & _). Qed.

(** Only [start] assigns [start_time]. *)
Lemma step_start_time (g : ExecutionGuard) (o : op) :
  is_start o = false -> start_time (step g o) = start_time g.
Proof. destruct o; intros H; try discriminate H; reflexivity. Qed.

Lemma run_start_time (ops : list op) (g : ExecutionGuard) :
  forallb (fun o => negb (is_start o)) ops = true ->
  start_time (run ops g) = start_time g.
Proof.
  revert g. induction ops as [|o ops IH]; intros g H; [reflexivity|].
  cbn [forallb] in H. apply andb_true_iff in H as [Ho Hops].
  apply negb_true_iff in Ho.
  unfold run in *. cbn [fold_left].
  rewrite (IH _ Hops). now apply step_start_time.
Qed.

Lemma check_time_remaining_elapsed (g : ExecutionGuard) (now : Q) :
  check_time_remaining g now
  == inject_Z (max_runtime_seconds g) - elapsed_seconds g now.
Proof.
  unfold check_time_remaining, elapsed_seconds.
  destruct (start_time_set g); cbv zeta; lra.
Qed.

(** A guard started at a non-zero clock reading measures from it. *)
Lemma check_time_remaining_started (g : ExecutionGuard) (s now : Q) :
  start_time g = Some s -> ~ s == 0 ->
  check_time_remaining g now == inject_Z (max_runtime_seconds g) - (now - s).
Proof.
  intros Hs Hnz. unfold check_time_remaining, start_time_set. rewrite Hs.
  apply truthy_float_nonzero in Hnz. rewrite Hnz. cbv zeta. lra.
Qed.

Lemma elapsed_seconds_started (g : ExecutionGuard) (s now : Q) :
  start_time g = Some s -> ~ s == 0 -> elapsed_seconds g now = now - s.
Proof.
  intros Hs Hnz. unfold elapsed_seconds, start_time_set. rewrite Hs.
  apply truthy_float_nonzero in Hnz. now rewrite Hnz.
Qed.

(** A recorded reading of [0.0] is falsy, so a guard whose [start] read
    the clock at zero still reports the full window. *)
Lemma check_time_remaining_zero_reading (g : ExecutionGuard) (s now : Q) :
  start_time g = Some s -> s == 0 ->
  check_time_remaining g now = inject_Z (max_runtime_seconds g).
Proof.
  intros Hs Hz. unfold check_time_remaining, start_time_set. rewrite Hs.
  unfold truthy_float. apply Qeq_bool_iff in Hz. now rewrite Hz.
Qed.

Lemma should_continue_false_iff (g : ExecutionGuard) (now : Q) :
  should_continue g now = false <->
  check_time_remaining g now < 30 \/
  (daily_token_budget g - tokens_used g < 1000)%Z.
Proof.
  unfold should_continue. cbv zeta.
  destruct (Qltb (check_time_remaining g now) 30) eqn:Ht.
  - apply Qltb_lt in Ht. tauto.
  - apply Qltb_ge in Ht.
    destruct (Z.ltb_spec (daily_token_budget g - tokens_used g) 1000) as [Hk|Hk].
    + tauto.
    + split; [discriminate|].
      intros [H|H]; [exfalso; lra | lia].
Qed.

(** C1. [should_continue()] is false exactly when the remaining time is
    below 30 seconds or the remaining tokens are below 1000, and true
    otherwise; it is false once [tokens_used > daily_token_budget - 1000];
    with a window of 10 minutes [max_runtime_seconds] is 300 and the answer
    is false once the elapsed time exceeds 270 seconds and true up to then
    when at least 1000 tokens remain. The elapsed time is the one the guard
    reports, which for a guard started at the reading [s] is [now - s]. *)
Theorem should_continue_spec (config : limits) (ops : list op) (now : Q) :
  let g := run ops (init config) in
  (should_continue g now = false <->
     check_time_remaining g now < 30 \/
     (daily_token_budget g - tokens_used g < 1000)%Z) /\
  (should_continue g now = true <->
     ~ (check_time_remaining g now < 30 \/
        (daily_token_budget g - tokens_used g < 1000)%Z)) /\
  ((tokens_used g > daily_token_budget g - 1000)%Z ->
     should_continue g now = false) /\
  (cfg_execution_window_minutes config = 10%Z ->
     max_runtime_seconds g = 300%Z /\
     (270 < elapsed_seconds g now -> should_continue g now = false) /\
     (elapsed_seconds g now <= 270 ->
      (1000 <= daily_token_budget g - tokens_used g)%Z ->
      should_continue g now = true) /\
     (forall s, start_time g = Some s -> ~ s == 0 ->
        (270 < now - s -> should_continue g now = false) /\
        (now - s <= 270 ->
         (1000 <= daily_token_budget g - tokens_used g)%Z ->
         should_continue g now = true))).
Proof.
  intros g.
  pose proof (should_continue_false_iff g now) as Hf.
  split; [exact Hf|]. split.
  { rewrite <- Hf. destruct (should_continue g now); split; congruence. }
  split.
  { intros Hk. apply Hf. right. lia. }
  intros Hw.
  assert (Hm : max_runtime_seconds g = 300%Z).
  { unfold g. rewrite run_max_runtime_seconds, Hw. reflexivity. }
  split; [exact Hm|].
  pose proof (check_time_remaining_elapsed g now) as Hr.
  rewrite Hm in Hr. change (inject_Z 300) with 300 in Hr.
  assert (Hlate : 270 < elapsed_seconds g now -> should_continue g now = false).
  { intros He. apply Hf. left. lra. }
  assert (Hearly : elapsed_seconds g now <= 270 ->
                   (1000 <= daily_token_budget g - tokens_used g)%Z ->
                   should_continue g now = true).
  { intros He Hk. apply not_false_iff_true. intros Hc.
    apply Hf in Hc as [Hc|Hc]; [lra | lia]. }
  split; [exact Hlate|]. split; [exact Hearly|].
  intros s Hs Hnz.
  rewrite (elapsed_seconds_started g s now Hs Hnz) in Hlate, Hearly.
  split; assumption.
Qed.

Lemma should_continue_spec_witness :
  should_continue (run [OpStart 1000; OpRecordTokens 2000] (init config_10min)) 1271
    = false /\
  should_continue (run [OpStart 1000; OpRecordTokens 2000] (init config_10min)) 1270
    = true /\
  should_continue (run [OpRecordTokens 49001] (init config_10min)) 0 = false.
Proof.
  split; [|split].
  - destruct (should_continue_spec config_10min
                [OpStart 1000; OpRecordTokens 2000] 1271) as (_ & _ & _ & H).
    destruct (H eq_refl) as (_ & _ & _ & Hclock).
    destruct (Hclock 1000) as [Hlate _];
      [reflexivity | vm_compute; discriminate |].
    apply Hlate. vm_compute; reflexivity.
  - destruct (should_continue_spec config_10min
                [OpStart 1000; OpRecordTokens 2000] 1270) as (_ & _ & _ & H).
    destruct (H eq_refl) as (_ & _ & Hearly & _).
    apply Hearly; vm_compute; discriminate.
  - destruct (should_continue_spec config_10min [OpRecordTokens 49001] 0)
      as (_ & _ & H & _).
    apply H. vm_compute; reflexivity.
Defined.

(** C4. [check_time_remaining()] is [max_runtime_seconds - elapsed] with
    [max_runtime_seconds = (execution_window_minutes - 5) * 60]; the value
    is not clamped, so it is negative after the deadline; before any
    [start()] it is the full [max_runtime_seconds]. The elapsed time is the
    one the guard reports, which for a guard started at the reading [s] is
    [now - s]. *)
Theorem check_time_remaining_spec (config : limits) (ops : list op) (now : Q) :
  let g := run ops (init config) in
  max_runtime_seconds g = ((cfg_execution_window_minutes config - 5) * 60)%Z /\
  check_time_remaining g now
    == inject_Z (max_runtime_seconds g) - elapsed_seconds g now /\
  (inject_Z (max_runtime_seconds g) < elapsed_seconds g now ->
     check_time_remaining g now < 0) /\
  (forall s, start_time g = Some s -> ~ s == 0 ->
     check_time_remaining g now == inject_Z (max_runtime_seconds g) - (now - s)) /\
  (forallb (fun o => negb (is_start o)) ops = true ->
     check_time_remaining g now = inject_Z (max_runtime_seconds g)).
Proof.
  intros g. split; [apply run_max_runtime_seconds|].
  pose proof (check_time_remaining_elapsed g now) as Hr.
  split; [exact Hr|]. split; [|split].
  - intros Hlate. lra.
  - intros s Hs Hnz. now apply check_time_remaining_started.
  - intros Hops. unfold check_time_remaining, start_time_set, g.
    now rewrite (run_start_time ops (init config) Hops).
Qed.

Lemma check_time_remaining_spec_witness :
  check_time_remaining (run [OpStart 1000] (init config_10min)) 1400 < 0 /\
  check_time_remaining (run [OpRecordTokens 10] (init config_10min)) 1400
    = inject_Z 300.
Proof.
  split.
  - destruct (check_time_remaining_spec config_10min [OpStart 1000] 1400)
      as (_ & _ & Hlate & _).
    apply Hlate. vm_compute; reflexivity.
  - destruct (check_time_remaining_spec config_10min [OpRecordTokens 10] 1400)
      as (_ & _ & _ & _ & Hfull).
    apply Hfull. reflexivity.
Defined.

(** C5, as stated, fails: a second [start()] moves the recorded start. *)
Lemma restart_moves_start_time :
  let g := start (init config_10min) 100 in
  start_time g = Some 100 /\
  start_time (run [OpStart 200] g) = Some 200 /\
  ~ 200 == 100.
Proof. repeat split. discriminate. Qed.

(** C5, amended. Every operation other than [start()] leaves the recorded
    [start_time] as it is, and each [start()] overwrites it with the clock
    reading of that call. *)
Theorem start_time_changes_only_by_start (g : ExecutionGuard) (now : Q)
    (ops : list op) :
  forallb (fun o => negb (is_start o)) ops = true ->
  start_time (run ops g) = start_time g /\
  start_time (run (OpStart now :: ops) g) = Some now.
Proof.
  intros Hops. split; [now apply run_start_time|].
  change (run (OpStart now :: ops) g) with (run ops (start g now)).
  now rewrite run_start_time.
Qed.

Lemma start_time_changes_only_by_start_witness :
  start_time (run [OpRecordTokens 5; OpGetStatus 7 8] (start (init config_10min) 100))
    = Some 100 /\
  start_time (run [OpStart 200; OpRecordTokens 5; OpGetStatus 7 8]
                (start (init config_10min) 100)) = Some 200.
Proof.
  apply (start_time_changes_only_by_start (start (init config_10min) 100) 200
           [OpRecordTokens 5; OpGetStatus 7 8]).
  reflexivity.
Defined.

Lemma double_overflow_pos : (0 < double_overflow)%Z.
Proof. reflexivity. Qed.

Lemma truediv_zero (a : Z) : truediv a 0 = Raise ZeroDivisionError.
Proof. reflexivity. Qed.

Lemma truediv_ok (a b : Z) :
  b <> 0%Z -> (Z.abs a < double_overflow * Z.abs b)%Z ->
  truediv a b = Ok (Qdiv (inject_Z a) (inject_Z b)).
Proof.
  intros Hb Hq. unfold truediv.
  destruct (Z.eqb_spec b 0) as [|_]; [contradiction|].
  destruct (Z.leb_spec (double_overflow * Z.abs b) (Z.abs a)); [lia|reflexivity].
Qed.


(** An int in the range of a float, divided by a non-zero int, is in that
    range. *)
Lemma fits_float_quotient (a b : Z) :
  b <> 0%Z -> fits_float a -> (Z.abs a < double_overflow * Z.abs b)%Z.
Proof.
  unfold fits_float. intros Hb Ha. pose proof double_overflow_pos. nia.
Qed.

(** C10, as stated, fails: with the non-zero budget of the sample
    configuration [record_tokens] raises, an [OverflowError], when the
    quotient of the counter and the budget is too large for a float, and
    so does every [get_status] after it. *)
Lemma record_tokens_overflow :
  cfg_daily_token_budget config_10min <> 0%Z /\
  snd (record_tokens (init config_10min) (10 ^ 400)) = Raise OverflowError /\
  get_status (run [OpRecordTokens (10 ^ 400)] (init config_10min)) 3 4
    = Raise OverflowError.
Proof. split; [discriminate|]. split; vm_compute; reflexivity. Qed.



End GuardFacts.

(** ** The calendar store *)

Module CalendarFacts.
Import Py Calendar.

(** Unfolds [d.get(k, default)] once the lookup is known. *)
Ltac simpl_default := cbn [default from_option id].

Lemma EventType_eqb_eq (a b : EventType) : EventType_eqb a b = true <-> a = b.
Proof. destruct a, b; split; intros H; try reflexivity; discriminate H. Qed.

Lemma same_slot_spec (event e : CalendarEvent) :
  same_slot event e = true <->
  date e = date event /\ event_type e = event_type event.
Proof.
  unfold same_slot.
  now rewrite andb_true_iff, String.eqb_eq, EventType_eqb_eq.
Qed.

(** Two events with the same date and type test every stored event alike. *)
Lemma same_slot_ext (a b e : CalendarEvent) :
  date a = date b -> event_type a = event_type b ->
  same_slot a e = same_slot b e.
Proof. intros Hd Ht. unfold same_slot. now rewrite Hd, Ht. Qed.

(** The ticker's list after [add_event]. *)
Lemma get_events_by_ticker_add_event (cal : MarketCalendar)
    (event : CalendarEvent) (t : string) :
  get_events_by_ticker (add_event cal event) t =
  if decide (t = ticker event) then
    match List.filter (same_slot event) (get_events_by_ticker cal t) with
    | [] => get_events_by_ticker cal t ++ [event]
    | _ :: _ => get_events_by_ticker cal t
    end
  else get_events_by_ticker cal t.
Proof.
  unfold add_event, get_events_by_ticker.
  destruct (decide (t = ticker event)) as [->|Hne].
  - destruct (events cal !! ticker event) as [bucket|] eqn:Hb; simpl_default.
    + rewrite Hb. simpl_default.
      destruct (List.filter (same_slot event) bucket); cbn [set_events events].
      * now rewrite lookup_insert_eq.
      * now rewrite Hb.
    + rewrite lookup_insert_eq. simpl_default. cbn [List.filter set_events events].
      now rewrite lookup_insert_eq.
  - destruct (events cal !! ticker event) as [bucket|] eqn:Hb.
    + rewrite Hb. simpl_default.
      destruct (List.filter (same_slot event) bucket); cbn [set_events events];
        [rewrite lookup_insert_ne by congruence|]; reflexivity.
    + rewrite lookup_insert_eq. simpl_default. cbn [List.filter set_events events].
      now rewrite !lookup_insert_ne by congruence.
Qed.

(** [add_event] is a no-op when an event with the key is stored. *)
Lemma add_event_duplicate (cal : MarketCalendar) (event : CalendarEvent) :
  slot_events cal event <> [] -> add_event cal event = cal.
Proof.
  unfold slot_events, get_events_by_ticker, add_event.
  destruct (events cal !! ticker event) as [bucket|] eqn:Hb; simpl_default.
  - rewrite Hb. simpl_default. intros Hdup.
    destruct (List.filter (same_slot event) bucket); [congruence|].
    now destruct cal.
  - cbn. congruence.
Qed.

Lemma same_key_spec (x e : CalendarEvent) :
  same_key x e = true <->
  ticker x = ticker e /\ date x = date e /\ event_type x = event_type e.
Proof.
  unfold same_key. rewrite andb_true_iff, String.eqb_eq, same_slot_spec.
  intuition congruence.
Qed.

(** The stored events under the key of [x] after adding [e]. *)
Lemma slot_events_add_event (cal : MarketCalendar) (e x : CalendarEvent) :
  slot_events (add_event cal e) x =
  if same_key x e then
    match slot_events cal x with
    | [] => [e]
    | l => l
    end
  else slot_events cal x.
Proof.
  unfold slot_events. rewrite get_events_by_ticker_add_event.
  destruct (same_key x e) eqn:Hk.
  - apply same_key_spec in Hk as (Ht & Hd & Hty).
    rewrite decide_True by exact Ht.
    rewrite (List.filter_ext (same_slot e) (same_slot x))
      by (intros a; apply same_slot_ext; congruence).
    destruct (List.filter (same_slot x) (get_events_by_ticker cal (ticker x)))
      as [|e0 l] eqn:Hf.
    + rewrite List.filter_app, Hf. cbn [List.filter app].
      assert (Hs : same_slot x e = true) by (apply same_slot_spec; auto).
      now rewrite Hs.
    + exact Hf.
  - destruct (decide (ticker x = ticker e)) as [Ht|Ht]; [|reflexivity].
    assert (Hs : same_slot x e = false).
    { unfold same_key in Hk. apply String.eqb_eq in Ht. rewrite Ht in Hk.
      exact Hk. }
    destruct (List.filter (same_slot e) (get_events_by_ticker cal (ticker x)));
      [|reflexivity].
    rewrite List.filter_app. cbn [List.filter]. rewrite Hs.
    now rewrite app_nil_r.
Qed.

Lemma deduplicated_empty (m : Market) (u : option string) :
  deduplicated {| cal_market := m; events := ∅; last_updated := u |}.
Proof.
  intros x. unfold slot_events, get_events_by_ticker. cbn [events].
  rewrite lookup_empty. cbn. lia.
Qed.

Lemma add_event_deduplicated (cal : MarketCalendar) (e : CalendarEvent) :
  deduplicated cal -> deduplicated (add_event cal e).
Proof.
  intros Hinv x. rewrite slot_events_add_event. specialize (Hinv x).
  destruct (same_key x e); [|exact Hinv].
  destruct (slot_events cal x); cbn in *; lia.
Qed.

Lemma add_events_bulk_deduplicated (evs : list CalendarEvent) (cal : MarketCalendar) :
  deduplicated cal -> deduplicated (add_events_bulk cal evs).
Proof.
  revert cal. induction evs as [|e evs IH]; intros cal Hinv; [exact Hinv|].
  apply IH. now apply add_event_deduplicated.
Qed.

(** First write wins over a whole batch: under each key the store keeps
    what it held, or else the first event of the batch with that key. *)
Lemma slot_events_add_events_bulk (evs : list CalendarEvent)
    (cal : MarketCalendar) (x : CalendarEvent) :
  slot_events (add_events_bulk cal evs) x =
  match slot_events cal x with
  | [] =>
      match List.find (same_key x) evs with
      | Some e => [e]
      | None => []
      end
  | l => l
  end.
Proof.
  revert cal. induction evs as [|e evs IH]; intros cal.
  - cbn. now destruct (slot_events cal x).
  - change (add_events_bulk cal (e :: evs))
      with (add_events_bulk (add_event cal e) evs).
    rewrite IH, slot_events_add_event. cbn [List.find].
    destruct (same_key x e); [|reflexivity].
    now destruct (slot_events cal x).
Qed.

(** C2. Adding two events with equal [(ticker, date, event_type)], by two
    [add_event] calls or by one [add_events_bulk], stores the first one
    only: the second insert changes nothing and raises nothing, the event
    kept under the key is the earliest one added (the first of the two when
    the key was free), and a store without duplicates holds exactly one
    event under the key. Two events with different keys, both free, are
    both kept. *)
Theorem add_event_first_write_wins (cal : MarketCalendar) (e1 e2 : CalendarEvent) :
  let cal2 := add_event (add_event cal e1) e2 in
  add_events_bulk cal [e1; e2] = cal2 /\
  (ticker e1 = ticker e2 /\ date e1 = date e2 /\ event_type e1 = event_type e2 ->
     cal2 = add_event cal e1 /\
     (slot_events cal e1 = [] -> slot_events cal2 e1 = [e1]) /\
     (slot_events cal e1 <> [] -> slot_events cal2 e1 = slot_events cal e1) /\
     (deduplicated cal -> length (slot_events cal2 e1) = 1)) /\
  (~ (ticker e1 = ticker e2 /\ date e1 = date e2 /\ event_type e1 = event_type e2) ->
     slot_events cal e1 = [] -> slot_events cal e2 = [] ->
     slot_events cal2 e1 = [e1] /\ slot_events cal2 e2 = [e2]).
Proof.
  intros cal2. split; [reflexivity|]. split.
  - intros (Ht & Hd & Hty).
    assert (Hk11 : same_key e1 e1 = true) by (apply same_key_spec; auto).
    assert (Hk21 : same_key e2 e1 = true) by (apply same_key_spec; auto).
    assert (Hdrop : cal2 = add_event cal e1).
    { unfold cal2. apply add_event_duplicate.
      rewrite slot_events_add_event, Hk21.
      destruct (slot_events cal e2); discriminate. }
    split; [exact Hdrop|]. rewrite Hdrop, slot_events_add_event, Hk11.
    split; [intros ->; reflexivity|]. split.
    + intros Hne. destruct (slot_events cal e1); congruence.
    + intros Hinv. specialize (Hinv e1).
      destruct (slot_events cal e1) as [|e0 l]; cbn in *; lia.
  - intros Hdiff Hf1 Hf2.
    assert (Hk11 : same_key e1 e1 = true) by (apply same_key_spec; auto).
    assert (Hk22 : same_key e2 e2 = true) by (apply same_key_spec; auto).
    assert (Hk12 : same_key e1 e2 = false).
    { apply not_true_iff_false. now rewrite same_key_spec. }
    assert (Hk21 : same_key e2 e1 = false).
    { apply not_true_iff_false. rewrite same_key_spec.
      intros (Ht & Hd & Hty). apply Hdiff. auto. }
    unfold cal2. rewrite !slot_events_add_event.
    now rewrite Hk12, Hk11, Hk22, Hk21, Hf1, Hf2.
Qed.

Lemma add_event_first_write_wins_witness :
  (add_event (add_event (empty_calendar NASDAQ) aapl_earnings) aapl_earnings_again
     = add_event (empty_calendar NASDAQ) aapl_earnings /\
   slot_events
     (add_event (add_event (empty_calendar NASDAQ) aapl_earnings) aapl_earnings_again)
     aapl_earnings = [aapl_earnings]) /\
  (slot_events
     (add_event (add_event (empty_calendar NASDAQ) aapl_earnings) aapl_dividend)
     aapl_earnings = [aapl_earnings] /\
   slot_events
     (add_event (add_event (empty_calendar NASDAQ) aapl_earnings) aapl_dividend)
     aapl_dividend = [aapl_dividend]).
Proof.
  split.
  - destruct (add_event_first_write_wins (empty_calendar NASDAQ)
                aapl_earnings aapl_earnings_again) as (_ & Hsame & _).
    destruct Hsame as (Hdrop & Hfirst & _); [repeat split|].
    split; [exact Hdrop|]. apply Hfirst. reflexivity.
  - destruct (add_event_first_write_wins (empty_calendar NASDAQ)
                aapl_earnings aapl_dividend) as (_ & _ & Hdiff).
    apply Hdiff; [|reflexivity|reflexivity].
    intros (_ & _ & Hty). discriminate Hty.
Defined.

(** *** The order on strings *)

Lemma ascii_compare_refl (a : Ascii.ascii) : Ascii.compare a a = Eq.
Proof. unfold Ascii.compare. apply N.compare_refl. Qed.

Lemma ascii_compare_lt_trans (a b c : Ascii.ascii) :
  Ascii.compare a b = Lt -> Ascii.compare b c = Lt -> Ascii.compare a c = Lt.
Proof.
  unfold Ascii.compare. rewrite !N.compare_lt_iff. apply N.lt_trans.
Qed.

Lemma string_compare_refl (s : string) : String.compare s s = Eq.
Proof.
  induction s as [|a s IH]; [reflexivity|].
  cbn. now rewrite ascii_compare_refl.
Qed.

Lemma string_compare_eq (s1 s2 : string) : String.compare s1 s2 = Eq -> s1 = s2.
Proof. apply String.compare_eq_iff. Qed.

Lemma string_compare_lt_trans (s1 s2 s3 : string) :
  String.compare s1 s2 = Lt -> String.compare s2 s3 = Lt ->
  String.compare s1 s3 = Lt.
Proof.
  revert s2 s3. induction s1 as [|a s1 IH]; intros [|b s2] [|c s3];
    cbn; try congruence.
  destruct (Ascii.compare a b) eqn:Hab; try discriminate;
    destruct (Ascii.compare b c) eqn:Hbc; try discriminate; intros H12 H23.
  - apply Ascii.compare_eq_iff in Hab, Hbc. subst.
    rewrite ascii_compare_refl. eauto.
  - apply Ascii.compare_eq_iff in Hab. subst. now rewrite Hbc.
  - apply Ascii.compare_eq_iff in Hbc. subst. now rewrite Hab.
  - now rewrite (ascii_compare_lt_trans a b c).
Qed.

Lemma string_leb_compare (s1 s2 : string) :
  String.leb s1 s2 = true <-> String.compare s1 s2 <> Gt.
Proof.
  unfold String.leb. destruct (String.compare s1 s2); split; congruence.
Qed.

Lemma string_ltb_compare (s1 s2 : string) :
  String.ltb s1 s2 = true <-> String.compare s1 s2 = Lt.
Proof.
  unfold String.ltb. destruct (String.compare s1 s2); split; congruence.
Qed.

(** [String.leb] is the lexicographic order on the character codes. *)
Lemma string_leb_lexicographic (a b : Ascii.ascii) (s t : string) :
  String.leb (String a s) (String b t) = true <->
  (Ascii.N_of_ascii a < Ascii.N_of_ascii b)%N \/
  (a = b /\ String.leb s t = true).
Proof.
  unfold String.leb. cbn [String.compare]. unfold Ascii.compare.
  destruct (N.compare_spec (Ascii.N_of_ascii a) (Ascii.N_of_ascii b))
    as [Heq|Hlt|Hgt].
  - apply (f_equal Ascii.ascii_of_N) in Heq.
    rewrite !Ascii.ascii_N_embedding in Heq. subst b.
    split; [intros H; right; now split|].
    intros [Hlt|[_ H]]; [lia|exact H].
  - split; [now left|reflexivity].
  - split; [discriminate|]. intros [Hlt|[-> _]]; lia.
Qed.

Lemma string_leb_empty (s : string) : String.leb EmptyString s = true.
Proof. now destruct s. Qed.

Lemma string_leb_refl (s : string) : String.leb s s = true.
Proof. apply string_leb_compare. rewrite string_compare_refl. discriminate. Qed.

Lemma string_leb_trans (s1 s2 s3 : string) :
  String.leb s1 s2 = true -> String.leb s2 s3 = true -> String.leb s1 s3 = true.
Proof.
  rewrite !string_leb_compare. intros H12 H23.
  destruct (String.compare s1 s2) eqn:E12; [| |congruence].
  - apply string_compare_eq in E12. now subst.
  - destruct (String.compare s2 s3) eqn:E23; [| |congruence].
    + apply string_compare_eq in E23. subst. now rewrite E12.
    + now rewrite (string_compare_lt_trans s1 s2 s3).
Qed.

Lemma string_ltb_leb (s1 s2 : string) :
  String.ltb s1 s2 = true -> String.leb s1 s2 = true.
Proof.
  rewrite string_ltb_compare, string_leb_compare. congruence.
Qed.

Lemma string_not_ltb_leb (s1 s2 : string) :
  String.ltb s1 s2 = false -> String.leb s2 s1 = true.
Proof.
  rewrite <- not_true_iff_false, string_ltb_compare, string_leb_compare.
  rewrite (String.compare_antisym s1 s2).
  destruct (String.compare s2 s1); cbn; congruence.
Qed.

(** *** The filtering queries *)

Lemma map_fold_collect_lookup (keep : CalendarEvent -> bool)
    (m : gmap string (list CalendarEvent)) (t : string) :
  map_fold (collect keep) ∅ m !! t = m !! t ≫= kept keep.
Proof.
  revert t.
  apply (map_fold_weak_ind
           (fun r m => forall t, r !! t = m !! t ≫= kept keep)).
  - intros t. now rewrite !lookup_empty.
  - intros i evs m' r Hfresh IH t. unfold collect.
    destruct (decide (t = i)) as [->|Hne].
    + rewrite lookup_insert_eq. cbn [mbind option_bind]. unfold kept.
      destruct (List.filter keep evs) eqn:Hf.
      * now rewrite IH, Hfresh.
      * now rewrite lookup_insert_eq.
    + rewrite (lookup_insert_ne m') by congruence.
      destruct (List.filter keep evs);
        [|rewrite lookup_insert_ne by congruence]; apply IH.
Qed.

Lemma kept_Some (keep : CalendarEvent -> bool) (evs l : list CalendarEvent) :
  kept keep evs = Some l <-> l = List.filter keep evs /\ l <> [].
Proof.
  unfold kept. destruct (List.filter keep evs); split.
  - discriminate.
  - intros [-> H]. congruence.
  - intros [= <-]. split; [reflexivity|discriminate].
  - intros [-> _]. reflexivity.
Qed.

(** The entry of a ticker in the result of the date-range query. *)
Lemma get_events_by_date_range_lookup (cal : MarketCalendar)
    (start_date end_date t : string) (l : list CalendarEvent) :
  get_events_by_date_range cal start_date end_date !! t = Some l <->
  l = List.filter (in_date_range start_date end_date) (get_events_by_ticker cal t)
  /\ l <> [].
Proof.
  unfold get_events_by_date_range, get_events_by_ticker.
  rewrite map_fold_collect_lookup.
  destruct (events cal !! t) as [evs|]; cbn [mbind option_bind]; simpl_default.
  - apply kept_Some.
  - split; [discriminate|]. intros [-> H]. now contradiction H.
Qed.

(** C6. The date-range query keeps the events whose date lies between the
    two bounds in the lexicographic order on strings, both bounds included:
    an event dated exactly [start_date] or exactly [end_date] is returned
    (for bounds in order); and a ticker is a key of the result if and only
    if one of its events lies in the range. *)
Theorem get_events_by_date_range_spec (cal : MarketCalendar)
    (start_date end_date : string) :
  let result := get_events_by_date_range cal start_date end_date in
  (forall t e,
     (exists l, result !! t = Some l /\ In e l) <->
     In e (get_events_by_ticker cal t) /\
     String.leb start_date (date e) = true /\
     String.leb (date e) end_date = true) /\
  (String.leb start_date end_date = true ->
   forall t e,
     In e (get_events_by_ticker cal t) ->
     date e = start_date \/ date e = end_date ->
     exists l, result !! t = Some l /\ In e l) /\
  (forall t,
     is_Some (result !! t) <->
     exists e, In e (get_events_by_ticker cal t) /\
               String.leb start_date (date e) = true /\
               String.leb (date e) end_date = true).
Proof.
  intros result.
  assert (Hmem : forall t e,
     (exists l, result !! t = Some l /\ In e l) <->
     In e (get_events_by_ticker cal t) /\
     String.leb start_date (date e) = true /\
     String.leb (date e) end_date = true).
  { intros t e. split.
    - intros (l & Hl & Hin).
      apply get_events_by_date_range_lookup in Hl as [-> _].
      apply List.filter_In in Hin as [Hin Hr].
      unfold in_date_range in Hr. apply andb_true_iff in Hr. tauto.
    - intros (Hin & Hlo & Hhi).
      assert (Hf : In e (List.filter (in_date_range start_date end_date)
                           (get_events_by_ticker cal t))).
      { apply List.filter_In. split; [exact Hin|].
        unfold in_date_range. now rewrite Hlo, Hhi. }
      eexists. split; [|exact Hf].
      apply get_events_by_date_range_lookup. split; [reflexivity|].
      intros Hnil. rewrite Hnil in Hf. exact Hf. }
  split; [exact Hmem|]. split.
  - intros Horder t e Hin [Hd|Hd]; apply Hmem; rewrite Hd;
      auto using string_leb_refl.
  - intros t. split.
    + intros [l Hl].
      pose proof Hl as Hl'.
      apply get_events_by_date_range_lookup in Hl' as [-> Hne].
      destruct (List.filter (in_date_range start_date end_date)
                  (get_events_by_ticker cal t)) as [|e l'] eqn:Hf;
        [congruence|].
      exists e. apply Hmem. exists (e :: l'). split; [exact Hl|now left].
    + intros (e & He). apply Hmem in He as (l & Hl & _). now exists l.
Qed.

Lemma get_events_by_date_range_spec_witness :
  exists l,
    get_events_by_date_range two_ticker_calendar "2026-02-05" "2026-02-28"
      !! "AAPL" = Some l /\
    In aapl_earnings l.
Proof.
  apply (get_events_by_date_range_spec two_ticker_calendar
           "2026-02-05" "2026-02-28");
    [reflexivity | vm_compute; auto | left; reflexivity].
Defined.

(** *** The summary *)

Lemma all_events_stored (cal : MarketCalendar) (e : CalendarEvent) :
  In e (all_events cal) <-> stored cal e.
Proof.
  unfold all_events, stored. revert e.
  apply (map_fold_weak_ind
           (fun (r : list CalendarEvent) (m : gmap string (list CalendarEvent)) =>
              forall e, In e r <-> exists t evs, m !! t = Some evs /\ In e evs)).
  - intros e. split; [intros []|].
    intros (t & evs & Ht & _). now rewrite lookup_empty in Ht.
  - intros i x m r Hfresh IH e. rewrite in_app_iff, IH. split.
    + intros [(t & evs & Ht & Hin)|Hin].
      * exists t, evs. split; [|exact Hin].
        rewrite lookup_insert_ne; [exact Ht|congruence].
      * exists i, x. now rewrite lookup_insert_eq.
    + intros (t & evs & Ht & Hin).
      destruct (decide (i = t)) as [->|Hne].
      * rewrite lookup_insert_eq in Ht. injection Ht as <-. now right.
      * rewrite lookup_insert_ne in Ht by exact Hne. left. eauto.
Qed.

Lemma all_events_length (cal : MarketCalendar) :
  length (all_events cal) = count_stored cal.
Proof.
  unfold all_events, count_stored. rewrite !map_fold_foldr.
  induction (map_to_list (events cal)) as [|[t evs] l IH]; [reflexivity|].
  cbn [foldr uncurry]. now rewrite length_app, IH.
Qed.

Lemma sum_values_insert_fresh (h : gmap string nat) (k : string) (n : nat) :
  h !! k = None -> sum_values (<[k := n]> h) = sum_values h + n.
Proof.
  intros Hk. unfold sum_values.
  rewrite map_fold_insert_L; [reflexivity| |exact Hk].
  intros; lia.
Qed.

Lemma sum_values_count_event (h : gmap string nat) (e : CalendarEvent) :
  sum_values (count_event h e) = sum_values h + 1.
Proof.
  unfold count_event. set (v := event_type_value (event_type e)).
  destruct (h !! v) as [n|] eqn:Hv; simpl_default.
  - rewrite <- (insert_delete_eq h).
    rewrite sum_values_insert_fresh by apply lookup_delete_eq.
    rewrite <- (insert_delete_id h v n Hv) at 2.
    rewrite sum_values_insert_fresh by apply lookup_delete_eq.
    lia.
  - now rewrite sum_values_insert_fresh.
Qed.

Lemma sum_values_histogram (l : list CalendarEvent) (h : gmap string nat) :
  sum_values (fold_left count_event l h) = sum_values h + length l.
Proof.
  revert h. induction l as [|e l IH]; intros h; cbn [fold_left length]; [lia|].
  rewrite IH, sum_values_count_event. lia.
Qed.

(** Each entry of the histogram counts the events of its type. *)
Lemma histogram_count (l : list CalendarEvent) (h : gmap string nat) (v : string) :
  default 0 (fold_left count_event l h !! v)
  = default 0 (h !! v) + count_of_type v l.
Proof.
  revert h. induction l as [|e l IH]; intros h; cbn [fold_left].
  - unfold count_of_type. cbn. lia.
  - rewrite IH. unfold count_event, count_of_type. cbn [List.filter].
    destruct (String.eqb_spec (event_type_value (event_type e)) v) as [->|Hne].
    + rewrite lookup_insert_eq. cbn. lia.
    + rewrite lookup_insert_ne by exact Hne. lia.
Qed.

Lemma event_types_count (cal : MarketCalendar) (v : string) :
  default 0 (event_types (get_summary cal) !! v)
  = count_of_type v (all_events cal).
Proof.
  unfold get_summary. cbn [event_types].
  now rewrite histogram_count, lookup_empty.
Qed.

Lemma py_min_None (l : list string) : py_min l = None <-> l = [].
Proof. destruct l; split; intros H; try reflexivity; discriminate H. Qed.

Lemma py_max_None (l : list string) : py_max l = None <-> l = [].
Proof. destruct l; split; intros H; try reflexivity; discriminate H. Qed.

Lemma fold_min_least (rest : list string) (x : string) :
  let m := fold_left (fun m d => if String.ltb d m then d else m) rest x in
  In m (x :: rest) /\ forall d, In d (x :: rest) -> String.leb m d = true.
Proof.
  revert x. induction rest as [|d0 rest IH]; intros x; cbn [fold_left].
  - split; [now left|]. intros d [<-|[]]. apply string_leb_refl.
  - specialize (IH (if String.ltb d0 x then d0 else x)).
    cbv zeta in IH. destruct IH as [Hin Hle].
    set (m := fold_left _ rest _) in *.
    assert (Hx' : String.leb m (if String.ltb d0 x then d0 else x) = true)
      by (apply Hle; now left).
    destruct (String.ltb d0 x) eqn:Hlt.
    + split.
      * destruct Hin as [Hin|Hin]; [right; now left|right; now right].
      * intros d [<-|[<-|Hd]].
        -- eapply string_leb_trans; [exact Hx'|now apply string_ltb_leb].
        -- exact Hx'.
        -- apply Hle. now right.
    + split.
      * destruct Hin as [Hin|Hin]; [now left|right; now right].
      * intros d [<-|[<-|Hd]].
        -- exact Hx'.
        -- eapply string_leb_trans; [exact Hx'|now apply string_not_ltb_leb].
        -- apply Hle. now right.
Qed.

Lemma fold_max_greatest (rest : list string) (x : string) :
  let m := fold_left (fun m d => if String.ltb m d then d else m) rest x in
  In m (x :: rest) /\ forall d, In d (x :: rest) -> String.leb d m = true.
Proof.
  revert x. induction rest as [|d0 rest IH]; intros x; cbn [fold_left].
  - split; [now left|]. intros d [<-|[]]. apply string_leb_refl.
  - specialize (IH (if String.ltb x d0 then d0 else x)).
    cbv zeta in IH. destruct IH as [Hin Hle].
    set (m := fold_left _ rest _) in *.
    assert (Hx' : String.leb (if String.ltb x d0 then d0 else x) m = true)
      by (apply Hle; now left).
    destruct (String.ltb x d0) eqn:Hlt.
    + split.
      * destruct Hin as [Hin|Hin]; [right; now left|right; now right].
      * intros d [<-|[<-|Hd]].
        -- eapply string_leb_trans; [|exact Hx']. now apply string_ltb_leb.
        -- exact Hx'.
        -- apply Hle. now right.
    + split.
      * destruct Hin as [Hin|Hin]; [now left|right; now right].
      * intros d [<-|[<-|Hd]].
        -- exact Hx'.
        -- eapply string_leb_trans; [|exact Hx']. now apply string_not_ltb_leb.
        -- apply Hle. now right.
Qed.

Lemma py_min_Some (l : list string) (m : string) :
  py_min l = Some m -> In m l /\ forall d, In d l -> String.leb m d = true.
Proof.
  destruct l as [|x rest]; [discriminate|]. intros [= <-].
  apply fold_min_least.
Qed.

Lemma py_max_Some (l : list string) (m : string) :
  py_max l = Some m -> In m l /\ forall d, In d l -> String.leb d m = true.
Proof.
  destruct l as [|x rest]; [discriminate|]. intros [= <-].
  apply fold_max_greatest.
Qed.

Lemma in_dates_stored (cal : MarketCalendar) (d : string) :
  In d (List.map date (all_events cal)) <-> exists e, stored cal e /\ date e = d.
Proof.
  rewrite in_map_iff. split; intros (e & H1 & H2).
  - exists e. now rewrite <- all_events_stored.
  - exists e. now rewrite all_events_stored.
Qed.

Lemma no_dates_no_events (cal : MarketCalendar) :
  List.map date (all_events cal) = [] <-> forall e, ~ stored cal e.
Proof.
  split.
  - intros Hnil e He. apply all_events_stored in He.
    apply (in_map date) in He. rewrite Hnil in He. exact He.
  - intros Hnone. destruct (all_events cal) as [|e l] eqn:Hall; [reflexivity|].
    exfalso. apply (Hnone e), all_events_stored. rewrite Hall. now left.
Qed.

(** C7. In the record returned by [get_summary()] the counts of
    [event_types] add up to [total_events], which is the number of events
    over all ticker lists; [total_tickers] is the number of ticker keys;
    [date_range.first] and [date_range.last] are the least and the greatest
    date of a stored event, and are null exactly when no event is stored,
    as in the empty store. *)
Theorem get_summary_spec (cal : MarketCalendar) :
  let s := get_summary cal in
  sum_values (event_types s) = total_events s /\
  total_events s = count_stored cal /\
  total_tickers s = size (dom (events cal)) /\
  (date_range_first s = None <-> forall e, ~ stored cal e) /\
  (date_range_last s = None <-> forall e, ~ stored cal e) /\
  (forall d, date_range_first s = Some d ->
     (exists e, stored cal e /\ date e = d) /\
     (forall e, stored cal e -> String.leb d (date e) = true)) /\
  (forall d, date_range_last s = Some d ->
     (exists e, stored cal e /\ date e = d) /\
     (forall e, stored cal e -> String.leb (date e) d = true)) /\
  (events cal = ∅ -> date_range_first s = None /\ date_range_last s = None).
Proof.
  intros s. unfold s, get_summary.
  cbn [event_types total_events total_tickers date_range_first date_range_last].
  split.
  { rewrite sum_values_histogram. unfold sum_values.
    now rewrite map_fold_empty. }
  split; [apply all_events_length|].
  split; [symmetry; apply size_dom|].
  split; [rewrite py_min_None; apply no_dates_no_events|].
  split; [rewrite py_max_None; apply no_dates_no_events|].
  split.
  { intros d Hd. apply py_min_Some in Hd as [Hin Hle]. split.
    - now apply in_dates_stored.
    - intros e He. apply Hle, in_dates_stored. eauto. }
  split.
  { intros d Hd. apply py_max_Some in Hd as [Hin Hle]. split.
    - now apply in_dates_stored.
    - intros e He. apply Hle, in_dates_stored. eauto. }
  intros Hempty.
  assert (Hnone : forall e, ~ stored cal e).
  { intros e (t & evs & Ht & _). rewrite Hempty, lookup_empty in Ht.
    discriminate. }
  rewrite py_min_None, py_max_None. split; now apply no_dates_no_events.
Qed.

Lemma get_summary_spec_witness :
  date_range_first (get_summary two_ticker_calendar) = Some "2026-02-05" /\
  (exists e, stored two_ticker_calendar e /\ date e = "2026-02-05") /\
  date_range_first (get_summary (empty_calendar FTSE)) = None.
Proof.
  assert (Hfirst : date_range_first (get_summary two_ticker_calendar)
                   = Some "2026-02-05") by (vm_compute; reflexivity).
  split; [exact Hfirst|]. split.
  - destruct (get_summary_spec two_ticker_calendar)
      as (_ & _ & _ & _ & _ & Hmin & _).
    apply (Hmin "2026-02-05" Hfirst).
  - destruct (get_summary_spec (empty_calendar FTSE))
      as (_ & _ & _ & _ & _ & _ & _ & Hempty).
    apply Hempty. reflexivity.
Defined.

(** *** Loading and saving *)

Lemma Market_of_value_value (m : Market) : Market_of_value (market_value m) = Ok m.
Proof. now destruct m. Qed.

Lemma EventType_of_value_value (t : EventType) :
  EventType_of_value (event_type_value t) = Ok t.
Proof. now destruct t. Qed.

(** Reading back a record written by [to_dict] gives the event again, with
    the time of the reading as its [timestamp]; the metadata of an event,
    which were [**kwargs] of its constructor, repeat no parameter. *)
Lemma from_dict_to_dict (now : string) (e : CalendarEvent) :
  valid_kwargs (metadata e) = true ->
  from_dict now (to_dict e) =
  Ok (new_event (ticker e) (market e) (event_type e) (date e) (description e)
        (metadata e) now).
Proof.
  intros Hmd. unfold from_dict, to_dict. cbn.
  rewrite Market_of_value_value. cbn.
  rewrite EventType_of_value_value. cbn.
  unfold call_new_event. now rewrite Hmd.
Qed.

(** The fields of a deserialized event are those of its record. *)
Lemma from_dict_fields (now : string) (data : event_dict) (e : CalendarEvent) :
  from_dict now data = Ok e ->
  d_ticker data = Some (ticker e) /\
  d_date data = Some (date e) /\
  d_description data = Some (description e) /\
  (exists v, d_market data = Some v /\ Market_of_value v = Ok (market e)) /\
  (exists v, d_event_type data = Some v /\
             EventType_of_value v = Ok (event_type e)).
Proof.
  unfold from_dict. destruct data as [t m ty d ds ts md]. cbn.
  destruct t as [t|]; [|discriminate]. cbn.
  destruct m as [m|]; [|discriminate]. cbn.
  destruct (Market_of_value m) as [m'|] eqn:Hm; [|discriminate]. cbn.
  destruct ty as [ty|]; [|discriminate]. cbn.
  destruct (EventType_of_value ty) as [ty'|] eqn:Hty; [|discriminate]. cbn.
  destruct d as [d|]; [|discriminate]. cbn.
  destruct ds as [ds|]; [|discriminate]. cbn.
  unfold call_new_event. destruct (valid_kwargs _); [|discriminate].
  intros [= <-]. cbn. eauto 10.
Qed.

Lemma load_items_ok (now : string) (items : list (string * list event_dict))
    (acc : gmap string (list CalendarEvent)) :
  decodable now items = true -> NoDup items.*1 ->
  exists evs,
    load_items now items acc = (evs, Ok tt) /\
    forall t es,
      evs !! t = Some es <->
      (exists recs, In (t, recs) items /\ from_dicts now recs = Ok es) \/
      ((t ∉ items.*1) /\ acc !! t = Some es).
Proof.
  revert acc. induction items as [|[t0 recs0] rest IH]; intros acc Hdec Hnd.
  - exists acc. split; [reflexivity|]. intros t es. split.
    + intros Ht. right. split; [apply not_elem_of_nil|exact Ht].
    + intros [(recs & [] & _)|[_ Ht]]. exact Ht.
  - cbn [decodable forallb snd] in Hdec. apply andb_true_iff in Hdec as [Hes0 Hdec].
    destruct (from_dicts now recs0) as [es0|] eqn:Hrecs0; [clear Hes0|discriminate].
    rename Hrecs0 into Hes0.
    cbn [fmap list_fmap fst] in Hnd. apply NoDup_cons in Hnd as [Hfresh Hnd].
    destruct (IH (<[t0 := es0]> acc) Hdec Hnd) as (evs & Hload & Hlook).
    exists evs. cbn [load_items]. rewrite Hes0. split; [exact Hload|].
    intros t es. rewrite Hlook. clear Hlook Hload. split.
    + intros [(recs & Hin & Hrecs)|[Hnot Hacc]].
      * left. exists recs. split; [now right|exact Hrecs].
      * destruct (decide (t0 = t)) as [<-|Hne].
        -- rewrite lookup_insert_eq in Hacc. injection Hacc as <-.
           left. exists recs0. split; [now left|exact Hes0].
        -- rewrite lookup_insert_ne in Hacc by exact Hne.
           right. split; [|exact Hacc].
           cbn [fmap list_fmap fst]. rewrite not_elem_of_cons. split; congruence.
    + intros [(recs & [Heq|Hin] & Hrecs)|[Hnot Hacc]].
      * injection Heq as <- <-. right. split; [exact Hfresh|].
        rewrite lookup_insert_eq. congruence.
      * left. eauto.
      * cbn [fmap list_fmap fst] in Hnot. apply not_elem_of_cons in Hnot as [Hne Hnot].
        right. split; [exact Hnot|].
        rewrite lookup_insert_ne by congruence. exact Hacc.
Qed.





Lemma from_dicts_to_dicts (now : string) (evs : list CalendarEvent) :
  Forall (fun e => valid_kwargs (metadata e) = true) evs ->
  from_dicts now (List.map to_dict evs) = Ok (List.map (restamp now) evs).
Proof.
  induction 1 as [|e evs He _ IH]; [reflexivity|].
  cbn [List.map from_dicts]. rewrite (from_dict_to_dict now e He), IH.
  reflexivity.
Qed.

(** Round trip: a store saved as YAML and constructed again from the disk
    holds, for every ticker, the events that were saved, with new time
    stamps, and the time of the save as [last_updated]. *)
Lemma save_then_init (cal : MarketCalendar) (d : disk) (now now' : string) :
  write_fails d = false ->
  (forall e, stored cal e -> valid_kwargs (metadata e) = true) ->
  exists d' cal',
    (save_calendar cal d now "yaml").2 = Ok d' /\
    init (cal_market cal) d' now' = Ok cal' /\
    last_updated cal' = Some now /\
    forall t, events cal' !! t = List.map (restamp now') <$> events cal !! t.
Proof.
  intros Hw Hvalid.
  set (d' := {| calendar_yaml := Holds (Some (dump_data cal now));
                calendar_json := calendar_json d;
                write_fails := write_fails d |}).
  set (items := prod_map id (List.map to_dict) <$> map_to_list (events cal)).
  assert (Hitem : forall t recs,
            In (t, recs) items <->
            exists evs, events cal !! t = Some evs /\ recs = List.map to_dict evs).
  { intros t recs. unfold items.
    rewrite <- list_elem_of_In, list_elem_of_fmap. split.
    - intros ([t' evs] & [= -> ->] & Hin).
      apply elem_of_map_to_list in Hin. eauto.
    - intros (evs & Ht & ->). exists (t, evs). split; [reflexivity|].
      now apply elem_of_map_to_list. }
  assert (Hback : forall t evs,
            events cal !! t = Some evs ->
            from_dicts now' (List.map to_dict evs)
            = Ok (List.map (restamp now') evs)).
  { intros t evs Ht. apply from_dicts_to_dicts, List.Forall_forall.
    intros e He. apply Hvalid. now exists t, evs. }
  assert (Hdec : decodable now' items = true).
  { unfold decodable. apply forallb_forall. intros [t recs] Hin.
    apply Hitem in Hin as (evs & Ht & ->). cbn [snd].
    now rewrite (Hback t evs Ht). }
  assert (Hnd : NoDup items.*1).
  { unfold items. rewrite <- list_fmap_compose.
    rewrite (list_fmap_ext _ fst (map_to_list (events cal)))
      by (now intros _ [t evs] _).
    apply NoDup_fst_map_to_list. }
  destruct (load_items_ok now' items ∅ Hdec Hnd) as (evs' & Hload & Hlook).
  exists d'. eexists. split.
  { unfold save_calendar, _save_yaml, d'. cbn. now rewrite Hw. }
  split.
  { unfold init, _load_local_calendar. cbn [calendar_yaml d'].
    cbn [default from_option id dump_data doc_events doc_last_updated].
    fold items. rewrite Hload. reflexivity. }
  cbn [last_updated events]. split; [reflexivity|].
  intros t. apply option_eq. intros es. rewrite Hlook. split.
  - intros [(recs & Hin & Hrecs)|[_ Hacc]];
      [|now rewrite lookup_empty in Hacc].
    apply Hitem in Hin as (evs & Ht & ->).
    rewrite (Hback t evs Ht) in Hrecs. injection Hrecs as <-.
    now rewrite Ht.
  - intros Hes. destruct (events cal !! t) as [evs|] eqn:Ht; [|discriminate].
    injection Hes as <-. left. exists (List.map to_dict evs). split.
    + apply Hitem. eauto.
    + now apply (Hback t).
Qed.

Lemma save_calendar_keeps_store (cal : MarketCalendar) (d : disk)
    (now format_type : string) :
  (save_calendar cal d now format_type).1 = cal.
Proof.
  unfold save_calendar.
  destruct (String.eqb format_type "yaml"); [reflexivity|].
  destruct (String.eqb format_type "json"); reflexivity.
Qed.





End CalendarFacts.

(** ** The source orchestrator *)

Module SourcesFacts.
Import Py Calendar Sources.

Lemma lookup_set_item (st : loop_state) (k k' : string) (v : list CalendarEvent) :
  result_dict (set_item st k v) !! k' =
  if decide (k = k') then Some v else result_dict st !! k'.
Proof. unfold set_item. cbn [result_dict]. apply lookup_insert. Qed.

(** Rewrites the lookups of a [result] built by [set_item] and [log_call]. *)
Ltac lookup_result :=
  cbn [result_dict log_call set_item];
  repeat first [rewrite lookup_insert_eq
               |rewrite lookup_insert_ne by congruence
               |rewrite lookup_empty].

Section OneCall.

(** One invocation [fetch_all_calendars(market, days_ahead)]. *)
Variables (market : Market) (days_ahead : Z).

Lemma usable_dec (s : DataSource) :
  {usable s market days_ahead} + {~ usable s market days_ahead}.
Proof.
  unfold usable.
  destruct (health_check s) as [[]|];
    [|right; intros (H & _); discriminate H..].
  destruct (fetch_earnings_calendar s market days_ahead);
    [|right; intros (_ & [l H] & _); discriminate H].
  destruct (fetch_dividend_calendar s market days_ahead);
    [|right; intros (_ & _ & [l H] & _); discriminate H].
  destruct (fetch_economic_calendar s days_ahead);
    [|right; intros (_ & _ & _ & [l H]); discriminate H].
  left. eauto 10.
Qed.

(** Every list of sources has a first usable source, or none. *)
Lemma first_usable_split (sources : list DataSource) :
  Forall (fun s => ~ usable s market days_ahead) sources \/
  exists pre s post,
    sources = pre ++ s :: post /\
    Forall (fun s' => ~ usable s' market days_ahead) pre /\
    usable s market days_ahead.
Proof.
  induction sources as [|s0 sources IH]; [left; constructor|].
  destruct (usable_dec s0) as [Hs0|Hs0].
  - right. exists [], s0, sources.
    split; [reflexivity|]. split; [constructor|exact Hs0].
  - destruct IH as [Hnone|(pre & s & post & -> & Hpre & Hs)].
    + left. now constructor.
    + right. exists (s0 :: pre), s, post.
      split; [reflexivity|]. split; [now constructor|exact Hs].
Qed.

(** Every iteration appends calls to the source it visits, and to no
    other. *)
Lemma try_source_calls (s : DataSource) (i : nat) (st : loop_state) :
  exists cs,
    calls (try_source s i market days_ahead st).1 = calls st ++ cs /\
    Forall (fun c => call_source c = i) cs.
Proof.
  unfold try_source.
  destruct (health_check s) as [[]|];
    [destruct (fetch_earnings_calendar s market days_ahead);
     [destruct (fetch_dividend_calendar s market days_ahead);
      [destruct (result_dict _ !! "economic");
       [|destruct (fetch_economic_calendar s days_ahead)]|]|]| |];
    cbn [fst calls log_call set_item]; rewrite <- ?app_assoc;
    eexists; (split; [reflexivity|]); repeat constructor.
Qed.

(** A source that does not report healthy is asked nothing else. *)
Lemma try_source_unhealthy (s : DataSource) (i : nat) (st : loop_state) :
  health_check s <> Ok true ->
  try_source s i market days_ahead st = (log_call st (CallHealthCheck i), Continue).
Proof.
  intros Hh. unfold try_source.
  destruct (health_check s) as [[]|]; [congruence|reflexivity..].
Qed.

(** When the earnings or the dividend fetch raises, the iteration leaves
    [result] untouched. *)
Lemma try_source_early_failure (s : DataSource) (i : nat) (st : loop_state) :
  raises (fetch_earnings_calendar s market days_ahead) \/
  raises (fetch_dividend_calendar s market days_ahead) ->
  (try_source s i market days_ahead st).2 = Continue /\
  result_dict (try_source s i market days_ahead st).1 = result_dict st.
Proof.
  intros Hraise. unfold try_source.
  destruct (health_check s) as [[]|]; [|now split..].
  destruct (fetch_earnings_calendar s market days_ahead); [|now split].
  destruct (fetch_dividend_calendar s market days_ahead); [|now split].
  now destruct Hraise.
Qed.

(** The iteration for a healthy source whose earnings and dividend fetches
    return: both lists are entered in [result] before the economic fetch
    is called. *)
Lemma try_source_pair (s : DataSource) (i : nat) (st : loop_state)
    (e d : list CalendarEvent) :
  health_check s = Ok true ->
  fetch_earnings_calendar s market days_ahead = Ok e ->
  fetch_dividend_calendar s market days_ahead = Ok d ->
  result_dict st !! "economic" = None ->
  let st3 :=
    log_call
      (set_item
         (set_item
            (log_call
               (log_call (log_call st (CallHealthCheck i)) (CallFetchEarnings i))
               (CallFetchDividend i))
            "earnings" e)
         "dividends" d)
      (CallFetchEconomic i) in
  try_source s i market days_ahead st =
  match fetch_economic_calendar s days_ahead with
  | Raise _ => (st3, Continue)
  | Ok c => (set_item st3 "economic" c, Break)
  end.
Proof.
  intros Hh He Hd Heco st3. unfold try_source. rewrite Hh, He, Hd.
  lookup_result. now rewrite Heco.
Qed.

(** An iteration that goes on to the next source has not entered
    ["economic"]. *)
Lemma try_source_continue (s : DataSource) (i : nat) (st st' : loop_state) :
  try_source s i market days_ahead st = (st', Continue) ->
  result_dict st !! "economic" = None ->
  result_dict st' !! "economic" = None.
Proof.
  unfold try_source. intros Htry Heco.
  destruct (health_check s) as [[]|]; [|now injection Htry as <-..].
  - destruct (fetch_earnings_calendar s market days_ahead);
      [|now injection Htry as <-].
    destruct (fetch_dividend_calendar s market days_ahead);
      [|now injection Htry as <-].
    rewrite !lookup_set_item in Htry. cbn in Htry. rewrite Heco in Htry.
    destruct (fetch_economic_calendar s days_ahead); [discriminate|].
    injection Htry as <-. cbn [result_dict log_call].
    rewrite !lookup_set_item. exact Heco.
Qed.

Lemma try_source_usable (s : DataSource) (i : nat) (st : loop_state) :
  usable s market days_ahead ->
  result_dict st !! "economic" = None ->
  exists st',
    try_source s i market days_ahead st = (st', Break) /\
    result_of s market days_ahead (result_dict st').
Proof.
  intros (Hh & [e He] & [d Hd] & [c Hc]) Heco.
  unfold try_source, result_of. rewrite Hh, He, Hd.
  rewrite !lookup_set_item. cbn. rewrite Heco, Hc.
  eexists. split; [reflexivity|].
  repeat split; eexists; (split; [|reflexivity]); lookup_result; reflexivity.
Qed.

Lemma try_source_not_usable (s : DataSource) (i : nat) (st : loop_state) :
  ~ usable s market days_ahead ->
  result_dict st !! "economic" = None ->
  (try_source s i market days_ahead st).2 = Continue.
Proof.
  intros Hnot Heco. unfold try_source.
  destruct (health_check s) as [[]|] eqn:Hh; [|reflexivity..].
  destruct (fetch_earnings_calendar s market days_ahead) eqn:He; [|reflexivity].
  destruct (fetch_dividend_calendar s market days_ahead) eqn:Hd; [|reflexivity].
  rewrite !lookup_set_item. cbn. rewrite Heco.
  destruct (fetch_economic_calendar s days_ahead) eqn:Hc; [|reflexivity].
  exfalso. apply Hnot. unfold usable. eauto 10.
Qed.

(** The loop stops at the first usable source: the result is made of its
    three lists, and no source after it is called. *)
Lemma fetch_loop_first_usable (pre post : list DataSource) (s : DataSource)
    (i : nat) (st : loop_state) :
  Forall (fun s' => ~ usable s' market days_ahead) pre ->
  usable s market days_ahead ->
  result_dict st !! "economic" = None ->
  let st' := fetch_loop (pre ++ s :: post) i market days_ahead st in
  result_of s market days_ahead (result_dict st') /\
  exists cs,
    calls st' = calls st ++ cs /\
    Forall (fun c => i <= call_source c <= i + length pre) cs.
Proof.
  revert i st. induction pre as [|s0 pre IH]; intros i st Hpre Hs Heco.
  - cbn [app fetch_loop length].
    destruct (try_source_usable s i st Hs Heco) as (st1 & Htry & Hres).
    destruct (try_source_calls s i st) as (cs & Hcs & Hall).
    rewrite Htry in *. cbn [fst] in Hcs. split; [exact Hres|].
    exists cs. split; [exact Hcs|].
    eapply Forall_impl; [exact Hall|]. cbn. intros c ->. lia.
  - apply Forall_cons in Hpre as [Hs0 Hpre].
    cbn [app fetch_loop length].
    pose proof (try_source_not_usable s0 i st Hs0 Heco) as Hflow.
    destruct (try_source_calls s0 i st) as (cs0 & Hcs0 & Hall0).
    destruct (try_source s0 i market days_ahead st) as [st1 f] eqn:Htry.
    cbn [snd] in Hflow. subst f. cbn [fst] in Hcs0.
    pose proof (try_source_continue _ _ _ _ Htry Heco) as Heco1.
    destruct (IH (S i) st1 Hpre Hs Heco1) as (Hres & cs & Hcs & Hall).
    split; [exact Hres|].
    exists (cs0 ++ cs). split; [now rewrite Hcs, Hcs0, app_assoc|].
    apply Forall_app. split.
    + eapply Forall_impl; [exact Hall0|]. cbn. intros c ->. lia.
    + eapply Forall_impl; [exact Hall|]. cbn. intros c Hc. lia.
Qed.

(** The fallback policy of [fetch_all_calendars]: sources that are not
    healthy, or that raise, are passed over; the first usable source
    supplies earnings, dividends and economic events; the sources after it
    are not called. *)
Lemma fetch_uses_first_usable_source (pre post : list DataSource)
    (s : DataSource) :
  Forall (fun s' => ~ usable s' market days_ahead) pre ->
  usable s market days_ahead ->
  result_of s market days_ahead
    (fetch_all_calendars (pre ++ s :: post) market days_ahead) /\
  Forall (fun c => call_source c <= length pre)
    (calls (fetch_all_calendars_traced (pre ++ s :: post) market days_ahead)).
Proof.
  intros Hpre Hs. unfold fetch_all_calendars, fetch_all_calendars_traced.
  destruct (fetch_loop_first_usable pre post s 0
              {| result_dict := ∅; calls := [] |} Hpre Hs (lookup_empty _))
    as (Hres & cs & Hcs & Hall).
  split; [exact Hres|]. rewrite Hcs. cbn [calls app].
  eapply Forall_impl; [exact Hall|]. cbn. intros c Hc. lia.
Qed.

(** What an iteration without usable source does to [result]: nothing, or
    it replaces the pair of a source that failed late by the pair of
    another one. *)
Lemma try_source_leftover (seen : list DataSource) (s : DataSource) (i : nat)
    (st : loop_state) :
  ~ usable s market days_ahead ->
  leftover seen market days_ahead (result_dict st) ->
  leftover (seen ++ [s]) market days_ahead
    (result_dict (try_source s i market days_ahead st).1).
Proof.
  intros Hnot (Heco & Hleft).
  assert (Hkeep : leftover (seen ++ [s]) market days_ahead (result_dict st)).
  { split; [exact Heco|]. destruct Hleft as [Hempty|(s' & Hin & Hs')].
    - now left.
    - right. exists s'. split; [|exact Hs']. apply in_or_app. now left. }
  destruct (health_check s) as [[]|] eqn:Hh;
    [|rewrite try_source_unhealthy by congruence; exact Hkeep..].
  destruct (fetch_earnings_calendar s market days_ahead) as [e|] eqn:He.
  2: { destruct (try_source_early_failure s i st) as [_ ->];
         [left; now rewrite He|exact Hkeep]. }
  destruct (fetch_dividend_calendar s market days_ahead) as [d|] eqn:Hd.
  2: { destruct (try_source_early_failure s i st) as [_ ->];
         [right; now rewrite Hd|exact Hkeep]. }
  rewrite (try_source_pair s i st e d Hh He Hd Heco).
  destruct (fetch_economic_calendar s days_ahead) as [c|x] eqn:Hc.
  { exfalso. apply Hnot. unfold usable. eauto 10. }
  cbn [fst]. split; [lookup_result; exact Heco|].
  right. exists s. split; [apply in_or_app; right; now left|].
  unfold failed_late. split; [exact Hh|]. rewrite Hc. split; [|exact I].
  exists e, d. split; [exact He|]. split; [exact Hd|].
  unfold only_pair. split; [|split]; [lookup_result; reflexivity..|].
  intros k Hke Hkd. lookup_result.
  destruct Hleft as [->|(s' & _ & _ & (e' & d' & _ & _ & _ & _ & Hrest) & _)].
  - apply lookup_empty.
  - now apply Hrest.
Qed.

Lemma fetch_loop_no_usable (sources seen : list DataSource) (i : nat)
    (st : loop_state) :
  Forall (fun s => ~ usable s market days_ahead) sources ->
  leftover seen market days_ahead (result_dict st) ->
  leftover (seen ++ sources) market days_ahead
    (result_dict (fetch_loop sources i market days_ahead st)).
Proof.
  revert seen i st.
  induction sources as [|s sources IH]; intros seen i st Hnone Hleft.
  - now rewrite app_nil_r.
  - apply Forall_cons in Hnone as [Hs Hnone]. cbn [fetch_loop].
    pose proof (try_source_leftover seen s i st Hs Hleft) as Hleft1.
    pose proof (try_source_not_usable s i st Hs (proj1 Hleft)) as Hflow.
    destruct (try_source s i market days_ahead st) as [st1 f].
    cbn [fst snd] in *. subst f.
    replace (seen ++ s :: sources) with ((seen ++ [s]) ++ sources)
      by now rewrite <- app_assoc.
    now apply IH.
Qed.

(** Without a usable source the call returns no ["economic"] entry and
    either nothing at all or the earnings and dividends of a source whose
    economic fetch raised. *)
Lemma fetch_without_usable_source (sources : list DataSource) :
  Forall (fun s => ~ usable s market days_ahead) sources ->
  leftover sources market days_ahead
    (fetch_all_calendars sources market days_ahead).
Proof.
  intros Hnone. unfold fetch_all_calendars, fetch_all_calendars_traced.
  apply (fetch_loop_no_usable sources [] 0); [exact Hnone|].
  split; [apply lookup_empty|now left].
Qed.

(** In every case the earnings and the dividends of the result come from
    one and the same source. *)
Lemma fetch_never_splits (sources : list DataSource)
    (e d : list CalendarEvent) :
  let r := fetch_all_calendars sources market days_ahead in
  r !! "earnings" = Some e \/ r !! "dividends" = Some d ->
  exists s e' d',
    In s sources /\ health_check s = Ok true /\
    fetch_earnings_calendar s market days_ahead = Ok e' /\
    fetch_dividend_calendar s market days_ahead = Ok d' /\
    r !! "earnings" = Some e' /\ r !! "dividends" = Some d'.
Proof.
  intros r Hsome.
  destruct (first_usable_split sources)
    as [Hnone|(pre & s & post & Hsrc & Hpre & Hs)].
  - destruct (fetch_without_usable_source sources Hnone) as (_ & [Hempty|Hlate]).
    + fold r in Hempty. rewrite Hempty, !lookup_empty in Hsome.
      destruct Hsome; discriminate.
    + destruct Hlate as (s & Hin & Hh & (e' & d' & He & Hd & Hre & Hrd & _) & _).
      exists s, e', d'. auto 10.
  - destruct (fetch_uses_first_usable_source pre post s Hpre Hs)
      as (([e' [Hre He]] & [d' [Hrd Hd]] & _) & _).
    rewrite <- Hsrc in Hre, Hrd. destruct Hs as (Hh & _).
    exists s, e', d'. repeat split; try assumption.
    rewrite Hsrc. apply in_or_app. right. now left.
Qed.

End OneCall.

Example fetch_A_B_C :
  let st := fetch_all_calendars_traced [source_A; source_B; source_C] NASDAQ 90 in
  result_dict st !! "earnings" = Some [aapl_earnings] /\
  result_dict st !! "dividends" = Some [aapl_dividend] /\
  result_dict st !! "economic" = Some [macro_release] /\
  calls st = [CallHealthCheck 0; CallHealthCheck 1; CallFetchEarnings 1;
              CallFetchDividend 1; CallFetchEconomic 1].
Proof. repeat split. Qed.

(** C3. When the economic fetch of a healthy source raises, the earnings
    and dividends of that source are already in [result] and stay there:
    with no usable source after it, the orchestrator returns the data of a
    source whose fetch failed. Here the sources are those of a process
    without Finnhub key and without [yfinance], and the manual file has an
    empty [economic:] key. *)
Theorem failed_source_data_is_returned :
  let sources := _init_sources None false source_failing_late in
  let st := fetch_all_calendars_traced sources NASDAQ 90 in
  sources = [source_failing_late] /\
  ~ usable source_failing_late NASDAQ 90 /\
  fetch_economic_calendar source_failing_late 90 = Raise TypeError /\
  result_dict st !! "earnings" = Some [aapl_earnings] /\
  result_dict st !! "dividends" = Some [] /\
  result_dict st !! "economic" = None /\
  calls st = [CallHealthCheck 0; CallFetchEarnings 0; CallFetchDividend 0;
              CallFetchEconomic 0].
Proof.
  split; [reflexivity|].
  split; [intros (_ & _ & _ & [l H]); discriminate H|].
  repeat split.
Qed.

End SourcesFacts.

(** * Further properties *)

(** ** The execution guard *)

Module GuardMore.
Import Py Guard GuardFacts.

Local Open Scope Q_scope.

Lemma step_tokens_used (g : ExecutionGuard) (o : op) :
  tokens_used (step g o) = (tokens_used g + count_of o)%Z.
Proof. destruct o; cbn; lia. Qed.

Lemma run_tokens_used (ops : list op) (g : ExecutionGuard) :
  tokens_used (run ops g) = (tokens_used g + recorded ops)%Z.
Proof.
  revert g. induction ops as [|o ops IH]; intros g; cbn [recorded foldr].
  - cbn. lia.
  - change (run (o :: ops) g) with (run ops (step g o)).
    rewrite IH, step_tokens_used. fold (recorded ops). lia.
Qed.

Lemma recorded_nonneg_counts (ops : list op) :
  forallb (fun o => (0 <=? count_of o)%Z) ops = true -> (0 <= recorded ops)%Z.
Proof.
  induction ops as [|o ops IH]; cbn [forallb recorded foldr]; [lia|].
  intros H. apply andb_true_iff in H as [Ho Hops].
  apply Z.leb_le in Ho. specialize (IH Hops). fold (recorded ops). lia.
Qed.

Lemma recorded_nonneg (ops : list op) :
  forallb no_restart ops = true -> (0 <= recorded ops)%Z.
Proof.
  intros H. apply recorded_nonneg_counts.
  apply forallb_forall. intros o Ho.
  apply (proj1 (forallb_forall _ _) H) in Ho.
  unfold no_restart in Ho. now apply andb_true_iff in Ho as [_ Ho].
Qed.

Lemma no_restart_no_start (ops : list op) :
  forallb no_restart ops = true ->
  forallb (fun o => negb (is_start o)) ops = true.
Proof.
  induction ops as [|o ops IH]; cbn [forallb]; [reflexivity|].
  intros H. apply andb_true_iff in H as [Ho Hops].
  unfold no_restart in Ho. apply andb_true_iff in Ho as [Ho _].
  now rewrite Ho, IH.
Qed.

(** X1. [tokens_used] is the sum of all the counts passed to
    [record_tokens], also of the calls that raised; it never decreases
    while the counts are not negative; and with a budget of zero each call
    raises after it has added its count. *)
Theorem tokens_used_accumulates (config : limits) (ops more : list op) :
  let g := run ops (init config) in
  tokens_used g = recorded ops /\
  tokens_used (run more g) = (tokens_used g + recorded more)%Z /\
  (forallb (fun o => (0 <=? count_of o)%Z) more = true ->
     (tokens_used g <= tokens_used (run more g))%Z) /\
  (cfg_daily_token_budget config = 0%Z ->
     forall count,
       (record_tokens g count).2 = Raise ZeroDivisionError /\
       tokens_used (record_tokens g count).1 = (tokens_used g + count)%Z).
Proof.
  intros g. split; [unfold g; now rewrite run_tokens_used|].
  split; [apply run_tokens_used|]. split.
  - intros Hmore. rewrite run_tokens_used.
    pose proof (recorded_nonneg_counts more Hmore). lia.
  - intros Hzero count. split; [|reflexivity].
    unfold record_tokens. cbn [snd tokens_used daily_token_budget].
    unfold g. now rewrite run_daily_token_budget, Hzero.
Qed.

Lemma tokens_used_accumulates_witness :
  (tokens_used (run [OpRecordTokens 100; OpRecordTokens 150] (init config_10min))
   <= tokens_used (run [OpRecordTokens 2000]
                     (run [OpRecordTokens 100; OpRecordTokens 150]
                        (init config_10min))))%Z /\
  tokens_used (record_tokens (run [] (init config_no_budget)) 100).1 = 100%Z.
Proof.
  split.
  - destruct (tokens_used_accumulates config_10min
                [OpRecordTokens 100; OpRecordTokens 150] [OpRecordTokens 2000])
      as (_ & _ & Hmono & _).
    apply Hmono. reflexivity.
  - destruct (tokens_used_accumulates config_no_budget [] [])
      as (_ & _ & _ & Hzero).
    destruct (Hzero eq_refl 100%Z) as [_ Hcount]. exact Hcount.
Defined.

(** The remaining time never grows with the clock. *)
Lemma check_time_remaining_antitone (g : ExecutionGuard) (now now' : Q) :
  now <= now' -> check_time_remaining g now' <= check_time_remaining g now.
Proof.
  intros Hle. unfold check_time_remaining.
  destruct (start_time_set g); cbv zeta; lra.
Qed.

Lemma run_check_time_remaining (ops : list op) (g : ExecutionGuard) (now : Q) :
  forallb (fun o => negb (is_start o)) ops = true ->
  check_time_remaining (run ops g) now = check_time_remaining g now.
Proof.
  intros Hops. unfold check_time_remaining, start_time_set.
  rewrite (run_start_time ops g Hops).
  now destruct (run_same_limits ops g) as (_ & _ & ->).
Qed.

(** X2. The answer of [should_continue()] latches: once it is false it is
    false at every later poll, whatever is done in between, as long as
    [start()] is not called again and no negative count is recorded. *)
Theorem should_continue_latches (g : ExecutionGuard) (ops : list op)
    (now now' : Q) :
  forallb no_restart ops = true ->
  now <= now' ->
  should_continue g now = false ->
  should_continue (run ops g) now' = false.
Proof.
  intros Hops Hle Hstop.
  apply should_continue_false_iff in Hstop.
  apply should_continue_false_iff.
  rewrite (run_check_time_remaining ops g now' (no_restart_no_start ops Hops)).
  rewrite run_tokens_used.
  destruct (run_same_limits ops g) as (-> & _).
  pose proof (recorded_nonneg ops Hops) as Hrec.
  pose proof (check_time_remaining_antitone g now now' Hle) as Htime.
  destruct Hstop as [Hstop|Hstop]; [left; lra|right; lia].
Qed.

Lemma should_continue_latches_witness :
  should_continue
    (run [OpRecordTokens 10; OpGetStatus 1275 1275]
       (run [OpStart 1000] (init config_10min))) 1300 = false.
Proof.
  apply (should_continue_latches (run [OpStart 1000] (init config_10min))
           [OpRecordTokens 10; OpGetStatus 1275 1275] 1271 1300).
  - reflexivity.
  - vm_compute; discriminate.
  - vm_compute; reflexivity.
Defined.

(** X3. A guard configured with a window of five minutes or less never
    lets the pipeline continue: [should_continue()] is false before
    [start()], and at every poll that is not earlier than the recorded
    start. *)
Theorem short_window_never_continues (config : limits) (ops : list op) (now : Q) :
  (cfg_execution_window_minutes config <= 5)%Z ->
  let g := run ops (init config) in
  (forall s, start_time g = Some s -> s <= now) ->
  should_continue g now = false.
Proof.
  intros Hw g Hnow. apply should_continue_false_iff. left.
  assert (Hmax : inject_Z (max_runtime_seconds g) <= 0).
  { unfold g. rewrite run_max_runtime_seconds.
    change 0 with (inject_Z 0). rewrite <- Zle_Qle. lia. }
  unfold check_time_remaining, start_time_set.
  destruct (start_time g) as [s|] eqn:Hs; [|lra].
  specialize (Hnow s eq_refl).
  destruct (truthy_float s); cbv zeta; lra.
Qed.

Lemma short_window_never_continues_witness :
  should_continue (run [OpStart 1000] (init config_3min)) 1000 = false /\
  should_continue (run [] (init config_3min)) 1000 = false.
Proof.
  split.
  - apply (short_window_never_continues config_3min [OpStart 1000] 1000).
    + vm_compute; discriminate.
    + intros s [= <-]. vm_compute; discriminate.
  - apply (short_window_never_continues config_3min [] 1000).
    + vm_compute; discriminate.
    + intros s Hs. discriminate Hs.
Defined.

(** X4. [setup_pipeline_guard] raises exactly when the configuration
    cannot be read; otherwise it returns a started guard with no token
    used, and for a start reading other than zero a poll at [now'] lets the
    pipeline continue if and only if at most
    [60 * execution_window_minutes - 330] seconds have passed and the budget
    is at least 1000 tokens. *)
Theorem setup_pipeline_guard_deadline (config : result limits) (now now' : Q) :
  (forall e, config = Raise e -> setup_pipeline_guard config now = Raise e) /\
  (forall c, config = Ok c ->
     exists g,
       setup_pipeline_guard config now = Ok g /\
       start_time g = Some now /\ tokens_used g = 0%Z /\
       (~ now == 0 ->
        (should_continue g now' = true <->
         now' - now <= inject_Z (60 * cfg_execution_window_minutes c - 330) /\
         (1000 <= cfg_daily_token_budget c)%Z))).
Proof.
  split; [intros e ->; reflexivity|].
  intros c ->. exists (start (init c) now).
  split; [reflexivity|]. split; [reflexivity|]. split; [reflexivity|].
  intros Hnz.
  pose proof (should_continue_false_iff (start (init c) now) now') as Hf.
  rewrite (check_time_remaining_started (start (init c) now) now now'
             eq_refl Hnz) in Hf.
  cbn [max_runtime_seconds daily_token_budget tokens_used start init] in Hf.
  assert (Hmax : inject_Z ((cfg_execution_window_minutes c - 5) * 60) - 30
                 == inject_Z (60 * cfg_execution_window_minutes c - 330)).
  { unfold Qeq. cbn. lia. }
  rewrite <- not_false_iff_true, Hf. split.
  - intros Hnot. split.
    + rewrite <- Hmax. apply Qnot_lt_le. intros Hlt. apply Hnot. left. lra.
    + apply Z.nlt_ge. intros Hlt. apply Hnot. right. lia.
  - intros [Htime Htok] [Hlt|Hlt]; [|lia].
    rewrite <- Hmax in Htime. lra.
Qed.

Lemma setup_pipeline_guard_deadline_witness :
  setup_pipeline_guard (Raise OSError) 1000 = Raise OSError /\
  exists g,
    setup_pipeline_guard (Ok config_10min) 1000 = Ok g /\
    should_continue g 1270 = true.
Proof.
  destruct (setup_pipeline_guard_deadline (Raise OSError) 1000 1270)
    as [Hraise _].
  split; [apply Hraise; reflexivity|].
  destruct (setup_pipeline_guard_deadline (Ok config_10min) 1000 1270)
    as [_ Hok].
  destruct (Hok config_10min eq_refl) as (g & Hg & _ & _ & Hdeadline).
  exists g. split; [exact Hg|].
  apply Hdeadline; [vm_compute; discriminate|].
  split; vm_compute; discriminate.
Defined.



End GuardMore.

(** ** The calendar store *)

Module CalendarMore.
Import Py Calendar CalendarFacts.

Lemma prefix_add_event (cal : MarketCalendar) (e : CalendarEvent) (t : string) :
  get_events_by_ticker cal t `prefix_of` get_events_by_ticker (add_event cal e) t.
Proof.
  rewrite get_events_by_ticker_add_event.
  destruct (decide (t = ticker e)); [|reflexivity].
  destruct (List.filter (same_slot e) (get_events_by_ticker cal t));
    [now apply prefix_app_r|reflexivity].
Qed.

Lemma add_event_keeps_keys (cal : MarketCalendar) (e : CalendarEvent) (t : string) :
  is_Some (events (add_event cal e) !! t) <->
  is_Some (events cal !! t) \/ t = ticker e.
Proof.
  unfold add_event.
  destruct (events cal !! ticker e) as [bucket|] eqn:Hb.
  - rewrite Hb. simpl_default.
    destruct (List.filter (same_slot e) bucket); cbn [set_events events].
    + rewrite lookup_insert_is_Some. split.
      * intros [<-|[_ H]]; [now right|now left].
      * intros [H| ->]; [|now left].
        destruct (decide (ticker e = t)); [now left|now right].
    + split; [now left|]. intros [H| ->]; [exact H|]. now rewrite Hb.
  - rewrite lookup_insert_eq. simpl_default. cbn [List.filter set_events events].
    rewrite !lookup_insert_is_Some. split.
    + intros [<-|[_ [<-|[_ H]]]]; auto.
    + intros [H| ->]; [|now left].
      destruct (decide (ticker e = t)); [now left|]. right. split; [assumption|].
      right. now split.
Qed.

Lemma add_event_attributes (cal : MarketCalendar) (e : CalendarEvent) :
  cal_market (add_event cal e) = cal_market cal /\
  last_updated (add_event cal e) = last_updated cal.
Proof.
  unfold add_event.
  destruct (List.filter _ _); split; reflexivity.
Qed.

Lemma in_add_event (cal : MarketCalendar) (e x : CalendarEvent) (t : string) :
  In x (get_events_by_ticker (add_event cal e) t) ->
  In x (get_events_by_ticker cal t) \/ (x = e /\ ticker e = t).
Proof.
  rewrite get_events_by_ticker_add_event.
  destruct (decide (t = ticker e)) as [->|]; [|now left].
  destruct (List.filter (same_slot e) (get_events_by_ticker cal (ticker e)));
    [|now left].
  rewrite in_app_iff. intros [H|[<-|[]]]; [now left|now right].
Qed.

Lemma stored_get (cal : MarketCalendar) (e : CalendarEvent) :
  stored cal e <-> exists t, In e (get_events_by_ticker cal t).
Proof.
  unfold stored, get_events_by_ticker. split.
  - intros (t & evs & Ht & Hin). exists t. now rewrite Ht.
  - intros (t & Hin). destruct (events cal !! t) as [evs|] eqn:Ht; [|destruct Hin].
    now exists t, evs.
Qed.

Lemma keyed_get (cal : MarketCalendar) :
  keyed cal <-> forall t e, In e (get_events_by_ticker cal t) -> ticker e = t.
Proof.
  unfold keyed, get_events_by_ticker. split.
  - intros Hk t e. destruct (events cal !! t) as [evs|] eqn:Ht; [|intros []].
    now apply Hk.
  - intros Hk t evs e Ht Hin. apply Hk. now rewrite Ht.
Qed.

Lemma add_event_keyed (cal : MarketCalendar) (e : CalendarEvent) :
  keyed cal -> keyed (add_event cal e).
Proof.
  rewrite !keyed_get. intros Hk t x Hin.
  apply in_add_event in Hin as [Hin|[-> Ht]]; [now apply Hk|exact Ht].
Qed.

Lemma add_events_bulk_keyed (evs : list CalendarEvent) (cal : MarketCalendar) :
  keyed cal -> keyed (add_events_bulk cal evs).
Proof.
  revert cal. induction evs as [|e evs IH]; intros cal Hk; [exact Hk|].
  apply IH. now apply add_event_keyed.
Qed.

Lemma keyed_empty (m : Market) : keyed (empty_calendar m).
Proof. intros t evs e Ht. cbn in Ht. now rewrite lookup_empty in Ht. Qed.

Lemma prefix_add_events_bulk (evs : list CalendarEvent) (cal : MarketCalendar)
    (t : string) :
  get_events_by_ticker cal t
    `prefix_of` get_events_by_ticker (add_events_bulk cal evs) t.
Proof.
  revert cal. induction evs as [|e evs IH]; intros cal; [reflexivity|].
  etransitivity; [apply (prefix_add_event cal e)|apply IH].
Qed.

Lemma in_add_events_bulk (evs : list CalendarEvent) (cal : MarketCalendar)
    (x : CalendarEvent) (t : string) :
  In x (get_events_by_ticker (add_events_bulk cal evs) t) ->
  In x (get_events_by_ticker cal t) \/ (In x evs /\ ticker x = t).
Proof.
  revert cal. induction evs as [|e evs IH]; intros cal Hin; [now left|].
  apply IH in Hin as [Hin|[Hin Ht]].
  - apply in_add_event in Hin as [Hin|[-> Ht]]; [now left|].
    right. split; [now left|exact Ht].
  - right. split; [now right|exact Ht].
Qed.

Lemma add_events_bulk_keys (evs : list CalendarEvent) (cal : MarketCalendar)
    (t : string) :
  is_Some (events (add_events_bulk cal evs) !! t) <->
  is_Some (events cal !! t) \/ exists e, In e evs /\ ticker e = t.
Proof.
  revert cal. induction evs as [|e evs IH]; intros cal.
  - cbn. split; [now left|]. now intros [H|(e & [] & _)].
  - change (add_events_bulk cal (e :: evs))
      with (add_events_bulk (add_event cal e) evs).
    rewrite IH, add_event_keeps_keys. split.
    + intros [[H| ->]|(x & Hin & Hx)]; [now left| |].
      * right. exists e. split; [now left|reflexivity].
      * right. exists x. split; [now right|exact Hx].
    + intros [H|(x & [<-|Hin] & Hx)]; [now left; left| |].
      * left. right. now symmetry.
      * right. now exists x.
Qed.

Lemma add_events_bulk_attributes (evs : list CalendarEvent)
    (cal : MarketCalendar) :
  cal_market (add_events_bulk cal evs) = cal_market cal /\
  last_updated (add_events_bulk cal evs) = last_updated cal.
Proof.
  revert cal. induction evs as [|e evs IH]; intros cal; [now split|].
  change (add_events_bulk cal (e :: evs))
    with (add_events_bulk (add_event cal e) evs).
  destruct (IH (add_event cal e)) as [-> ->]. apply add_event_attributes.
Qed.

Lemma same_slot_refl (x : CalendarEvent) : same_slot x x = true.
Proof. now apply same_slot_spec. Qed.

Lemma same_key_refl (x : CalendarEvent) : same_key x x = true.
Proof. now apply same_key_spec. Qed.

Lemma in_slot_events (cal : MarketCalendar) (x : CalendarEvent) :
  In x (slot_events cal x) <-> In x (get_events_by_ticker cal (ticker x)).
Proof.
  unfold slot_events. rewrite List.filter_In, same_slot_refl. tauto.
Qed.

(** X6. A batch only appends: for every ticker the list held before the
    call is a prefix of the list held after it (nothing is removed,
    replaced or reordered), a ticker that was a key stays one, every event
    that appears comes from the batch and is filed under its own ticker,
    and the market and [last_updated] attributes are untouched. *)
Theorem add_events_bulk_only_appends (evs : list CalendarEvent)
    (cal : MarketCalendar) (t : string) :
  get_events_by_ticker cal t
    `prefix_of` get_events_by_ticker (add_events_bulk cal evs) t /\
  (is_Some (events (add_events_bulk cal evs) !! t) <->
   is_Some (events cal !! t) \/ exists e, In e evs /\ ticker e = t) /\
  (forall x, In x (get_events_by_ticker (add_events_bulk cal evs) t) <->
             In x (get_events_by_ticker cal t) \/
             (In x evs /\ ticker x = t /\ slot_events cal x = [] /\
              List.find (same_key x) evs = Some x)) /\
  cal_market (add_events_bulk cal evs) = cal_market cal /\
  last_updated (add_events_bulk cal evs) = last_updated cal.
Proof.
  split; [apply prefix_add_events_bulk|].
  split; [apply add_events_bulk_keys|].
  split; [|apply add_events_bulk_attributes].
  intros x. split.
  - intros Hin.
    destruct (in_add_events_bulk _ _ _ _ Hin) as [Hold|[Hevs Ht]]; [now left|].
    subst t. apply in_slot_events in Hin.
    rewrite slot_events_add_events_bulk in Hin.
    destruct (slot_events cal x) as [|y l] eqn:Hslot.
    + right. destruct (List.find (same_key x) evs) as [e|]; [|destruct Hin].
      destruct Hin as [->|[]]. now repeat split.
    + left. rewrite <- Hslot in Hin. now apply in_slot_events.
  - intros [Hold|(Hevs & <- & Hslot & Hfind)].
    + destruct (prefix_add_events_bulk evs cal t) as [k ->].
      apply in_app_iff. now left.
    + apply in_slot_events. rewrite slot_events_add_events_bulk, Hslot, Hfind.
      now left.
Qed.

Lemma find_same_key (x : CalendarEvent) (evs : list CalendarEvent) :
  (exists e, In e evs /\ same_key x e = true) ->
  exists w, List.find (same_key x) evs = Some w.
Proof.
  intros (e & Hin & Hkey).
  destruct (List.find (same_key x) evs) as [w|] eqn:Hfind; [now exists w|].
  now rewrite (List.find_none _ _ Hfind e Hin) in Hkey.
Qed.

(** X7. First write wins over a whole batch.  On a store that satisfies
    the two invariants of the data model (no duplicated key within a
    ticker, every event under its own ticker) the batch keeps both, and
    afterwards the key of every event of the batch holds exactly one
    event: the one stored before the call when the key was taken, and
    otherwise the first event of the batch that carries the key. *)
Theorem add_events_bulk_first_write_wins (evs : list CalendarEvent)
    (cal : MarketCalendar) :
  deduplicated cal -> keyed cal ->
  deduplicated (add_events_bulk cal evs) /\
  keyed (add_events_bulk cal evs) /\
  forall x, In x evs ->
    exists w,
      slot_events (add_events_bulk cal evs) x = [w] /\
      same_key x w = true /\
      (slot_events cal x = [w] \/
       (slot_events cal x = [] /\ List.find (same_key x) evs = Some w)).
Proof.
  intros Hdedup Hkeyed.
  split; [now apply add_events_bulk_deduplicated|].
  split; [now apply add_events_bulk_keyed|].
  intros x Hin. rewrite slot_events_add_events_bulk.
  specialize (Hdedup x).
  destruct (slot_events cal x) as [|w l] eqn:Hslot.
  - destruct (find_same_key x evs) as [w Hfind].
    { exists x. split; [exact Hin|apply same_key_refl]. }
    rewrite Hfind. exists w. split; [reflexivity|].
    split; [|now right]. now apply List.find_some in Hfind.
  - destruct l; [|cbn in Hdedup; lia].
    exists w. split; [reflexivity|]. split; [|now left].
    assert (Hw : In w (slot_events cal x)) by (rewrite Hslot; now left).
    unfold slot_events in Hw. apply List.filter_In in Hw as [Hw Hs].
    unfold same_key. rewrite Hs, andb_true_r. apply String.eqb_eq.
    symmetry. revert Hw. now apply keyed_get.
Qed.

Lemma add_events_bulk_first_write_wins_witness :
  exists w,
    slot_events
      (add_events_bulk (empty_calendar NASDAQ)
         [aapl_earnings; aapl_dividend; aapl_earnings_again])
      aapl_earnings_again = [w] /\
    same_key aapl_earnings_again w = true /\
    (slot_events (empty_calendar NASDAQ) aapl_earnings_again = [w] \/
     (slot_events (empty_calendar NASDAQ) aapl_earnings_again = [] /\
      List.find (same_key aapl_earnings_again)
        [aapl_earnings; aapl_dividend; aapl_earnings_again] = Some w)).
Proof.
  destruct (add_events_bulk_first_write_wins
              [aapl_earnings; aapl_dividend; aapl_earnings_again]
              (empty_calendar NASDAQ)) as (_ & _ & Hslot).
  - apply deduplicated_empty.
  - apply keyed_empty.
  - apply Hslot. right. right. left. reflexivity.
Defined.

Lemma add_events_bulk_duplicates (evs : list CalendarEvent) (cal : MarketCalendar) :
  (forall x, In x evs -> slot_events cal x <> []) ->
  add_events_bulk cal evs = cal.
Proof.
  induction evs as [|e evs IH]; intros Hdup; [reflexivity|].
  change (add_events_bulk cal (e :: evs))
    with (add_events_bulk (add_event cal e) evs).
  rewrite add_event_duplicate by (apply Hdup; now left).
  apply IH. intros x Hx. apply Hdup. now right.
Qed.

Lemma add_events_bulk_covered (evs evs' : list CalendarEvent)
    (cal : MarketCalendar) :
  (forall x, In x evs' -> exists e, In e evs /\ same_key x e = true) ->
  add_events_bulk (add_events_bulk cal evs) evs' = add_events_bulk cal evs.
Proof.
  intros Hcov. apply add_events_bulk_duplicates. intros x Hx.
  rewrite slot_events_add_events_bulk.
  destruct (slot_events cal x); [|discriminate].
  destruct (find_same_key x evs (Hcov x Hx)) as [w ->]. discriminate.
Qed.

(** X8. Re-running an update changes nothing: a second batch whose events
    all carry keys of the first batch leaves the store exactly as the first
    batch left it, whatever the other fields of its events are (new
    descriptions, estimates or time stamps are dropped).  In particular
    adding the same batch twice, in any order, is the same as adding it
    once. *)
Theorem add_events_bulk_again_is_noop (evs : list CalendarEvent)
    (cal : MarketCalendar) :
  (forall evs',
     (forall x, In x evs' -> exists e, In e evs /\ same_key x e = true) ->
     add_events_bulk (add_events_bulk cal evs) evs' = add_events_bulk cal evs) /\
  add_events_bulk (add_events_bulk cal evs) evs = add_events_bulk cal evs /\
  add_events_bulk (add_events_bulk cal evs) (rev evs) = add_events_bulk cal evs.
Proof.
  split; [intros evs'; apply add_events_bulk_covered|].
  split; apply add_events_bulk_covered; intros x Hx; exists x.
  - split; [exact Hx|apply same_key_refl].
  - split; [now apply List.in_rev|apply same_key_refl].
Qed.

Lemma add_events_bulk_again_is_noop_witness :
  add_events_bulk (add_events_bulk (empty_calendar NASDAQ) [aapl_earnings])
    [aapl_earnings_again]
  = add_events_bulk (empty_calendar NASDAQ) [aapl_earnings].
Proof.
  destruct (add_events_bulk_again_is_noop [aapl_earnings] (empty_calendar NASDAQ))
    as (Hcov & _).
  apply Hcov. intros x [<-|[]]. exists aapl_earnings.
  split; [now left|reflexivity].
Defined.

(** *** The summary after an insert *)

Lemma tally_insert_fresh (f : list CalendarEvent -> nat)
    (m : gmap string (list CalendarEvent)) (t : string) (l : list CalendarEvent) :
  m !! t = None -> tally f (<[t := l]> m) = tally f m + f l.
Proof.
  intros Ht. unfold tally.
  rewrite map_fold_insert_L; [reflexivity| |exact Ht].
  intros; lia.
Qed.

Lemma tally_insert (f : list CalendarEvent -> nat)
    (m : gmap string (list CalendarEvent)) (t : string) (l : list CalendarEvent) :
  f [] = 0 ->
  tally f (<[t := l]> m) + f (default [] (m !! t)) = tally f m + f l.
Proof.
  intros Hnil. destruct (m !! t) as [l0|] eqn:Ht; simpl_default.
  - rewrite <- (insert_delete_eq m).
    rewrite tally_insert_fresh by apply lookup_delete_eq.
    rewrite <- (insert_delete_id m t l0 Ht) at 2.
    rewrite tally_insert_fresh by apply lookup_delete_eq.
    lia.
  - rewrite tally_insert_fresh by exact Ht. lia.
Qed.

Lemma tally_fmap (f : list CalendarEvent -> nat)
    (g : list CalendarEvent -> list CalendarEvent)
    (m : gmap string (list CalendarEvent)) :
  (forall l, f (g l) = f l) -> tally f (g <$> m) = tally f m.
Proof.
  intros Hfg. induction m as [|t l m Ht IH] using map_ind.
  - now rewrite fmap_empty.
  - rewrite fmap_insert, !tally_insert_fresh, IH, Hfg; [reflexivity|exact Ht|].
    now rewrite lookup_fmap, Ht.
Qed.

Lemma count_of_type_app (v : string) (a b : list CalendarEvent) :
  count_of_type v (a ++ b) = count_of_type v a + count_of_type v b.
Proof. unfold count_of_type. now rewrite List.filter_app, length_app. Qed.

Lemma count_of_type_all_events (cal : MarketCalendar) (v : string) :
  count_of_type v (all_events cal) = tally (count_of_type v) (events cal).
Proof.
  unfold all_events, tally. rewrite !map_fold_foldr.
  induction (map_to_list (events cal)) as [|[t evs] l IH]; [reflexivity|].
  cbn [foldr uncurry]. now rewrite count_of_type_app, IH.
Qed.

Lemma events_add_event_fresh (cal : MarketCalendar) (e : CalendarEvent) :
  slot_events cal e = [] ->
  events (add_event cal e)
  = <[ticker e := get_events_by_ticker cal (ticker e) ++ [e]]> (events cal).
Proof.
  unfold slot_events, get_events_by_ticker, add_event.
  destruct (events cal !! ticker e) as [bucket|] eqn:Hb; simpl_default.
  - rewrite Hb. simpl_default. now intros ->.
  - intros _. rewrite lookup_insert_eq. simpl_default.
    cbn [List.filter set_events events]. apply insert_insert_eq.
Qed.

(** X9. What one insert does to the summary.  When the key of the event
    is taken the summary is unchanged.  When it is free, [total_events]
    grows by exactly one, the entry of the event's type in [event_types]
    grows by one and no other entry changes, and [total_tickers] grows by
    one exactly when the ticker was not a key of the store.  The [market]
    and [last_updated] entries never change: adding events does not touch
    [last_updated]. *)
Theorem get_summary_add_event (cal : MarketCalendar) (e : CalendarEvent) :
  let s := get_summary cal in
  let s' := get_summary (add_event cal e) in
  (slot_events cal e <> [] -> s' = s) /\
  (slot_events cal e = [] ->
   total_events s' = total_events s + 1 /\
   total_tickers s' =
     total_tickers s + match events cal !! ticker e with
                       | Some _ => 0
                       | None => 1
                       end /\
   forall v,
     default 0 (event_types s' !! v) =
     default 0 (event_types s !! v)
     + if String.eqb (event_type_value (event_type e)) v then 1 else 0) /\
  summary_market s' = summary_market s /\
  summary_last_updated s' = summary_last_updated s.
Proof.
  intros s s'. split; [|split].
  - intros Hdup. unfold s', s. now rewrite add_event_duplicate.
  - intros Hfree. pose proof (events_add_event_fresh cal e Hfree) as Hev.
    split; [|split].
    + unfold s', s. cbn [get_summary total_events].
      rewrite !all_events_length. unfold count_stored.
      change (tally length (events (add_event cal e))
              = tally length (events cal) + 1).
      rewrite Hev.
      pose proof (tally_insert length (events cal) (ticker e)
                    (get_events_by_ticker cal (ticker e) ++ [e]) eq_refl) as H.
      rewrite length_app in H. unfold get_events_by_ticker in *.
      cbn [length] in H. lia.
    + unfold s', s. cbn [get_summary total_tickers]. rewrite Hev.
      rewrite map_size_insert. now destruct (events cal !! ticker e); cbn; lia.
    + intros v. unfold s', s. rewrite !event_types_count.
      rewrite !count_of_type_all_events, Hev.
      pose proof (tally_insert (count_of_type v) (events cal) (ticker e)
                    (get_events_by_ticker cal (ticker e) ++ [e]) eq_refl) as H.
      rewrite count_of_type_app in H. unfold get_events_by_ticker in *.
      replace (count_of_type v [e])
        with (if String.eqb (event_type_value (event_type e)) v then 1 else 0)
        in H; [lia|].
      unfold count_of_type. cbn [List.filter].
      now destruct (String.eqb (event_type_value (event_type e)) v).
  - unfold s', s. cbn [get_summary summary_market summary_last_updated].
    destruct (add_event_attributes cal e) as [-> ->]. now split.
Qed.

Lemma get_summary_add_event_witness :
  total_events (get_summary (add_event two_ticker_calendar aapl_dividend))
  = total_events (get_summary two_ticker_calendar) + 1 /\
  get_summary (add_event two_ticker_calendar aapl_earnings_again)
  = get_summary two_ticker_calendar.
Proof.
  split.
  - destruct (get_summary_add_event two_ticker_calendar aapl_dividend)
      as (_ & Hfree & _).
    destruct Hfree as (Htotal & _); [reflexivity|exact Htotal].
  - destruct (get_summary_add_event two_ticker_calendar aapl_earnings_again)
      as (Hdup & _).
    apply Hdup. discriminate.
Defined.

(** *** The queries *)

Lemma get_events_by_type_lookup (cal : MarketCalendar) (ty : EventType)
    (t : string) (l : list CalendarEvent) :
  get_events_by_type cal ty !! t = Some l <->
  l = List.filter (fun e => EventType_eqb (event_type e) ty)
        (get_events_by_ticker cal t)
  /\ l <> [].
Proof.
  unfold get_events_by_type, get_events_by_ticker.
  rewrite map_fold_collect_lookup.
  destruct (events cal !! t) as [evs|]; cbn [mbind option_bind]; simpl_default.
  - apply kept_Some.
  - split; [discriminate|]. intros [-> H]. now contradiction H.
Qed.

(** X10. The query by type keeps, for every ticker and in the order of
    the ticker's list, exactly the events of the requested type; a ticker
    is a key of the result if and only if it has such an event (no empty
    list is returned); and each stored event is returned for one type
    only, its own, so the results for the seven types split the store. *)
Theorem get_events_by_type_spec (cal : MarketCalendar) (ty : EventType)
    (t : string) :
  (forall l,
     get_events_by_type cal ty !! t = Some l <->
     l = List.filter (fun e => EventType_eqb (event_type e) ty)
           (get_events_by_ticker cal t)
     /\ l <> []) /\
  (is_Some (get_events_by_type cal ty !! t) <->
   exists e, In e (get_events_by_ticker cal t) /\ event_type e = ty) /\
  (forall e,
     (exists l, get_events_by_type cal ty !! t = Some l /\ In e l) <->
     In e (get_events_by_ticker cal t) /\ event_type e = ty).
Proof.
  split; [intros l; apply get_events_by_type_lookup|].
  assert (Hmem : forall e,
            (exists l, get_events_by_type cal ty !! t = Some l /\ In e l) <->
            In e (get_events_by_ticker cal t) /\ event_type e = ty).
  { intros e. split.
    - intros (l & Hl & Hin). apply get_events_by_type_lookup in Hl as [-> _].
      apply List.filter_In in Hin as [Hin Hty].
      now apply EventType_eqb_eq in Hty.
    - intros [Hin Hty]. eexists. split.
      + apply get_events_by_type_lookup. split; [reflexivity|].
        intros Hnil.
        assert (H : In e (List.filter (fun e => EventType_eqb (event_type e) ty)
                            (get_events_by_ticker cal t))).
        { apply List.filter_In. split; [exact Hin|now apply EventType_eqb_eq]. }
        now rewrite Hnil in H.
      + apply List.filter_In. split; [exact Hin|now apply EventType_eqb_eq]. }
  split; [|exact Hmem]. split.
  - intros [l Hl]. pose proof Hl as Hl'.
    apply get_events_by_type_lookup in Hl' as [Hf Hne].
    destruct l as [|e l]; [congruence|]. exists e. apply Hmem.
    exists (e :: l). split; [exact Hl|now left].
  - intros (e & He). apply Hmem in He as (l & Hl & _). now exists l.
Qed.

Lemma string_leb_false_trans (a b c : string) :
  String.leb a c = false -> String.leb a b = true -> String.leb b c = true -> False.
Proof.
  intros Hac Hab Hbc. now rewrite (string_leb_trans a b c Hab Hbc) in Hac.
Qed.

Lemma in_date_range_narrow (s e s' e' : string) (x : CalendarEvent) :
  String.leb s s' = true -> String.leb e' e = true ->
  in_date_range s' e' x = true -> in_date_range s e x = true.
Proof.
  unfold in_date_range. intros Hs He [H1 H2]%andb_true_iff.
  apply andb_true_iff. split.
  - exact (string_leb_trans _ _ _ Hs H1).
  - exact (string_leb_trans _ _ _ H2 He).
Qed.

(** X11. Two consequences of the string comparison of the date-range
    query.  A range whose start is above its end in the lexicographic
    order returns the empty mapping, without any error; and narrowing a
    range never adds anything: whatever is returned for a range inside
    another, under a ticker, is returned for the outer range as well. *)
Theorem get_events_by_date_range_bounds (cal : MarketCalendar)
    (start_date end_date : string) :
  (String.leb start_date end_date = false ->
   get_events_by_date_range cal start_date end_date = ∅) /\
  (forall start' end' t l e,
     String.leb start_date start' = true -> String.leb end' end_date = true ->
     get_events_by_date_range cal start' end' !! t = Some l -> In e l ->
     exists l', get_events_by_date_range cal start_date end_date !! t = Some l'
                /\ In e l').
Proof.
  split.
  - intros Hinv. apply map_eq. intros t. rewrite lookup_empty.
    destruct (get_events_by_date_range cal start_date end_date !! t)
      as [l|] eqn:Hl; [|reflexivity].
    apply get_events_by_date_range_lookup in Hl as [-> Hne].
    destruct (List.filter (in_date_range start_date end_date)
                (get_events_by_ticker cal t)) as [|x l] eqn:Hf; [congruence|].
    assert (Hx : In x (x :: l)) by now left.
    rewrite <- Hf in Hx. apply List.filter_In in Hx as [_ Hx].
    apply andb_true_iff in Hx as [H1 H2].
    destruct (string_leb_false_trans _ _ _ Hinv H1 H2).
  - intros start' end' t l e Hs He Hl Hin.
    apply get_events_by_date_range_lookup in Hl as [-> _].
    apply List.filter_In in Hin as [Hin Hr].
    assert (Hin' : In e (List.filter (in_date_range start_date end_date)
                           (get_events_by_ticker cal t))).
    { apply List.filter_In. split; [exact Hin|].
      exact (in_date_range_narrow _ _ _ _ _ Hs He Hr). }
    eexists. split; [|exact Hin'].
    apply get_events_by_date_range_lookup. split; [reflexivity|].
    intros Hnil. now rewrite Hnil in Hin'.
Qed.

Lemma get_events_by_date_range_bounds_witness :
  get_events_by_date_range two_ticker_calendar "2026-12-31" "2026-01-01" = ∅.
Proof.
  destruct (get_events_by_date_range_bounds two_ticker_calendar
              "2026-12-31" "2026-01-01") as (Hinv & _).
  apply Hinv. reflexivity.
Defined.

(** *** Events and calendars on disk *)

(** X12. Serializing an event and reading it back gives the same
    ticker, market, type, date, description and metadata, but not the same
    time stamp: [from_dict] never reads the [timestamp] entry, so the event
    read back carries the time of the reading.  The reading raises a
    [TypeError] exactly when the metadata has a key named like a parameter
    of the constructor. *)
Theorem to_dict_from_dict_round_trip (now : string) (e : CalendarEvent) :
  from_dict now (to_dict e) =
    (if valid_kwargs (metadata e) then Ok (restamp now e) else Raise TypeError) /\
  (restamp now e = e <-> timestamp e = now) /\
  (forall (data : event_dict) (ts : option string),
     from_dict now
       {| d_ticker := d_ticker data; d_market := d_market data;
          d_event_type := d_event_type data; d_date := d_date data;
          d_description := d_description data; d_timestamp := ts;
          d_metadata := d_metadata data |}
     = from_dict now data).
Proof.
  split; [|split].
  - unfold from_dict, to_dict.
    cbn [d_ticker d_market d_event_type d_date d_description d_metadata getitem
         mbind result_bind bind].
    rewrite Market_of_value_value, EventType_of_value_value.
    cbn [mbind result_bind bind default from_option id].
    unfold call_new_event, restamp.
    now destruct (valid_kwargs (metadata e)).
  - unfold restamp, new_event. destruct e as [tk mk ty dt ds ts md].
    cbn. split; [now intros [= ->]|now intros ->].
  - intros data ts. reflexivity.
Qed.

Lemma init_market (m : Market) (d : disk) (now : string) (cal : MarketCalendar) :
  init m d now = Ok cal -> cal_market cal = m.
Proof.
  unfold init, _load_local_calendar.
  destruct (calendar_yaml d) as [|e|doc].
  - now intros [= <-].
  - discriminate.
  - destruct (load_items now _ ∅) as [evs [u|e]]; [|discriminate].
    now intros [= <-].
Qed.

(** X13. Round trip through the YAML file.  When the write succeeds and
    no stored metadata shadows a constructor parameter, saving a store and
    constructing a store of the same market from the directory gives a
    store with the same tickers and, for every ticker, the same events in
    the same order, each with the time of the reading as time stamp; its
    [last_updated] is the time of the save; and the summary counts
    ([total_tickers], [total_events]) are those of the saved store.  The
    saved store itself is not modified (its [last_updated] stays
    as it was). *)
Theorem save_yaml_then_construct (cal : MarketCalendar) (d : disk)
    (now now' : string) :
  write_fails d = false ->
  (forall e, stored cal e -> valid_kwargs (metadata e) = true) ->
  exists d' cal',
    save_calendar cal d now "yaml" = (cal, Ok d') /\
    init (cal_market cal) d' now' = Ok cal' /\
    cal_market cal' = cal_market cal /\
    last_updated cal' = Some now /\
    (forall t, is_Some (events cal' !! t) <-> is_Some (events cal !! t)) /\
    (forall t, get_events_by_ticker cal' t
               = List.map (restamp now') (get_events_by_ticker cal t)) /\
    total_tickers (get_summary cal') = total_tickers (get_summary cal) /\
    total_events (get_summary cal') = total_events (get_summary cal).
Proof.
  intros Hw Hvalid.
  destruct (save_then_init cal d now now' Hw Hvalid)
    as (d' & cal' & Hsave & Hinit & Hlast & Hev).
  exists d', cal'.
  assert (Hmap : events cal' = (List.map (restamp now')) <$> events cal).
  { apply map_eq. intros t. now rewrite Hev, lookup_fmap. }
  split.
  { pose proof (save_calendar_keeps_store cal d now "yaml") as Hkeep.
    destruct (save_calendar cal d now "yaml") as [c r].
    cbn [fst snd] in Hkeep, Hsave. now subst. }
  split; [exact Hinit|].
  split; [exact (init_market _ _ _ _ Hinit)|].
  split; [exact Hlast|].
  split; [intros t; rewrite Hev; apply fmap_is_Some|].
  split.
  { intros t. unfold get_events_by_ticker. rewrite Hev.
    now destruct (events cal !! t). }
  split.
  - cbn [get_summary total_tickers]. rewrite Hmap. apply map_size_fmap.
  - cbn [get_summary total_events]. rewrite !all_events_length.
    change (tally length (events cal') = tally length (events cal)).
    rewrite Hmap. apply tally_fmap. intros l. apply length_map.
Qed.

Lemma stored_add_events_bulk_empty (m : Market) (evs : list CalendarEvent)
    (e : CalendarEvent) :
  stored (add_events_bulk (empty_calendar m) evs) e -> In e evs.
Proof.
  intros (t & Hin)%stored_get.
  apply in_add_events_bulk in Hin as [Hin|[Hin _]]; [|exact Hin].
  unfold get_events_by_ticker in Hin. cbn [empty_calendar events] in Hin.
  rewrite lookup_empty in Hin. destruct Hin.
Qed.

Lemma save_yaml_then_construct_witness :
  exists d' cal',
    save_calendar two_ticker_calendar (disk_with Absent) "2026-01-29T08:00:00" "yaml"
    = (two_ticker_calendar, Ok d') /\
    init NASDAQ d' "2026-01-30T08:00:00" = Ok cal' /\
    get_events_by_ticker cal' "AAPL"
    = [restamp "2026-01-30T08:00:00" aapl_earnings] /\
    last_updated cal' = Some "2026-01-29T08:00:00".
Proof.
  destruct (save_yaml_then_construct two_ticker_calendar (disk_with Absent)
              "2026-01-29T08:00:00" "2026-01-30T08:00:00")
    as (d' & cal' & Hsave & Hinit & _ & Hlast & _ & Hget & _).
  - reflexivity.
  - intros e He. apply stored_add_events_bulk_empty in He.
    destruct He as [<-|[<-|[]]]; reflexivity.
  - exists d', cal'. split; [exact Hsave|]. split; [exact Hinit|].
    split; [|exact Hlast]. rewrite Hget. reflexivity.
Defined.

(** X14. A calendar saved as JSON is never read back.  The JSON save
    writes [calendar.json] and leaves [calendar.yaml] as it was, while the
    constructor reads [calendar.yaml] only: constructing a store after a
    JSON save gives what it gave before the save, and in a directory
    without a YAML file it gives an empty store although the JSON file
    holds the saved events. *)
Theorem json_save_is_never_loaded (cal : MarketCalendar) (d : disk)
    (now now' : string) (m : Market) :
  write_fails d = false ->
  exists d',
    save_calendar cal d now "json" = (cal, Ok d') /\
    calendar_json d' = Holds (Some (dump_data cal now)) /\
    calendar_yaml d' = calendar_yaml d /\
    init m d' now' = init m d now' /\
    (calendar_yaml d = Absent -> init m d' now' = Ok (empty_calendar m)).
Proof.
  intros Hw. eexists. split.
  { unfold save_calendar, _save_json. cbn [String.eqb Ascii.eqb Bool.eqb].
    rewrite Hw. reflexivity. }
  split; [reflexivity|]. split; [reflexivity|]. split; [reflexivity|].
  cbn [calendar_yaml]. intros Habsent. unfold init, _load_local_calendar.
  cbn [calendar_yaml]. now rewrite Habsent.
Qed.

Lemma json_save_is_never_loaded_witness :
  exists d',
    save_calendar two_ticker_calendar (disk_with Absent) "2026-01-29T08:00:00" "json"
    = (two_ticker_calendar, Ok d') /\
    calendar_json d'
    = Holds (Some (dump_data two_ticker_calendar "2026-01-29T08:00:00")) /\
    init NASDAQ d' "2026-01-30T08:00:00" = Ok (empty_calendar NASDAQ).
Proof.
  destruct (json_save_is_never_loaded two_ticker_calendar (disk_with Absent)
              "2026-01-29T08:00:00" "2026-01-30T08:00:00" NASDAQ eq_refl)
    as (d' & Hsave & Hjson & _ & _ & Hempty).
  exists d'. split; [exact Hsave|]. split; [exact Hjson|].
  apply Hempty. reflexivity.
Defined.

Lemma save_calendar_outcome (cal : MarketCalendar) (d : disk)
    (now format_type : string) :
  save_calendar cal d now format_type =
  (cal,
   if String.eqb format_type "yaml" then
     if write_fails d then Raise OSError
     else Ok {| calendar_yaml := Holds (Some (dump_data cal now));
                calendar_json := calendar_json d;
                write_fails := write_fails d |}
   else if String.eqb format_type "json" then
     if write_fails d then Raise OSError
     else Ok {| calendar_yaml := calendar_yaml d;
                calendar_json := Holds (Some (dump_data cal now));
                write_fails := write_fails d |}
   else Raise ValueError).
Proof.
  unfold save_calendar, _save_yaml, _save_json.
  destruct (String.eqb format_type "yaml"); [reflexivity|].
  destruct (String.eqb format_type "json"); reflexivity.
Qed.

(** X15. [save_all] is not atomic.  With a format other than ['yaml'] and
    ['json'] it raises a [ValueError] at the first calendar and writes
    nothing.  With a supported format the FTSE calendar is written first;
    if that write fails nothing was written, but if the FTSE write succeeds
    and the NASDAQ write fails, the call raises with the FTSE file already
    replaced and the NASDAQ directory untouched.  The call returns normally
    exactly when the format is supported and both writes succeed. *)
Theorem save_all_stops_at_first_failure (mgr : MarketCalendarManager)
    (ds : disks) (now_ftse now_nasdaq format_type : string) :
  let supported := String.eqb format_type "yaml" || String.eqb format_type "json" in
  let r := save_all mgr ds now_ftse now_nasdaq format_type in
  (supported = false -> r = (ds, Raise ValueError)) /\
  (supported = true -> write_fails (ftse_disk ds) = true ->
   r = (ds, Raise OSError)) /\
  (supported = true -> write_fails (ftse_disk ds) = false ->
   write_fails (nasdaq_disk ds) = true ->
   r.2 = Raise OSError /\
   nasdaq_disk r.1 = nasdaq_disk ds /\
   save_calendar (ftse_calendar mgr) (ftse_disk ds) now_ftse format_type
   = (ftse_calendar mgr, Ok (ftse_disk r.1))) /\
  (r.2 = Ok tt <->
   supported = true /\ write_fails (ftse_disk ds) = false /\
   write_fails (nasdaq_disk ds) = false).
Proof.
  intros supported r. unfold r, supported, save_all.
  rewrite !save_calendar_outcome.
  destruct (String.eqb format_type "yaml"), (String.eqb format_type "json"),
    (write_fails (ftse_disk ds)), (write_fails (nasdaq_disk ds));
    cbn [orb fst snd ftse_disk nasdaq_disk];
    repeat split; try discriminate; try reflexivity;
    try (intros (? & ? & ?); discriminate).
Qed.

Lemma save_all_stops_at_first_failure_witness :
  let mgr := {| ftse_calendar := empty_calendar FTSE;
                nasdaq_calendar := two_ticker_calendar |} in
  let ds := {| ftse_disk := disk_with Absent;
               nasdaq_disk := {| calendar_yaml := Absent; calendar_json := Absent;
                                 write_fails := true |} |} in
  let r := save_all mgr ds "2026-01-29T08:00:00" "2026-01-29T08:00:01" "yaml" in
  r.2 = Raise OSError /\
  save_calendar (empty_calendar FTSE) (disk_with Absent) "2026-01-29T08:00:00" "yaml"
  = (empty_calendar FTSE, Ok (ftse_disk r.1)) /\
  nasdaq_disk r.1 = nasdaq_disk ds.
Proof.
  intros mgr ds r.
  destruct (save_all_stops_at_first_failure mgr ds
              "2026-01-29T08:00:00" "2026-01-29T08:00:01" "yaml")
    as (_ & _ & Hpartial & _).
  destruct Hpartial as (Hraise & Hnasdaq & Hftse);
    [reflexivity|reflexivity|reflexivity|].
  split; [exact Hraise|]. split; [exact Hftse|exact Hnasdaq].
Defined.

End CalendarMore.

(** ** The source orchestrator *)

Module SourcesMore.
Import Py Calendar Sources CalendarFacts SourcesFacts CalendarMore.

(** *** The manual source *)

Lemma parse_loop_filter (parse : event_dict -> result CalendarEvent)
    (p : event_dict -> bool) (g : event_dict -> CalendarEvent)
    (items : list event_dict) (acc : list CalendarEvent) :
  (forall item, p item = true -> parse item = Ok (g item)) ->
  (forall item, p item = false -> raises (parse item)) ->
  fold_left
    (fun events item =>
       match parse item with
       | Ok event => events ++ [event]
       | Raise _ => events
       end)
    items acc
  = acc ++ List.map g (List.filter p items).
Proof.
  intros Hok Hbad. revert acc.
  induction items as [|item items IH]; intros acc;
    cbn [fold_left List.filter List.map].
  - now rewrite app_nil_r.
  - destruct (p item) eqn:Hp.
    + rewrite (Hok item Hp), IH. cbn [List.map]. now rewrite <- app_assoc.
    + specialize (Hbad item Hp). destruct (parse item); [destruct Hbad|].
      apply IH.
Qed.

Lemma parse_items_filter (parse : event_dict -> result CalendarEvent)
    (p : event_dict -> bool) (g : event_dict -> CalendarEvent)
    (items : list event_dict) :
  (forall item, p item = true -> parse item = Ok (g item)) ->
  (forall item, p item = false -> raises (parse item)) ->
  parse_items parse items = List.map g (List.filter p items).
Proof.
  intros Hok Hbad. unfold parse_items.
  now rewrite (parse_loop_filter parse p g items [] Hok Hbad).
Qed.


Lemma parse_item_economic (now : string) (item : event_dict) :
  let parse :=
    parse_item (fun _ => Ok "MACRO") NASDAQ ECONOMIC
      (fun _ => "Economic Indicator") now in
  (well_formed false item = true -> parse item = Ok (economic_event now item)) /\
  (well_formed false item = false -> raises (parse item)).
Proof.
  unfold well_formed, parse_item, economic_event, call_new_event.
  generalize (valid_kwargs (default ∅ (d_metadata item))).
  intros v. destruct (d_date item) as [d|], v;
    cbn; split; try discriminate; reflexivity.
Qed.




Lemma manual_economic_fetch (file_exists : bool) (data : manual_data)
    (now : string) (days_ahead : Z) :
  fetch_economic_calendar (ManualYAMLSource file_exists data now) days_ahead =
  (items ← iterate (data_economic data);
   Ok (List.map (economic_event now) (List.filter (well_formed false) items))).
Proof.
  cbn [ManualYAMLSource fetch_economic_calendar].
  destruct (iterate (data_economic data)) as [items|e]; [|reflexivity].
  cbn [mbind result_bind bind]. f_equal.
  apply parse_items_filter; intros item; apply (parse_item_economic now item).
Qed.

Lemma find_ext_in {A : Type} (f g : A -> bool) (l : list A) :
  (forall x, In x l -> f x = g x) -> List.find f l = List.find g l.
Proof.
  induction l as [|a l IH]; intros Hfg; [reflexivity|].
  cbn [List.find]. rewrite (Hfg a) by now left.
  destruct (g a); [reflexivity|]. apply IH. intros x Hx. apply Hfg. now right.
Qed.

(** X17. Economic releases are keyed by their date alone.  Every event
    the manual source builds from the [economic] list has the ticker
    ['MACRO'], the market NASDAQ (also when an FTSE calendar is populated)
    and the type [ECONOMIC]; two releases of the same day therefore have
    the same key, and a calendar that holds no release for a day keeps,
    after the batch, only the first release of that day: the later ones are
    dropped as duplicates although they describe other indicators. *)
Theorem economic_releases_one_per_date (file_exists : bool) (data : manual_data)
    (now : string) (days_ahead : Z) (l : list CalendarEvent)
    (cal : MarketCalendar) :
  fetch_economic_calendar (ManualYAMLSource file_exists data now) days_ahead = Ok l ->
  (forall e, In e l ->
     ticker e = "MACRO" /\ market e = NASDAQ /\ event_type e = ECONOMIC) /\
  (forall e1 e2, In e1 l -> In e2 l -> date e1 = date e2 ->
     same_key e1 e2 = true) /\
  (forall e, In e l -> slot_events cal e = [] ->
     exists w,
       List.find (fun x => String.eqb (date x) (date e)) l = Some w /\
       slot_events (add_events_bulk cal l) e = [w]).
Proof.
  rewrite manual_economic_fetch. intros Hl.
  destruct (iterate (data_economic data)) as [items|]; [|discriminate].
  injection Hl as <-.
  set (l := List.map (economic_event now) (List.filter (well_formed false) items)).
  assert (Hfields : forall e, In e l ->
            ticker e = "MACRO" /\ market e = NASDAQ /\ event_type e = ECONOMIC).
  { intros e (item & <- & _)%List.in_map_iff. now repeat split. }
  assert (Hkey : forall e x, In e l -> In x l ->
            same_key e x = String.eqb (date x) (date e)).
  { intros e x He Hx.
    destruct (Hfields e He) as (Ht & _ & Hty).
    destruct (Hfields x Hx) as (Ht' & _ & Hty').
    unfold same_key, same_slot. rewrite Ht, Ht', Hty, Hty'. cbn.
    now rewrite andb_true_r. }
  split; [exact Hfields|]. split.
  - intros e1 e2 H1 H2 Hd. rewrite (Hkey e1 e2 H1 H2), Hd.
    apply String.eqb_refl.
  - intros e He Hfree. rewrite slot_events_add_events_bulk, Hfree.
    rewrite (find_ext_in (same_key e) (fun x => String.eqb (date x) (date e)))
      by (intros x Hx; now apply Hkey).
    destruct (List.find (fun x => String.eqb (date x) (date e)) l) as [w|] eqn:Hf.
    + now exists w.
    + apply (List.find_none _ _ Hf) in He. now rewrite String.eqb_refl in He.
Qed.

Lemma economic_releases_one_per_date_witness :
  let jobless :=
    economic_event "2026-01-28T09:00:00"
      (economic_item "2026-02-12" "Jobless claims") in
  let cpi :=
    economic_event "2026-01-28T09:00:00"
      (economic_item "2026-02-12" "CPI release") in
  exists w,
    List.find (fun x => String.eqb (date x) (date jobless)) [cpi; jobless] = Some w /\
    slot_events (add_events_bulk (empty_calendar FTSE) [cpi; jobless]) jobless = [w].
Proof.
  intros jobless cpi.
  destruct (economic_releases_one_per_date true manual_file_two_releases
              "2026-01-28T09:00:00" 90 [cpi; jobless] (empty_calendar FTSE))
    as (_ & _ & Hkeep).
  - reflexivity.
  - apply (Hkeep jobless); [right; left|]; reflexivity.
Defined.

(** *** The orchestrator *)

Lemma try_source_days_ahead (s : DataSource) (i : nat) (market : Market)
    (d1 d2 : Z) (st : loop_state) :
  ignores_days_ahead s ->
  try_source s i market d1 st = try_source s i market d2 st.
Proof.
  intros Hs. destruct (Hs market d1 d2) as (He & Hd & Hc).
  unfold try_source. now rewrite He, Hd, Hc.
Qed.

Lemma fetch_loop_days_ahead (sources : list DataSource) (i : nat)
    (market : Market) (d1 d2 : Z) (st : loop_state) :
  Forall ignores_days_ahead sources ->
  fetch_loop sources i market d1 st = fetch_loop sources i market d2 st.
Proof.
  intros Hall. revert i st.
  induction Hall as [|s sources Hs _ IH]; intros i st; [reflexivity|].
  cbn [fetch_loop]. rewrite (try_source_days_ahead s i market d1 d2 st Hs).
  destruct (try_source s i market d2 st) as [st' []]; [reflexivity|apply IH].
Qed.

Lemma init_sources_ignore_days_ahead (finnhub_api_key : option string)
    (yf_available file_exists : bool) (data : manual_data) (now : string) :
  Forall ignores_days_ahead
    (_init_sources finnhub_api_key yf_available
       (ManualYAMLSource file_exists data now)).
Proof.
  unfold _init_sources.
  repeat apply Forall_app_2.
  - destruct finnhub_api_key as [[|a k]|]; repeat constructor.
  - destruct yf_available; repeat constructor.
  - repeat constructor.
Qed.

(** X18. [days_ahead] has no effect.  For every list of sources that
    [_init_sources] can build, two calls of [fetch_all_calendars] that
    differ only in [days_ahead] make the same calls in the same order and
    return the same dict, and [populate_calendar] stores the same events:
    no source restricts its events to the coming [days_ahead] days, so
    records with past or distant dates are fetched and stored too. *)
Theorem days_ahead_is_ignored (finnhub_api_key : option string)
    (yf_available file_exists : bool) (data : manual_data) (now : string)
    (market : Market) (cal : MarketCalendar) (d1 d2 : Z) :
  let sources :=
    _init_sources finnhub_api_key yf_available
      (ManualYAMLSource file_exists data now) in
  fetch_all_calendars_traced sources market d1
  = fetch_all_calendars_traced sources market d2 /\
  fetch_all_calendars sources market d1 = fetch_all_calendars sources market d2 /\
  populate_calendar sources cal d1 = populate_calendar sources cal d2.
Proof.
  intros sources.
  assert (H : forall m, fetch_all_calendars_traced sources m d1
                        = fetch_all_calendars_traced sources m d2).
  { intros m. apply fetch_loop_days_ahead, init_sources_ignore_days_ahead. }
  split; [apply H|].
  unfold populate_calendar, fetch_all_calendars. now rewrite !H.
Qed.

(** X19. The placeholder adapters shadow the manual file.  As soon as a
    Finnhub API key is configured, or [yfinance] can be imported, the first
    source of the list is a healthy adapter whose three fetches return no
    event: [fetch_all_calendars] returns three empty lists, no method of a
    later source is called (the manual source, always last, is never
    consulted) and [populate_calendar] leaves the calendar as it was.  The
    manual source is the only source, hence the one asked, exactly when
    there is neither a key nor [yfinance]. *)
Theorem stub_sources_shadow_manual (finnhub_api_key : option string)
    (yf_available : bool) (manual : DataSource) (market : Market)
    (days_ahead : Z) (cal : MarketCalendar) :
  let sources := _init_sources finnhub_api_key yf_available manual in
  (((exists a k, finnhub_api_key = Some (String a k)) \/ yf_available = true) ->
   fetch_all_calendars sources market days_ahead
   = <["economic" := []]> (<["dividends" := []]> (<["earnings" := []]> ∅)) /\
   Forall (fun c => call_source c = 0)
     (calls (fetch_all_calendars_traced sources market days_ahead)) /\
   populate_calendar sources cal days_ahead = cal) /\
  (sources = [manual] <->
   (finnhub_api_key = None \/ finnhub_api_key = Some "") /\ yf_available = false).
Proof.
  intros sources. split.
  - intros Hstub.
    assert (Hfetch : forall m,
              fetch_all_calendars_traced sources m days_ahead =
              {| result_dict :=
                   <["economic" := []]>
                     (<["dividends" := []]> (<["earnings" := []]> ∅));
                 calls := [CallHealthCheck 0; CallFetchEarnings 0;
                           CallFetchDividend 0; CallFetchEconomic 0] |}).
    { intros m. unfold sources.
      destruct finnhub_api_key as [[|a k]|], yf_available;
        try reflexivity;
        destruct Hstub as [(a' & k' & H)|H]; discriminate H. }
    unfold populate_calendar, fetch_all_calendars. rewrite !Hfetch.
    cbn [result_dict calls]. split; [reflexivity|].
    split; [repeat constructor|reflexivity].
  - unfold sources, _init_sources.
    destruct finnhub_api_key as [[|a k]|], yf_available; cbn; split;
      try (intros [= ?]); try (intros [[H|H] H']; discriminate);
      try reflexivity; auto.
Qed.

Lemma stub_sources_shadow_manual_witness :
  fetch_all_calendars
    (_init_sources (Some "c0ffee") false source_B) NASDAQ 90
  = <["economic" := []]> (<["dividends" := []]> (<["earnings" := []]> ∅)) /\
  populate_calendar (_init_sources (Some "c0ffee") false source_B)
    (empty_calendar NASDAQ) 90
  = empty_calendar NASDAQ.
Proof.
  destruct (stub_sources_shadow_manual (Some "c0ffee") false source_B NASDAQ 90
              (empty_calendar NASDAQ)) as (Hstub & _).
  destruct Hstub as (Hfetch & _ & Hpopulate).
  - left. eexists _, _. reflexivity.
  - split; [exact Hfetch|exact Hpopulate].
Defined.

Lemma try_source_keys (s : DataSource) (i : nat) (market : Market)
    (days_ahead : Z) (st : loop_state) (k : string) :
  is_Some (result_dict (try_source s i market days_ahead st).1 !! k) ->
  is_Some (result_dict st !! k) \/
  k = "earnings" \/ k = "dividends" \/ k = "economic".
Proof.
  unfold try_source.
  destruct (health_check s) as [[]|]; [|now left..].
  destruct (fetch_earnings_calendar s market days_ahead); [|now left].
  destruct (fetch_dividend_calendar s market days_ahead); [|now left].
  destruct (decide (k = "earnings")) as [->|]; [auto|].
  destruct (decide (k = "dividends")) as [->|]; [auto|].
  destruct (decide (k = "economic")) as [->|]; [auto|].
  destruct (result_dict _ !! "economic");
    [|destruct (fetch_economic_calendar s days_ahead)];
    cbn [fst]; lookup_result; now left.
Qed.

Lemma fetch_loop_keys (sources : list DataSource) (i : nat) (market : Market)
    (days_ahead : Z) (st : loop_state) (k : string) :
  is_Some (result_dict (fetch_loop sources i market days_ahead st) !! k) ->
  is_Some (result_dict st !! k) \/
  k = "earnings" \/ k = "dividends" \/ k = "economic".
Proof.
  revert i st. induction sources as [|s sources IH]; intros i st; [now left|].
  cbn [fetch_loop]. pose proof (try_source_keys s i market days_ahead st k) as Hs.
  destruct (try_source s i market days_ahead st) as [st' []]; cbn [fst] in Hs.
  - exact Hs.
  - intros H. apply IH in H as [H|H]; [now apply Hs|now right].
Qed.

(** X20. The complete outcome of [fetch_all_calendars].  Either the list
    has a first source that reports healthy and whose three fetches
    return: then the result holds exactly the three lists of that source,
    and no source after it is called.  Or no source is such: then the
    result has no ["economic"] entry and is empty, or holds the earnings and
    dividends of a healthy source whose economic fetch raised.  In both
    cases the call returns normally, the keys of the result are among
    ["earnings"], ["dividends"] and ["economic"], ["earnings"] and
    ["dividends"] are present together, and ["economic"] is present only
    with them. *)
Theorem fetch_all_calendars_outcome (sources : list DataSource)
    (market : Market) (days_ahead : Z) :
  let st := fetch_all_calendars_traced sources market days_ahead in
  let r := fetch_all_calendars sources market days_ahead in
  ((exists pre s post,
      sources = pre ++ s :: post /\
      Forall (fun s' => ~ usable s' market days_ahead) pre /\
      usable s market days_ahead /\
      result_of s market days_ahead r /\
      Forall (fun c => call_source c <= length pre) (calls st)) \/
   (Forall (fun s => ~ usable s market days_ahead) sources /\
    leftover sources market days_ahead r)) /\
  (forall k, is_Some (r !! k) ->
             k = "earnings" \/ k = "dividends" \/ k = "economic") /\
  (is_Some (r !! "earnings") <-> is_Some (r !! "dividends")) /\
  (is_Some (r !! "economic") -> is_Some (r !! "earnings")).
Proof.
  intros st r.
  assert (Hcases :
    (exists pre s post,
       sources = pre ++ s :: post /\
       Forall (fun s' => ~ usable s' market days_ahead) pre /\
       usable s market days_ahead /\
       result_of s market days_ahead r /\
       Forall (fun c => call_source c <= length pre) (calls st)) \/
    (Forall (fun s => ~ usable s market days_ahead) sources /\
     leftover sources market days_ahead r)).
  { destruct (first_usable_split market days_ahead sources)
      as [Hnone|(pre & s & post & -> & Hpre & Hs)].
    - right. split; [exact Hnone|].
      now apply fetch_without_usable_source.
    - left. exists pre, s, post.
      destruct (fetch_uses_first_usable_source market days_ahead pre post s Hpre Hs)
        as [Hres Hcalls].
      split; [reflexivity|]. split; [exact Hpre|]. split; [exact Hs|].
      split; [exact Hres|exact Hcalls]. }
  split; [exact Hcases|]. split.
  { intros k Hk. unfold r, fetch_all_calendars, fetch_all_calendars_traced in Hk.
    apply fetch_loop_keys in Hk as [Hk|Hk]; [|exact Hk].
    cbn [result_dict] in Hk. rewrite lookup_empty in Hk. now destruct Hk. }
  destruct Hcases as [(pre & s & post & _ & _ & _ & Hres & _)|[_ Hleft]].
  - destruct Hres as ((e & He & _) & (d & Hd & _) & _).
    rewrite He, Hd. split; [split; eauto|eauto].
  - destruct Hleft as [Heco [->|(s & _ & _ & (e & d & _ & _ & He & Hd & _) & _)]].
    + rewrite !lookup_empty. split; [split|]; intros []; discriminate.
    + rewrite He, Hd, Heco. split; [split; eauto|eauto].
Qed.

Lemma fetch_all_calendars_outcome_witness :
  is_Some (fetch_all_calendars [source_A; source_B; source_C] NASDAQ 90
           !! "earnings").
Proof.
  destruct (fetch_all_calendars_outcome [source_A; source_B; source_C] NASDAQ 90)
    as (_ & _ & _ & Heco).
  apply Heco. exists [macro_release]. reflexivity.
Defined.

(** *** Populating the calendars *)

Lemma in_dict_values (r : gmap string (list CalendarEvent)) (e : CalendarEvent) :
  In e (concat (dict_values r)) -> exists k l, r !! k = Some l /\ In e l.
Proof.
  intros (l & Hl & He)%in_concat.
  apply list_elem_of_In, list_elem_of_omap in Hl as (k & _ & Hk).
  now exists k, l.
Qed.

(** X21. [populate_calendar] never raises and only appends: for every
    ticker the list held before is a prefix of the list held after, the
    market and [last_updated] are untouched, the two invariants of the data
    model are kept, and every event of the store was there before or is in
    one of the fetched lists.  Populating again from the same sources
    changes nothing more, and when the fetch returns the empty dict (no
    source answered) the calendar is left as it was. *)
Theorem populate_calendar_spec (sources : list DataSource)
    (cal : MarketCalendar) (days_ahead : Z) :
  let fetched := fetch_all_calendars sources (cal_market cal) days_ahead in
  let cal' := populate_calendar sources cal days_ahead in
  (forall t, get_events_by_ticker cal t `prefix_of` get_events_by_ticker cal' t) /\
  cal_market cal' = cal_market cal /\
  last_updated cal' = last_updated cal /\
  (deduplicated cal -> deduplicated cal') /\
  (keyed cal -> keyed cal') /\
  (forall e, stored cal' e ->
     stored cal e \/ exists k l, fetched !! k = Some l /\ In e l) /\
  populate_calendar sources cal' days_ahead = cal' /\
  (fetched = ∅ -> cal' = cal).
Proof.
  intros fetched cal'. unfold cal', populate_calendar. fold fetched.
  destruct (add_events_bulk_attributes (concat (dict_values fetched)) cal)
    as [Hm Hu].
  split; [intros t; apply prefix_add_events_bulk|].
  split; [exact Hm|]. split; [exact Hu|].
  split; [apply add_events_bulk_deduplicated|].
  split; [apply add_events_bulk_keyed|].
  split.
  { intros e (t & Hin)%stored_get.
    apply in_add_events_bulk in Hin as [Hin|[Hin _]].
    - left. apply stored_get. now exists t.
    - right. now apply in_dict_values. }
  split.
  - rewrite Hm. fold fetched. apply add_events_bulk_covered.
    intros x Hx. exists x. split; [exact Hx|apply same_key_refl].
  - intros ->. reflexivity.
Qed.

Lemma populate_calendar_spec_witness :
  let cal' := populate_calendar [source_A; source_B; source_C]
                (empty_calendar NASDAQ) 90 in
  deduplicated cal' /\ keyed cal'.
Proof.
  destruct (populate_calendar_spec [source_A; source_B; source_C]
              (empty_calendar NASDAQ) 90) as (_ & _ & _ & Hd & Hk & _).
  split; [apply Hd, deduplicated_empty|apply Hk, keyed_empty].
Defined.

(** X22. [populate_all_markets] can fail only on the calendar files,
    never on the sources.  It raises exactly when a calendar file cannot be
    loaded or a write fails.  When loading fails nothing is fetched and
    nothing is written, so a calendar file that cannot be loaded is never
    replaced by this call.  When it returns, each calendar of the returned
    manager is the loaded calendar populated from the sources, and each
    [calendar.yaml] holds the document of that calendar, stamped with the
    time of its save. *)
Theorem populate_all_markets_failures (sources : list DataSource) (ds : disks)
    (days_ahead : Z) (loaded saved : string * string) :
  let r := populate_all_markets sources ds days_ahead loaded saved in
  let constructed := manager_init ds loaded.1 loaded.2 in
  (raises r.2 <->
   raises constructed \/ write_fails (ftse_disk ds) = true \/
   write_fails (nasdaq_disk ds) = true) /\
  (raises constructed -> r.1 = ds) /\
  (forall mgr', r.2 = Ok mgr' ->
     exists mgr,
       constructed = Ok mgr /\
       ftse_calendar mgr' = populate_calendar sources (ftse_calendar mgr) days_ahead /\
       nasdaq_calendar mgr' =
         populate_calendar sources (nasdaq_calendar mgr) days_ahead /\
       calendar_yaml (ftse_disk r.1)
       = Holds (Some (dump_data (ftse_calendar mgr') saved.1)) /\
       calendar_yaml (nasdaq_disk r.1)
       = Holds (Some (dump_data (nasdaq_calendar mgr') saved.2))).
Proof.
  intros r constructed. unfold r, populate_all_markets. fold constructed.
  destruct constructed as [mgr|e].
  - unfold save_all. rewrite !save_calendar_outcome.
    cbn [String.eqb Ascii.eqb Bool.eqb get_calendar ftse_calendar nasdaq_calendar].
    destruct (write_fails (ftse_disk ds)), (write_fails (nasdaq_disk ds));
      cbn [fst snd raises ftse_disk nasdaq_disk calendar_yaml];
      (split; [intuition discriminate|]); (split; [intros []|]);
      intros mgr' Hmgr; try discriminate Hmgr.
    injection Hmgr as <-. exists mgr. now repeat split.
  - cbn [fst snd raises]. split; [tauto|]. split; [reflexivity|]. intros ? [=].
Qed.

Lemma populate_all_markets_failures_witness :
  let ds := {| ftse_disk := disk_with Absent; nasdaq_disk := disk_with Absent |} in
  let r := populate_all_markets [source_A; source_B; source_C] ds 90
             ("2026-01-29T08:00:00", "2026-01-29T08:00:01")
             ("2026-01-29T08:00:02", "2026-01-29T08:00:03") in
  exists mgr,
    manager_init ds "2026-01-29T08:00:00" "2026-01-29T08:00:01" = Ok mgr /\
    calendar_yaml (nasdaq_disk r.1)
    = Holds (Some (dump_data
                     (populate_calendar [source_A; source_B; source_C]
                        (nasdaq_calendar mgr) 90)
                     "2026-01-29T08:00:03")).
Proof.
  intros ds r.
  destruct (populate_all_markets_failures [source_A; source_B; source_C] ds 90
              ("2026-01-29T08:00:00", "2026-01-29T08:00:01")
              ("2026-01-29T08:00:02", "2026-01-29T08:00:03"))
    as (_ & _ & Hok).
  destruct (Hok _ eq_refl) as (mgr & Hinit & _ & Hnasdaq & _ & Hyaml).
  exists mgr. split; [exact Hinit|].
  fold r in Hyaml. rewrite Hyaml, Hnasdaq. reflexivity.
Defined.

End SourcesMore.

(** ** The daily pipeline *)

Module PipelineFacts.
Import Py Guard GuardFacts GuardMore Pipeline.

(** Looks a literal key up in a dict written as a list of items. *)
Ltac lookup_literal :=
  unfold dict_get, normalized_event, events_document;
  cbn [list_to_map foldr fst snd uncurry];
  repeat first [rewrite lookup_insert_eq
               |rewrite lookup_insert_ne by discriminate
               |rewrite lookup_empty];
  cbn [default from_option id].

(** *** normalize.py *)

Lemma normalized_event_lookup (now : string) (event : gmap string value)
    (k : string) :
  normalized_event now event !! k =
  if String.eqb k "event_id" then Some (dict_get event "id" (VStr "unknown"))
  else if String.eqb k "source" then Some (dict_get event "source" (VStr "unknown"))
  else if String.eqb k "category" then Some (dict_get event "category" (VStr "other"))
  else if String.eqb k "timestamp" then Some (dict_get event "timestamp" (VStr now))
  else if String.eqb k "description" then Some (dict_get event "description" (VStr ""))
  else if String.eqb k "tags" then Some (dict_get event "tags" (VList []))
  else None.
Proof.
  unfold normalized_event. cbn [list_to_map foldr fst snd uncurry].
  repeat match goal with
         | |- context [String.eqb k ?lit] =>
             destruct (String.eqb_spec k lit) as [->|?];
             [repeat first [rewrite lookup_insert_eq
                           |rewrite lookup_insert_ne by discriminate];
              reflexivity
             |rewrite (lookup_insert_ne _ lit) by congruence]
         end.
  apply lookup_empty.
Qed.

Lemma normalize_loop_dicts (clock : nat -> string) (events : list (gmap string value))
    (i : nat) (acc : list value) :
  normalize_loop clock i (VDict <$> events) acc =
  Returns (acc ++ imap (fun j e => VDict (normalized_event (clock (i + j)) e)) events).
Proof.
  revert i acc. induction events as [|e events IH]; intros i acc.
  - cbn. now rewrite app_nil_r.
  - cbn [fmap list_fmap normalize_loop]. fold (fmap VDict events).
    rewrite IH. cbn [imap]. rewrite <- app_assoc. cbn [app].
    rewrite Nat.add_0_r. do 2 f_equal. f_equal.
    apply imap_ext. intros j x _. cbn [compose].
    now replace (S i + j) with (i + S j) by lia.
Qed.

Lemma normalize_loop_fails (clock : nat -> string) (raw : list value)
    (i : nat) (acc : list value) :
  normalize_loop clock i raw acc = Raises AttributeError <->
  exists v, In v raw /\ forall d, v <> VDict d.
Proof.
  revert i acc. induction raw as [|v raw IH]; intros i acc.
  - cbn. split; [discriminate|]. now intros (v & [] & _).
  - destruct v as [| | | | |d];
      try (cbn; split; [intros _; eexists; split; [now left|discriminate]|
                        reflexivity]).
    cbn [normalize_loop]. rewrite IH. split.
    + intros (v & Hin & Hv). exists v. split; [now right|exact Hv].
    + intros (v & [<-|Hin] & Hv); [now contradiction (Hv d)|]. now exists v.
Qed.

Lemma normalize_loop_outcome (clock : nat -> string) (raw : list value)
    (i : nat) (acc : list value) :
  normalize_loop clock i raw acc = Raises AttributeError \/
  exists out, normalize_loop clock i raw acc = Returns out.
Proof.
  revert i acc. induction raw as [|v raw IH]; intros i acc.
  - right. now exists acc.
  - destruct v; try (now left). apply IH.
Qed.

Lemma normalize_loop_length (clock : nat -> string) (raw : list value)
    (i : nat) (acc out : list value) :
  normalize_loop clock i raw acc = Returns out ->
  length out = length acc + length raw.
Proof.
  revert i acc. induction raw as [|v raw IH]; intros i acc.
  - cbn. intros [= <-]. lia.
  - destruct v; try discriminate. cbn [normalize_loop]. intros H.
    apply IH in H. rewrite length_app in H. cbn in *. lia.
Qed.

(** X23. [normalize_events] on a list.  It raises (an [AttributeError])
    exactly when some item of the list is not a mapping; otherwise it
    returns one dict per raw event, in the same order.  Each dict has
    exactly the six keys [event_id], [source], [category], [timestamp],
    [description] and [tags], holding the raw event's [id], [source],
    [category], [timestamp], [description] and [tags] when the key is
    present (also when its value is null) and ['unknown'], ['unknown'],
    ['other'], the clock reading, [''] and [[]] otherwise.  The function is
    not idempotent: it reads the key [id] but writes [event_id], so
    normalizing a normalized event keeps five fields and replaces
    [event_id] by ['unknown']. *)
Theorem normalize_events_spec (clock : nat -> string) (raw : list value) :
  (normalize_events clock (VList raw) = Raises AttributeError <->
   exists v, In v raw /\ forall d, v <> VDict d) /\
  (normalize_events clock (VList raw) = Raises AttributeError \/
   exists out, normalize_events clock (VList raw) = Returns out) /\
  (forall out, normalize_events clock (VList raw) = Returns out ->
     length out = length raw) /\
  (forall events, raw = VDict <$> events ->
     normalize_events clock (VList raw) =
     Returns (imap (fun i e => VDict (normalized_event (clock i) e)) events)) /\
  (forall now event k,
     is_Some (normalized_event now event !! k) <-> In k normalized_keys) /\
  (forall now now' event,
     normalized_event now' (normalized_event now event)
     = <["event_id" := VStr "unknown"]> (normalized_event now event)).
Proof.
  split; [apply normalize_loop_fails|].
  split; [apply normalize_loop_outcome|].
  split; [intros out H; now apply normalize_loop_length in H|].
  split.
  { intros events ->. cbn [normalize_events].
    now rewrite normalize_loop_dicts. }
  split.
  - intros now event k. rewrite normalized_event_lookup. unfold normalized_keys.
    repeat match goal with
           | |- context [String.eqb k ?lit] =>
               destruct (String.eqb_spec k lit) as [->|?]
           end;
      try (split; [intros _; cbn; tauto|intros _; eexists; reflexivity]).
    split; [intros []; discriminate|]. cbn. intuition congruence.
  - intros now now' event. apply map_eq. intros k.
    rewrite normalized_event_lookup.
    destruct (String.eqb_spec k "event_id") as [->|Hk].
    + rewrite lookup_insert_eq. now lookup_literal.
    + rewrite lookup_insert_ne by congruence.
      rewrite (normalized_event_lookup now event k).
      destruct (String.eqb_spec k "event_id") as [|_]; [contradiction|].
      repeat match goal with
             | |- context [String.eqb k ?lit] =>
                 destruct (String.eqb_spec k lit) as [->|?];
                 [now lookup_literal|]
             end.
      reflexivity.
Qed.

Lemma normalize_events_spec_witness :
  normalize_events (fun _ => "2026-01-28T09:00:01")
    (VList (VDict <$> [{["id" := VStr "fomc"]}; ∅]))
  = Returns
      (imap (fun _ e => VDict (normalized_event "2026-01-28T09:00:01" e))
         [{["id" := VStr "fomc"]}; ∅]).
Proof.
  destruct (normalize_events_spec (fun _ => "2026-01-28T09:00:01")
              (VDict <$> [{["id" := VStr "fomc"]}; ∅]))
    as (_ & _ & _ & Hdicts & _).
  apply (Hdicts [{["id" := VStr "fomc"]}; ∅]). reflexivity.
Defined.

(** *** validate.py *)

Lemma check_steps_spec (given : value) (present : string -> bool)
    (expected errors : list string) :
  (forall step, contains given step = Returns (present step)) ->
  check_steps given expected errors =
  Returns (errors ++ List.map (fun step => "Missing step: " +:+ step)
                       (List.filter (fun step => negb (present step)) expected)).
Proof.
  intros Hpresent. revert errors.
  induction expected as [|step rest IH]; intros errors.
  - cbn. now rewrite app_nil_r.
  - cbn [check_steps List.filter]. rewrite Hpresent.
    cbn [mbind outcome_bind]. rewrite IH.
    destruct (present step); cbn [negb List.map]; [reflexivity|].
    now rewrite <- app_assoc.
Qed.

Lemma validate_schema_present (output : gmap string value)
    (present : string -> bool) :
  (forall step,
     contains (dict_get output "steps" (VDict ∅)) step = Returns (present step)) ->
  validate_schema output =
  Returns ((length (schema_errors_for output present) =? 0)%nat,
           schema_errors_for output present).
Proof.
  intros Hpresent. unfold validate_schema, schema_errors_for, field_error, missing_steps.
  rewrite (check_steps_spec _ present _ _ Hpresent).
  cbn [mbind outcome_bind].
  destruct (bool_decide (is_Some (output !! "date"))),
    (bool_decide (is_Some (output !! "steps"))); reflexivity.
Qed.

Lemma missing_steps_nil (present : string -> bool) :
  missing_steps present = [] <->
  forall step, In step expected_steps -> present step = true.
Proof.
  unfold missing_steps. split.
  - intros Hnil step Hin. destruct (present step) eqn:Hp; [reflexivity|].
    assert (H : In step (List.filter (fun step => negb (present step)) expected_steps)).
    { apply List.filter_In. split; [exact Hin|]. now rewrite Hp. }
    apply (List.in_map (fun step => "Missing step: " +:+ step)) in H.
    now rewrite Hnil in H.
  - intros Hall.
    replace (List.filter (fun step => negb (present step)) expected_steps)
      with (@nil string); [reflexivity|].
    symmetry. induction expected_steps as [|step rest IH]; [reflexivity|].
    cbn [List.filter]. rewrite Hall by now left. cbn [negb].
    apply IH. intros s Hs. apply Hall. now right.
Qed.

(** X24. [validate_schema] on an output whose [steps] entry is missing or
    a mapping never raises; its error list is, in this order, the message
    for a missing [date], the message for a missing [steps], and one
    message per expected step that is not a key of [steps], in the order
    of the six expected steps (so an output without [steps] gets seven
    errors, or eight).  The output is valid exactly when [date] and [steps]
    are present and the six steps are keys of [steps]; nothing else is
    checked: neither the values nor further keys.  When [steps] holds
    a string the test is a substring test, and when it holds a null, a
    boolean or a number the call raises a [TypeError]. *)
Theorem validate_schema_spec (output : gmap string value) :
  (forall given,
     output !! "steps" = Some (VDict given) \/
     (output !! "steps" = None /\ given = ∅) ->
     let errors :=
       schema_errors_for output
         (fun step => bool_decide (is_Some (given !! step))) in
     validate_schema output = Returns ((length errors =? 0)%nat, errors) /\
     (errors = [] <->
      is_Some (output !! "date") /\ is_Some (output !! "steps") /\
      forall step, In step expected_steps -> is_Some (given !! step))) /\
  (forall text,
     output !! "steps" = Some (VStr text) ->
     validate_schema output =
     Returns ((length (schema_errors_for output (fun step => substring step text))
               =? 0)%nat,
              schema_errors_for output (fun step => substring step text))) /\
  (output !! "steps" = Some VNone \/
   (exists b, output !! "steps" = Some (VBool b)) \/
   (exists n, output !! "steps" = Some (VInt n)) ->
   validate_schema output = Raises (Builtin TypeError)).
Proof.
  split; [|split].
  - intros given Hsteps errors.
    assert (Hget : dict_get output "steps" (VDict ∅) = VDict given).
    { unfold dict_get. destruct Hsteps as [->|[-> ->]]; reflexivity. }
    split.
    + apply validate_schema_present. intros step. now rewrite Hget.
    + unfold errors, schema_errors_for, field_error.
      destruct (bool_decide_reflect (is_Some (output !! "date"))) as [Hd|Hd],
        (bool_decide_reflect (is_Some (output !! "steps"))) as [Hs|Hs];
        cbn [app];
        try (split; [discriminate|intros (? & ? & _); contradiction]).
      rewrite missing_steps_nil. split.
      * intros Hall. split; [exact Hd|]. split; [exact Hs|].
        intros step Hin. exact (bool_decide_eq_true_1 _ (Hall step Hin)).
      * intros (_ & _ & Hall) step Hin. apply bool_decide_eq_true_2, Hall, Hin.
  - intros text Htext. apply validate_schema_present. intros step.
    unfold dict_get. now rewrite Htext.
  - intros Hbad. unfold validate_schema, dict_get.
    destruct Hbad as [->|[[b ->]|[n ->]]]; reflexivity.
Qed.

Lemma validate_schema_spec_witness :
  validate_schema {["date" := VStr "2026-01-28"]} =
  Returns (false,
           ["Missing 'steps' field";
            "Missing step: 01_filter_events"; "Missing step: 02_macro_regime";
            "Missing step: 03_policy_impact"; "Missing step: 04_second_order";
            "Missing step: 05_scenarios"; "Missing step: 06_brief"]).
Proof.
  destruct (validate_schema_spec {["date" := VStr "2026-01-28"]})
    as (Hdict & _).
  destruct (Hdict ∅) as [Hrun _]; [right; split; reflexivity|].
  rewrite Hrun. reflexivity.
Defined.

(** *** run_llm.py *)

Lemma run_step_loads (py : library) (d : disk) (step_id : string)
    (input_data config : value) :
  run_step py d step_id input_data config =
  (prompt_template ← load_prompt d step_id;
   system_prompt ← load_system_prompt d;
   Returns (placeholder_output py)).
Proof. reflexivity. Qed.

Lemma fails_bind {A B : Type} (r : outcome A) (k : A -> outcome B) :
  fails (r ≫= k) <-> fails r \/ exists a, r = Returns a /\ fails (k a).
Proof.
  destruct r as [a|e]; cbn.
  - split; [intros H; right; now exists a|].
    intros [[]|(a' & [= <-] & H)]. exact H.
  - split; [now left|trivial].
Qed.

Lemma run_steps_fails (py : library) (d : disk) (config : value)
    (todo : list string) (step_input : value) (done : gmap string value) :
  fails (run_steps py d config todo step_input done) <->
  todo <> [] /\
  (fails (load_system_prompt d) \/
   exists step, In step todo /\ fails (load_prompt d step)).
Proof.
  revert step_input done.
  induction todo as [|step rest IH]; intros step_input done.
  - cbn. split; [intros []|intros [H _]; now contradiction H].
  - cbn [run_steps]. rewrite run_step_loads.
    destruct (load_prompt d step) as [prompt|e] eqn:Hprompt; cbn [mbind outcome_bind].
    + destruct (load_system_prompt d) as [sp|e] eqn:Hrole; cbn [mbind outcome_bind].
      * rewrite IH. cbn [fails]. split.
        -- intros (_ & [[]|(s & Hin & Hs)]). split; [discriminate|]. right.
           exists s. split; [now right|exact Hs].
        -- intros (_ & [[]|(s & [<-|Hin] & Hs)]).
           { rewrite Hprompt in Hs. destruct Hs. }
           split; [intros ->; destruct Hin|]. right. now exists s.
      * cbn. split; [intros _; split; [discriminate|now left]|trivial].
    + cbn. split; [intros _|trivial]. split; [discriminate|]. right.
      exists step. split; [now left|]. now rewrite Hprompt.
Qed.

Lemma run_steps_returns (py : library) (d : disk) (config : value)
    (todo : list string) (step_input : value) (done out : gmap string value) :
  run_steps py d config todo step_input done = Returns out ->
  out = fold_left (fun m step => <[step := placeholder_output py]> m) todo done.
Proof.
  revert step_input done.
  induction todo as [|step rest IH]; intros step_input done.
  - cbn. now intros [= <-].
  - cbn [run_steps fold_left]. rewrite run_step_loads.
    destruct (load_prompt d step); cbn [mbind outcome_bind]; [|discriminate].
    destruct (load_system_prompt d); cbn [mbind outcome_bind]; [|discriminate].
    apply IH.
Qed.

Lemma lookup_fold_insert (v : value) (todo : list string)
    (done : gmap string value) (k : string) :
  fold_left (fun m step => <[step := v]> m) todo done !! k =
  if bool_decide (k ∈ todo) then Some v else done !! k.
Proof.
  revert done. induction todo as [|step rest IH]; intros done; [reflexivity|].
  cbn [fold_left]. rewrite IH.
  destruct (decide (k = step)) as [->|Hne].
  - rewrite lookup_insert_eq, (bool_decide_eq_true_2 (step ∈ step :: rest))
      by left.
    now destruct (bool_decide (step ∈ rest)).
  - rewrite lookup_insert_ne by congruence.
    destruct (bool_decide_reflect (k ∈ rest)) as [Hin|Hin].
    + now rewrite bool_decide_eq_true_2 by now right.
    + rewrite bool_decide_eq_false_2; [reflexivity|].
      intros [?|?]%elem_of_cons; contradiction.
Qed.

Lemma run_pipeline_unfold (py : library) (d : disk) (date now : string)
    (events : list value) :
  run_pipeline py d date now events =
  (config ← load_config d;
   done ← run_steps py d config steps (VDict {["events" := VList events]}) ∅;
   Returns (list_to_map
              [("date", VStr date); ("timestamp", VStr now);
               ("steps", VDict done)])).
Proof. reflexivity. Qed.

Lemma run_pipeline_fails (py : library) (d : disk) (date now : string)
    (normalized_events : list value) :
  fails (run_pipeline py d date now normalized_events) <->
  fails (load_config d) \/ fails (load_system_prompt d) \/
  exists step, In step steps /\ fails (load_prompt d step).
Proof.
  rewrite run_pipeline_unfold.
  destruct (load_config d) as [config|e]; cbn [mbind outcome_bind].
  - rewrite fails_bind, run_steps_fails. cbn [fails]. split.
    + intros [[_ H]|(done & _ & [])]. now right.
    + intros [[]|H]. left. split; [discriminate|exact H].
  - cbn. tauto.
Qed.

Lemma run_pipeline_output (py : library) (d : disk) (date now : string)
    (normalized_events : list value) (output : gmap string value) :
  run_pipeline py d date now normalized_events = Returns output ->
  output !! "date" = Some (VStr date) /\
  output !! "timestamp" = Some (VStr now) /\
  (exists done,
     output !! "steps" = Some (VDict done) /\
     forall k, done !! k =
               if bool_decide (k ∈ steps) then Some (placeholder_output py)
               else None) /\
  validate_schema output = Returns (true, []) /\
  forall other_events,
    run_pipeline py d date now other_events = Returns output.
Proof.
  intros Hout. rewrite run_pipeline_unfold in Hout.
  destruct (load_config d) as [config|e] eqn:Hconfig;
    cbn [mbind outcome_bind] in Hout; [|discriminate].
  destruct (run_steps py d config steps
              (VDict {["events" := VList normalized_events]}) ∅)
    as [done|e] eqn:Hsteps; cbn [mbind outcome_bind] in Hout; [|discriminate].
  injection Hout as <-.
  pose proof (run_steps_returns _ _ _ _ _ _ _ Hsteps) as Hdone.
  assert (Hlookup : forall k,
            done !! k =
            if bool_decide (k ∈ steps) then Some (placeholder_output py)
            else None).
  { intros k. rewrite Hdone, lookup_fold_insert.
    now destruct (bool_decide (k ∈ steps)). }
  split; [now lookup_literal|]. split; [now lookup_literal|].
  split; [exists done; split; [now lookup_literal|exact Hlookup]|].
  split.
  - rewrite (validate_schema_present _
               (fun step => bool_decide (is_Some (done !! step)))).
    + unfold schema_errors_for, field_error, missing_steps.
      rewrite !bool_decide_eq_true_2 by (lookup_literal; eauto).
      cbn [app expected_steps List.filter].
      rewrite !Hlookup. reflexivity.
    + intros step. unfold dict_get. now lookup_literal.
  - intros other_events. rewrite run_pipeline_unfold, Hconfig.
    cbn [mbind outcome_bind].
    destruct (run_steps py d config steps
                (VDict {["events" := VList other_events]}) ∅)
      as [done'|e] eqn:Hsteps'.
    + apply run_steps_returns in Hsteps'. now rewrite Hsteps', <- Hdone.
    + exfalso.
      assert (Hf : fails (run_steps py d config steps
                            (VDict {["events" := VList other_events]}) ∅))
        by now rewrite Hsteps'.
      apply run_steps_fails in Hf.
      apply (run_steps_fails py d config steps
               (VDict {["events" := VList normalized_events]}) ∅) in Hf.
      now rewrite Hsteps in Hf.
Qed.

(** X25. [run_pipeline] fails exactly when [config.yaml], the system
    prompt or the prompt file of one of the six steps cannot be loaded (a
    missing prompt file is no failure).  When it returns, its output holds
    the date, the time stamp and, under [steps], exactly the six step
    names, each with the same value: what the placeholder response of
    [call_openai] parses to.  The output therefore does not depend on the
    normalized events, nor on the prompts, and it always passes
    [validate_schema] without any error. *)
Theorem run_pipeline_always_schema_valid (py : library) (d : disk)
    (date now : string) (normalized_events : list value) :
  (fails (run_pipeline py d date now normalized_events) <->
   fails (load_config d) \/ fails (load_system_prompt d) \/
   exists step, In step steps /\ fails (load_prompt d step)) /\
  (forall output,
     run_pipeline py d date now normalized_events = Returns output ->
     output !! "date" = Some (VStr date) /\
     output !! "timestamp" = Some (VStr now) /\
     (exists done,
        output !! "steps" = Some (VDict done) /\
        forall k, done !! k =
                  if bool_decide (k ∈ steps) then Some (placeholder_output py)
                  else None) /\
     validate_schema output = Returns (true, []) /\
     forall other_events,
       run_pipeline py d date now other_events = Returns output).
Proof.
  split; [apply run_pipeline_fails|].
  intros output. apply run_pipeline_output.
Qed.

Lemma run_pipeline_always_schema_valid_witness :
  exists output,
    run_pipeline plain_library fresh_disk "2026-01-28" "2026-01-28T09:00:03"
      [VDict {["id" := VStr "fomc"]}] = Returns output /\
    validate_schema output = Returns (true, []).
Proof.
  destruct (run_pipeline plain_library fresh_disk "2026-01-28"
              "2026-01-28T09:00:03" [VDict {["id" := VStr "fomc"]}])
    as [output|e] eqn:Hrun; [|discriminate Hrun].
  exists output. split; [reflexivity|].
  destruct (run_pipeline_always_schema_valid plain_library fresh_disk
              "2026-01-28" "2026-01-28T09:00:03"
              [VDict {["id" := VStr "fomc"]}]) as (_ & Hvalid).
  now destruct (Hvalid output Hrun) as (_ & _ & _ & H & _).
Defined.

(** *** fetch.py and the first two stages of main.py *)

(** X26. The pipeline never processes an event.  [fetch_events] returns
    the empty list whatever [sources.yaml] holds (it fails only when that
    file cannot be loaded).  Saving its result replaces
    [data/events/<date>.yaml], whatever it held before, by a document with
    no event, and leaves the other files of the directory alone; and
    loading that file again and normalizing its [events] entry, as the
    second stage of [run_full_pipeline] does, gives the empty list. *)
Theorem raw_events_are_always_empty (d : disk) (date now : string)
    (clock : nat -> string) :
  (fails (fetch_events d date) <-> fails (load_sources d)) /\
  (forall events, fetch_events d date = Returns events -> events = []) /\
  (forall d1,
     fetch_events d date ≫= save_raw_events d date now = Returns d1 ->
     events_dir d1 !! (date +:+ ".yaml")
     = Some (Returns (events_document date now [])) /\
     (forall name, name <> date +:+ ".yaml" ->
                   events_dir d1 !! name = events_dir d !! name) /\
     (load_raw_events d1 date ≫= fun raw_data =>
        get raw_data "events" (VList []) ≫= normalize_events clock)
     = Returns []).
Proof.
  unfold fetch_events, load_sources.
  destruct (sources_yaml d) as [sources|e]; cbn [mbind outcome_bind fails].
  - split; [tauto|]. split; [now intros events [= <-]|].
    intros d1. unfold save_raw_events, write_events_file.
    destruct (events_writable d); [|discriminate]. intros [= <-].
    cbn [events_dir]. split; [apply lookup_insert_eq|].
    split; [intros name Hname; now rewrite lookup_insert_ne by congruence|].
    unfold load_raw_events. cbn [events_dir]. rewrite lookup_insert_eq.
    reflexivity.
  - split; [tauto|]. split; [discriminate|]. discriminate.
Qed.

Lemma raw_events_are_always_empty_witness :
  exists d1,
    fetch_events fresh_disk "2026-01-28"
      ≫= save_raw_events fresh_disk "2026-01-28" "2026-01-28T09:00:00"
    = Returns d1 /\
    (load_raw_events d1 "2026-01-28" ≫= fun raw_data =>
       get raw_data "events" (VList [])
         ≫= normalize_events (fun _ => "2026-01-28T09:00:01"))
    = Returns [].
Proof.
  destruct (fetch_events fresh_disk "2026-01-28"
              ≫= save_raw_events fresh_disk "2026-01-28" "2026-01-28T09:00:00")
    as [d1|e] eqn:Hsave; [|discriminate Hsave].
  exists d1. split; [reflexivity|].
  destruct (raw_events_are_always_empty fresh_disk "2026-01-28"
              "2026-01-28T09:00:00" (fun _ => "2026-01-28T09:00:01"))
    as (_ & _ & Hempty).
  now destruct (Hempty d1 Hsave) as (_ & _ & H).
Defined.

(** *** main.py *)

Lemma spent_refl (g : ExecutionGuard) : spent g g 0.
Proof. unfold spent. repeat split. lia. Qed.

Lemma spent_record (g g' : ExecutionGuard) (k count : Z) :
  spent g g' k -> spent g (record_tokens g' count).1 (k + count).
Proof.
  intros (Hs & Hm & Hb & Ht). unfold spent. cbn. repeat split; try assumption.
  lia.
Qed.

Lemma check_time_remaining_spent (g g' : ExecutionGuard) (k : Z) (now : Q) :
  spent g g' k -> check_time_remaining g' now = check_time_remaining g now.
Proof.
  intros (Hs & Hm & _). unfold check_time_remaining, start_time_set.
  now rewrite Hs, Hm.
Qed.

Lemma should_continue_spent (g g' : ExecutionGuard) (k : Z) (now : Q) :
  spent g g' k ->
  (should_continue g' now = true <-> within_budget g k now) /\
  (should_continue g' now = false <-> ~ within_budget g k now).
Proof.
  intros Hsp. pose proof (check_time_remaining_spent g g' k now Hsp) as Hrem.
  destruct Hsp as (_ & _ & Hb & Ht).
  pose proof (should_continue_false_iff g' now) as Hfalse.
  rewrite Hrem, Hb, Ht in Hfalse. unfold within_budget.
  destruct (should_continue g' now).
  - split; [|split; [discriminate|]].
    + split; [intros _|reflexivity].
      destruct (Qlt_le_dec (check_time_remaining g now) 30) as [H|H];
        [now assert (true = false) by (apply Hfalse; now left)|].
      destruct (Z_lt_le_dec (daily_token_budget g - (tokens_used g + k)) 1000)
        as [H'|H']; [now assert (true = false) by (apply Hfalse; now right)|].
      now split.
    + intros Hnot. exfalso. apply Hnot.
      destruct (Qlt_le_dec (check_time_remaining g now) 30) as [H|H];
        [now assert (true = false) by (apply Hfalse; now left)|].
      destruct (Z_lt_le_dec (daily_token_budget g - (tokens_used g + k)) 1000)
        as [H'|H']; [now assert (true = false) by (apply Hfalse; now right)|].
      now split.
  - destruct (proj1 Hfalse eq_refl) as [H|H].
    + split; [split; [discriminate|intros [H' _]; lra]|].
      split; [intros _ [H' _]; lra|reflexivity].
    + split; [split; [discriminate|intros [_ H']; lia]|].
      split; [intros _ [_ H']; lia|reflexivity].
Qed.

(** The token counts of a run are far inside the range of a float. *)
Lemma run_tokens_fit (k : Z) :
  (k = 0 \/ k = 100 \/ k = 250 \/ k = 2250)%Z -> fits_float k.
Proof.
  unfold fits_float. intros Hk.
  assert (2250 < double_overflow)%Z by reflexivity. lia.
Qed.

Lemma record_outcome (g : ExecutionGuard) (d : disk) (count : Z) :
  fits_float (tokens_used g + count) ->
  record (g, d) count =
  (((record_tokens g count).1, d),
   if (daily_token_budget g =? 0)%Z then Raises (Builtin ZeroDivisionError)
   else Returns tt).
Proof.
  intros Hfit. unfold record, record_tokens.
  cbn [fst snd daily_token_budget tokens_used].
  destruct (Z.eqb_spec (daily_token_budget g) 0) as [->|Hnz]; [reflexivity|].
  now rewrite (truediv_ok _ _ Hnz (fits_float_quotient _ _ Hnz Hfit)).
Qed.

Lemma get_status_outcome (g : ExecutionGuard) (now now' : Q) :
  (daily_token_budget g = 0%Z ->
   get_status g now now' = Raise ZeroDivisionError) /\
  (daily_token_budget g <> 0%Z -> fits_float (tokens_used g) ->
   exists st, get_status g now now' = Ok st /\
              status_tokens_used st = tokens_used g).
Proof.
  unfold get_status. split.
  - intros ->. reflexivity.
  - intros Hnz Hfit.
    rewrite (truediv_ok _ _ Hnz (fits_float_quotient _ _ Hnz Hfit)).
    eexists. split; reflexivity.
Qed.

Lemma validate_output_schema (py : library) (d : disk) (now : string)
    (output : gmap string value) (r : report) :
  validate_schema output = Returns (true, []) ->
  validate_output py d now output = Returns r ->
  schema_valid r = true /\ schema_errors r = [] /\
  overall_valid r = constraints_met r.
Proof.
  intros Hschema. unfold validate_output. rewrite Hschema.
  cbn [mbind outcome_bind].
  destruct (check_constraints py d output) as [[met violations]|e];
    cbn [mbind outcome_bind]; [|discriminate].
  intros [= <-]. now repeat split.
Qed.

(** What the [try] block leaves and returns: the tokens recorded, the polls
    that were answered, and the summary. *)
Lemma try_block_outcome (py : library) (date : string) (t : clock)
    (g : ExecutionGuard) (d : disk) :
  tokens_used g = 0%Z ->
  let r := try_block py date t (g, d) in
  exists k,
    (k = 0 \/ k = 100 \/ k = 250 \/ k = 2250)%Z /\
    spent g r.1.1 k /\
    (daily_token_budget g = 0%Z -> fails r.2) /\
    match r.2 with
    | Raises _ => True
    | Returns Halted =>
        ~ within_budget g 100 (poll1 t) \/
        (within_budget g 100 (poll1 t) /\ ~ within_budget g 250 (poll2 t))
    | Returns (Partial n) =>
        n = 3%Z /\ within_budget g 100 (poll1 t) /\
        within_budget g 250 (poll2 t) /\ ~ within_budget g 2250 (poll3 t)
    | Returns (Success date' st validation) =>
        date' = date /\ k = 2250%Z /\
        within_budget g 100 (poll1 t) /\ within_budget g 250 (poll2 t) /\
        within_budget g 2250 (poll3 t) /\
        get_status r.1.1 (status_read t).1 (status_read t).2 = Ok st /\
        schema_valid validation = true /\ schema_errors validation = [] /\
        overall_valid validation = constraints_met validation
    | Returns (Failed _ _) => False
    end.
Proof.
  intros Hnone r. unfold r, try_block. cbn [fst snd].
  pose proof (spent_refl g) as H0.
  pose proof (spent_record g g 0 100 H0) as H1.
  change (0 + 100)%Z with 100%Z in H1.
  pose proof (spent_record g _ 100 150 H1) as H2.
  change (100 + 150)%Z with 250%Z in H2.
  pose proof (spent_record g _ 250 2000 H2) as H3.
  change (250 + 2000)%Z with 2250%Z in H3.
  set (g1 := (record_tokens g 100).1) in *.
  set (g2 := (record_tokens g1 150).1) in *.
  set (g3 := (record_tokens g2 2000).1) in *.
  assert (Hb1 : daily_token_budget g1 = daily_token_budget g) by apply H1.
  assert (Hb2 : daily_token_budget g2 = daily_token_budget g) by apply H2.
  assert (Hfit0 : fits_float (tokens_used g + 100)).
  { rewrite Hnone. apply run_tokens_fit. tauto. }
  assert (Hfit1 : fits_float (tokens_used g1 + 150)).
  { destruct H1 as (_ & _ & _ & ->). rewrite Hnone. apply run_tokens_fit. tauto. }
  assert (Hfit2 : fits_float (tokens_used g2 + 2000)).
  { destruct H2 as (_ & _ & _ & ->). rewrite Hnone. apply run_tokens_fit. tauto. }
  destruct (fetch_events d date) as [raw_events|e];
    [|exists 0%Z; cbn; tauto].
  destruct (save_raw_events d date (raw_saved t) raw_events) as [d1|e];
    [|exists 0%Z; cbn; tauto].
  rewrite record_outcome by exact Hfit0. fold g1. cbn [fst snd].
  destruct (Z.eqb_spec (daily_token_budget g) 0) as [Hz|Hnz];
    [exists 100%Z; cbn; tauto|].
  destruct (should_continue_spent g g1 100 (poll1 t) H1) as [Hyes1 Hno1].
  destruct (should_continue g1 (poll1 t)); cbn [negb fst snd].
  2: { exists 100%Z. cbn [fst snd]. split; [tauto|]. split; [exact H1|].
       split; [contradiction|]. left. now apply Hno1. }
  destruct (load_raw_events d1 date) as [raw_data|e];
    [|exists 100%Z; cbn; tauto].
  destruct (get raw_data "events" (VList []) ≫= normalize_events (normalizing t))
    as [normalized|e]; [|exists 100%Z; cbn; tauto].
  destruct (save_normalized_events d1 date (normalized_saved t) normalized)
    as [d2|e]; [|exists 100%Z; cbn; tauto].
  rewrite record_outcome by exact Hfit1. fold g2. rewrite Hb1. cbn [fst snd].
  destruct (Z.eqb_spec (daily_token_budget g) 0) as [|_]; [contradiction|].
  destruct (should_continue_spent g g2 250 (poll2 t) H2) as [Hyes2 Hno2].
  destruct (should_continue g2 (poll2 t)); cbn [negb fst snd].
  2: { exists 250%Z. cbn [fst snd]. split; [tauto|]. split; [exact H2|].
       split; [contradiction|]. right.
       split; [now apply Hyes1|now apply Hno2]. }
  destruct (run_pipeline py d2 date (llm_started t) normalized)
    as [pipeline_output|e] eqn:Hrun; [|exists 250%Z; cbn; tauto].
  destruct (save_pipeline_output d2 date pipeline_output) as [u|e];
    [|exists 250%Z; cbn; tauto].
  rewrite record_outcome by exact Hfit2. fold g3. rewrite Hb2. cbn [fst snd].
  destruct (Z.eqb_spec (daily_token_budget g) 0) as [|_]; [contradiction|].
  destruct (should_continue_spent g g3 2250 (poll3 t) H3) as [Hyes3 Hno3].
  destruct (should_continue g3 (poll3 t)); cbn [negb fst snd].
  2: { exists 2250%Z. cbn [fst snd]. split; [tauto|]. split; [exact H3|].
       split; [contradiction|]. split; [reflexivity|].
       split; [now apply Hyes1|]. split; [now apply Hyes2|now apply Hno3]. }
  destruct (validate_output py d2 (validated t) pipeline_output)
    as [validation|e] eqn:Hval; [|exists 2250%Z; cbn; tauto].
  destruct (save_validation_report d2 date validation) as [u'|e];
    [|exists 2250%Z; cbn; tauto].
  destruct (get_status g3 (status_read t).1 (status_read t).2) as [st|e] eqn:Hst;
    cbn [lift]; [|exists 2250%Z; cbn; tauto].
  exists 2250%Z. cbn [fst snd]. split; [tauto|]. split; [exact H3|].
  split; [contradiction|]. split; [reflexivity|]. split; [reflexivity|].
  split; [now apply Hyes1|]. split; [now apply Hyes2|].
  split; [now apply Hyes3|]. split; [exact Hst|].
  destruct (run_pipeline_output py d2 date (llm_started t) normalized _ Hrun)
    as (_ & _ & _ & Hschema & _).
  exact (validate_output_schema py d2 (validated t) pipeline_output validation
           Hschema Hval).
Qed.

Lemma run_full_pipeline_unfold (py : library) (c : limits) (d : disk)
    (date : option string) (t : clock) :
  let g := start (init c) (started t) in
  let r := try_block py (effective_date date t) t (g, d) in
  run_full_pipeline py (Ok c) d date t =
  match r with
  | (st, Returns summary) => (st.2, Returns summary)
  | (st, Raises e) =>
      (st.2,
       status ← lift (get_status st.1 (status_read t).1 (status_read t).2);
       Returns (Failed e status))
  end.
Proof. reflexivity. Qed.

(** X27. The [except] clause does not make [run_full_pipeline] total.
    The call raises when the guard cannot be set up (that happens before
    the [try] block), and when [daily_token_budget] is zero: then every
    run ends in a [ZeroDivisionError], raised again by [get_status()] in
    the [except] clause, whatever the stages do.  With any other budget
    the call always returns a summary, and an exception of a stage is
    reported in it. *)
Theorem run_full_pipeline_raises (py : library) (c : limits) (d : disk)
    (date : option string) (t : clock) :
  (forall e, run_full_pipeline py (Raise e) d date t = (d, Raises (Builtin e))) /\
  (cfg_daily_token_budget c = 0%Z ->
   (run_full_pipeline py (Ok c) d date t).2 = Raises (Builtin ZeroDivisionError)) /\
  (cfg_daily_token_budget c <> 0%Z ->
   exists summary,
     (run_full_pipeline py (Ok c) d date t).2 = Returns summary /\
     forall e,
       (try_block py (effective_date date t) t
          (start (init c) (started t), d)).2 = Raises e ->
       exists st, summary = Failed e st).
Proof.
  split; [reflexivity|].
  rewrite run_full_pipeline_unfold. cbv zeta.
  destruct (try_block_outcome py (effective_date date t) t
              (start (init c) (started t)) d eq_refl)
    as (k & Hk & Hsp & Hzero & Hcase).
  destruct (try_block py (effective_date date t) t (start (init c) (started t), d))
    as [st [summary|e]]; cbn [fst snd] in *.
  - split.
    + intros Hz. destruct (Hzero Hz).
    + intros _. exists summary. split; [reflexivity|discriminate].
  - destruct Hsp as (_ & _ & Hb & Htok).
    cbn [daily_token_budget tokens_used start init] in Hb, Htok.
    destruct (get_status_outcome st.1 (status_read t).1 (status_read t).2)
      as [Hraise Hok].
    split.
    + intros Hz. rewrite Hraise by congruence. reflexivity.
    + intros Hnz. destruct Hok as (status & -> & _); [congruence| |].
      { rewrite Htok. now apply run_tokens_fit. }
      exists (Failed e status). split; [reflexivity|].
      intros e' [= <-]. now exists status.
Qed.

Lemma run_full_pipeline_raises_witness :
  (run_full_pipeline plain_library (Ok config_zero_budget) fresh_disk None
     sample_clock).2
  = Raises (Builtin ZeroDivisionError).
Proof.
  destruct (run_full_pipeline_raises plain_library config_zero_budget fresh_disk
              None sample_clock) as (_ & Hzero & _).
  apply Hzero. reflexivity.
Defined.

(** X28. What the summary of [run_full_pipeline] tells.  A guard that
    has recorded [k] tokens lets the run continue at a poll when at least
    30 seconds remain and the budget is at least [k + 1000].  The run is
    [halted] when the poll after the 100 tokens of the first stage or the
    poll after the 250 tokens of the first two stages stops it; it is
    [partial], with [steps_completed] 3, when those two polls pass and
    the poll after 2250 tokens stops it, which needs a budget of at least
    1250; it is a [success] only when the three polls pass, which needs a
    budget of at least 3250: then the status reports 2250 tokens used, and
    the validation report has a valid schema and no schema error.  An
    [error] summary reports 0, 100, 250 or 2250 tokens used. *)
Theorem run_full_pipeline_status (py : library) (c : limits) (d : disk)
    (date : option string) (t : clock) (summary : execution_summary) :
  (run_full_pipeline py (Ok c) d date t).2 = Returns summary ->
  let g := start (init c) (started t) in
  match summary with
  | Halted =>
      ~ within_budget g 100 (poll1 t) \/ ~ within_budget g 250 (poll2 t)
  | Partial n =>
      n = 3%Z /\ within_budget g 100 (poll1 t) /\
      within_budget g 250 (poll2 t) /\ ~ within_budget g 2250 (poll3 t) /\
      (1250 <= cfg_daily_token_budget c)%Z
  | Success date' st validation =>
      date' = effective_date date t /\
      within_budget g 100 (poll1 t) /\ within_budget g 250 (poll2 t) /\
      within_budget g 2250 (poll3 t) /\
      (3250 <= cfg_daily_token_budget c)%Z /\
      status_tokens_used st = 2250%Z /\
      schema_valid validation = true /\ schema_errors validation = [] /\
      overall_valid validation = constraints_met validation
  | Failed e st =>
      status_tokens_used st = 0%Z \/ status_tokens_used st = 100%Z \/
      status_tokens_used st = 250%Z \/ status_tokens_used st = 2250%Z
  end.
Proof.
  rewrite run_full_pipeline_unfold. cbv zeta.
  destruct (try_block_outcome py (effective_date date t) t
              (start (init c) (started t)) d eq_refl)
    as (k & Hk & Hsp & _ & Hcase).
  destruct (try_block py (effective_date date t) t (start (init c) (started t), d))
    as [st [summary'|e]]; cbn [fst snd] in *.
  - intros [= <-]. destruct summary' as [|n|date' status validation|e status].
    + destruct Hcase as [H|[_ H]]; [now left|now right].
    + destruct Hcase as (-> & H1 & H2 & H3).
      repeat (split; [assumption || reflexivity|]).
      destruct H2 as [_ H2]. cbn in H2. lia.
    + destruct Hcase as (-> & -> & H1 & H2 & H3 & Hst & Hv).
      split; [reflexivity|]. repeat (split; [assumption|]).
      split; [destruct H3 as [_ H3]; cbn in H3; lia|].
      split; [|exact Hv].
      destruct Hsp as (_ & _ & _ & Htok). cbn [tokens_used start init] in Htok.
      unfold get_status in Hst.
      destruct (truediv (tokens_used st.1) (daily_token_budget st.1));
        [|discriminate].
      cbn [mbind result_bind bind] in Hst. injection Hst as <-.
      cbn [status_tokens_used]. lia.
    + destruct Hcase.
  - destruct (get_status_outcome st.1 (status_read t).1 (status_read t).2)
      as [_ Hok].
    destruct (get_status st.1 (status_read t).1 (status_read t).2)
      as [status|e'] eqn:Hst; cbn [lift mbind outcome_bind]; [|discriminate].
    intros [= <-].
    destruct (Z.eq_dec (daily_token_budget st.1) 0%Z) as [Hz|Hnz].
    { unfold get_status, truediv in Hst. rewrite Hz in Hst. discriminate. }
    destruct Hsp as (_ & _ & _ & Hused). cbn [tokens_used start init] in Hused.
    destruct (Hok Hnz) as (status' & [= <-] & Htok).
    { rewrite Hused. now apply run_tokens_fit. }
    rewrite Htok, Hused. lia.
Qed.

Lemma run_full_pipeline_status_witness :
  let g := start (init config_small_budget) (started sample_clock) in
  3%Z = 3%Z /\ within_budget g 100 (poll1 sample_clock) /\
  within_budget g 250 (poll2 sample_clock) /\
  ~ within_budget g 2250 (poll3 sample_clock) /\
  (1250 <= cfg_daily_token_budget config_small_budget)%Z.
Proof.
  apply (run_full_pipeline_status plain_library config_small_budget fresh_disk
           None sample_clock (Partial 3)).
  vm_compute. reflexivity.
Defined.

End PipelineFacts.

(** ** The query tool *)

Module ToolsFacts.
Import Py Calendar Sources CalendarFacts Tools.

Lemma query_market_by_type (calendar : MarketCalendar) (args : arguments)
    (today : string) (future_date : Z -> string) (type : string) :
  given (arg_ticker args) = false -> arg_type args = Some type ->
  In type type_choices ->
  query_market calendar args today future_date =
  (event_type ← EventType_of_value type;
   Ok (Events (List.map to_dict <$> get_events_by_type calendar event_type))).
Proof.
  intros Hticker Htype Hin. unfold query_market. rewrite Hticker, Htype.
  cbn [default from_option id].
  replace (given (Some type)) with true; [reflexivity|].
  cbn in Hin. intuition (subst; reflexivity).
Qed.

(** X29. The [--type] option of the query tool and the [EventType]
    enumeration disagree.  When no ticker is given and [--type] has one of
    the seven values that the command line accepts, the query of a market
    raises a [ValueError] exactly for [split], [economic] and [merger],
    which are no values of the enumeration; for [earnings], [dividend],
    [ipo] and [conference] it returns the events of that type.  So no
    accepted command line queries the types [SPLIT], [ECONOMIC] or
    [MERGER], and with one of the three rejected values the whole tool
    fails at the first market, once the calendars are loaded. *)
Theorem query_by_type_choices (calendar : MarketCalendar) (args : arguments)
    (today : string) (future_date : Z -> string) (type : string) :
  given (arg_ticker args) = false -> arg_type args = Some type ->
  In type type_choices ->
  let answer := query_market calendar args today future_date in
  (answer = Raise ValueError <->
   type = "split" \/ type = "economic" \/ type = "merger") /\
  (forall a, answer = Ok a ->
     exists t, In t queryable_types /\ event_type_value t = type /\
               a = Events (List.map to_dict <$> get_events_by_type calendar t)) /\
  (raises answer \/ exists a, answer = Ok a) /\
  (forall ds loaded mgr,
     In (arg_market args) market_choices ->
     manager_init ds loaded.1 loaded.2 = Ok mgr ->
     type = "split" \/ type = "economic" \/ type = "merger" ->
     query_main ds loaded args today future_date = Raise ValueError).
Proof.
  intros Hticker Htype Hin answer.
  assert (Hquery : forall cal,
            query_market cal args today future_date =
            (event_type ← EventType_of_value type;
             Ok (Events (List.map to_dict <$> get_events_by_type cal event_type))))
    by (intros cal; now apply query_market_by_type).
  unfold answer. rewrite Hquery.
  split; [|split; [|split]].
  - cbn in Hin.
    destruct Hin as [<-|[<-|[<-|[<-|[<-|[<-|[<-|[]]]]]]]]; cbn;
      split; try discriminate; try tauto;
      intros [H|[H|H]]; discriminate H.
  - intros a. cbn in Hin.
    destruct Hin as [<-|[<-|[<-|[<-|[<-|[<-|[<-|[]]]]]]]]; cbn;
      try discriminate; intros [= <-].
    + exists EARNINGS. cbn. tauto.
    + exists DIVIDEND. cbn. tauto.
    + exists IPO. cbn. tauto.
    + exists CONFERENCE. cbn. tauto.
  - destruct (EventType_of_value type); cbn; [right; eauto|now left].
  - intros ds loaded mgr Hmarket Hinit Hbad. unfold query_main.
    rewrite Hinit. cbn [mbind result_bind bind].
    assert (Hfirst : forall cal,
              query_market cal args today future_date = Raise ValueError).
    { intros cal. rewrite Hquery.
      destruct Hbad as [->|[->| ->]]; reflexivity. }
    cbn in Hmarket. destruct Hmarket as [<-|[<-|[<-|[]]]];
      unfold selected_markets; cbn -[query_market get_calendar];
      rewrite !Hfirst; reflexivity.
Qed.

Lemma query_by_type_choices_witness :
  query_main empty_disks ("2026-01-29T08:00:00", "2026-01-29T08:00:01")
    (by_type "all" "merger") "2026-01-29" (fun _ => "2026-02-28")
  = Raise ValueError.
Proof.
  destruct (query_by_type_choices (empty_calendar FTSE) (by_type "all" "merger")
              "2026-01-29" (fun _ => "2026-02-28") "merger")
    as (_ & _ & _ & Hmain).
  - reflexivity.
  - reflexivity.
  - cbn. tauto.
  - apply (Hmain empty_disks _ {| ftse_calendar := empty_calendar FTSE;
                                  nasdaq_calendar := empty_calendar NASDAQ |}).
    + cbn. tauto.
    + reflexivity.
    + now right; right.
Defined.

Lemma init_reads_yaml_only (m : Market) (d d' : disk) (now : string) :
  calendar_yaml d' = calendar_yaml d -> init m d' now = init m d now.
Proof. intros H. unfold init, _load_local_calendar. now rewrite H. Qed.

(** X30. An update exported as JSON is lost.  When the calendars load
    and both directories can be written, [update_calendars.py] with
    [--export json] populates the selected calendars and writes each
    calendar to its [calendar.json]; but since the calendars are only ever
    loaded from [calendar.yaml], constructing the manager afterwards, which
    is how every tool starts, gives exactly what it gave before the
    update. *)
Theorem json_export_loses_the_update (sources : list DataSource) (ds : disks)
    (arg_market : string) (arg_days : Z) (loaded saved : string * string)
    (mgr : MarketCalendarManager) :
  In arg_market market_choices ->
  write_fails (ftse_disk ds) = false -> write_fails (nasdaq_disk ds) = false ->
  manager_init ds loaded.1 loaded.2 = Ok mgr ->
  exists ds' mgr',
    update_main sources ds arg_market arg_days "json" loaded saved
    = (ds', Ok mgr') /\
    (arg_market = "all" ->
     ftse_calendar mgr' = populate_calendar sources (ftse_calendar mgr) arg_days /\
     nasdaq_calendar mgr'
     = populate_calendar sources (nasdaq_calendar mgr) arg_days) /\
    calendar_json (ftse_disk ds')
    = Holds (Some (dump_data (ftse_calendar mgr') saved.1)) /\
    calendar_json (nasdaq_disk ds')
    = Holds (Some (dump_data (nasdaq_calendar mgr') saved.2)) /\
    forall now_ftse now_nasdaq,
      manager_init ds' now_ftse now_nasdaq = manager_init ds now_ftse now_nasdaq.
Proof.
  intros Hmarket Hftse Hnasdaq Hinit. unfold update_main. rewrite Hinit.
  assert (Hmarkets : exists markets,
            markets_to_update arg_market = Ok markets /\
            (arg_market = "all" -> markets = [FTSE; NASDAQ])).
  { cbn in Hmarket. destruct Hmarket as [<-|[<-|[<-|[]]]];
      eexists; (split; [reflexivity|]); try discriminate. reflexivity. }
  destruct Hmarkets as (markets & -> & Hall).
  set (mgr' := fold_left (update_market sources arg_days) markets mgr).
  unfold save_all. rewrite !CalendarMore.save_calendar_outcome.
  cbn [String.eqb Ascii.eqb Bool.eqb]. rewrite Hftse, Hnasdaq.
  eexists _, mgr'. split; [reflexivity|].
  split.
  { intros Hm. unfold mgr'. rewrite (Hall Hm). now split. }
  split; [reflexivity|]. split; [reflexivity|].
  intros now_ftse now_nasdaq. unfold manager_init. cbn [ftse_disk nasdaq_disk].
  rewrite (init_reads_yaml_only FTSE (ftse_disk ds)) by reflexivity.
  now rewrite (init_reads_yaml_only NASDAQ (nasdaq_disk ds)) by reflexivity.
Qed.

Lemma json_export_loses_the_update_witness :
  exists ds' mgr',
    update_main [source_A; source_B; source_C] empty_disks "nasdaq" 90 "json"
      ("2026-01-29T08:00:00", "2026-01-29T08:00:01")
      ("2026-01-29T08:00:02", "2026-01-29T08:00:03")
    = (ds', Ok mgr') /\
    manager_init ds' "2026-01-30T08:00:00" "2026-01-30T08:00:01"
    = manager_init empty_disks "2026-01-30T08:00:00" "2026-01-30T08:00:01".
Proof.
  destruct (json_export_loses_the_update [source_A; source_B; source_C]
              empty_disks "nasdaq" 90
              ("2026-01-29T08:00:00", "2026-01-29T08:00:01")
              ("2026-01-29T08:00:02", "2026-01-29T08:00:03")
              {| ftse_calendar := empty_calendar FTSE;
                 nasdaq_calendar := empty_calendar NASDAQ |})
    as (ds' & mgr' & Hrun & _ & _ & _ & Hsame).
  - cbn. tauto.
  - reflexivity.
  - reflexivity.
  - reflexivity.
  - exists ds', mgr'. split; [exact Hrun|apply Hsame].
Defined.

End ToolsFacts.
